(** * ForgeCAD / TesseractForge: result aggregation, checked against the code

    A shallow embedding of the Python functions that merge the outcome of
    several extraction engines:

    - [combine_results] and the gathering part of [comprehensive_analysis]
      (tesseractforge/scripts/comprehensive_ocr_pipeline.py),
    - the performance block of [ComprehensiveAIOCR.comprehensive_analysis]
      (tesseractforge/modules/comprehensive_ai_ocr.py),
    - [_summarize_api_results] and [_calculate_ocr_confidence]
      (tesseractforge/modules/data_pipeline.py),
    - [_calculate_comprehensive_quality_score]
      (tesseractforge/cadly_ultimate_integration.py),
    - the orientation test of [_detect_lines]
      (tesseractforge/modules/enhanced_symbol_detection.py).

    The code passes untyped nested dictionaries around, so the embedding
    keeps them untyped: a Python value is a [Py.val], a method call that
    Python would reject raises in the [Py.res] monad.  Python floats are
    read as exact rationals ([Q]); rounding is outside the model.

    The second half of the file follows the same data further through the
    code: the engine wrappers, the summary and the batch loop of
    comprehensive_ai_ocr.py; the text extractions and the pipeline
    statistics of data_pipeline.py; the average confidence of
    semantic_understanding.py; the assessment, the performance summary,
    the recommendations and the system statistics of
    cadly_ultimate_integration.py; the shape classification of
    enhanced_symbol_detection.py.  What OpenCV, the engines and the clock
    return is an input of these models. *)

From Stdlib Require Import List String Ascii ZArith QArith Qabs Bool Lia Lqa Permutation.
Import ListNotations.

Local Close Scope Q_scope.
Local Open Scope string_scope.
Local Open Scope list_scope.

(* ===================================================================== *)
(** ** A fragment of the Python object model *)
(* ===================================================================== *)

Module Py.

Inductive exn : Type :=
| TypeError
| AttributeError
| KeyError.

#[local] Set Warnings "-register-all".

(** Dictionaries keep insertion order, as Python's do; every key the code
    under study uses is a string. *)
Inductive val : Type :=
| VNone
| VBool (b : bool)
| VInt (z : Z)
| VFloat (q : Q)
| VStr (s : string)
| VList (l : list val)
| VDict (d : list (string * val)).

Definition dict : Type := list (string * val).

Inductive res (A : Type) : Type :=
| Ok (a : A)
| Raise (e : exn).
Arguments Ok {A} a.
Arguments Raise {A} e.

Definition bind {A B : Type} (m : res A) (f : A -> res B) : res B :=
  match m with
  | Ok a => f a
  | Raise e => Raise e
  end.

Definition keys (d : dict) : list string := map fst d.
Definition values (d : dict) : list val := map snd d.

Fixpoint lookup (k : string) (d : dict) : option val :=
  match d with
  | [] => None
  | (k', v) :: d' => if (k' =? k)%string then Some v else lookup k d'
  end.

Definition has_key (k : string) (d : dict) : bool :=
  match lookup k d with Some _ => true | None => false end.

(** [d[k] = v]: an existing key keeps its place, a new key goes last. *)
Fixpoint set (k : string) (v : val) (d : dict) : dict :=
  match d with
  | [] => [(k, v)]
  | (k', v') :: d' =>
      if (k' =? k)%string then (k, v) :: d' else (k', v') :: set k v d'
  end.

(** What [str.strip()] removes, restricted to one-byte characters. *)
Definition is_space (c : ascii) : bool :=
  let n := nat_of_ascii c in
  ((9 <=? n)%nat && (n <=? 13)%nat) || ((28 <=? n)%nat && (n <=? 32)%nat).

Fixpoint lstrip (s : string) : string :=
  match s with
  | EmptyString => EmptyString
  | String c s' => if is_space c then lstrip s' else s
  end.

Fixpoint rstrip (s : string) : string :=
  match s with
  | EmptyString => EmptyString
  | String c s' =>
      match rstrip s' with
      | EmptyString => if is_space c then EmptyString else String c EmptyString
      | r => String c r
      end
  end.

Definition str_strip (s : string) : string := rstrip (lstrip s).

Definition str_truthy (s : string) : bool :=
  match s with EmptyString => false | _ => true end.

Fixpoint is_substring (p s : string) : bool :=
  String.prefix p s ||
  match s with
  | EmptyString => false
  | String _ s' => is_substring p s'
  end.

Definition eq_str (v : val) (k : string) : bool :=
  match v with VStr s => (s =? k)%string | _ => false end.

(** [k in v] for a string [k]. *)
Definition contains (k : string) (v : val) : res bool :=
  match v with
  | VDict d => Ok (has_key k d)
  | VList l => Ok (existsb (fun x => eq_str x k) l)
  | VStr s => Ok (is_substring k s)
  | _ => Raise TypeError
  end.

(** [v[k]] for a string [k]. *)
Definition getitem (v : val) (k : string) : res val :=
  match v with
  | VDict d =>
      match lookup k d with
      | Some x => Ok x
      | None => Raise KeyError
      end
  | _ => Raise TypeError
  end.

(** [v.get(k, default)]. *)
Definition get (v : val) (k : string) (default : val) : res val :=
  match v with
  | VDict d =>
      match lookup k d with
      | Some x => Ok x
      | None => Ok default
      end
  | _ => Raise AttributeError
  end.

(** [v.strip()]. *)
Definition strip (v : val) : res string :=
  match v with
  | VStr s => Ok (str_strip s)
  | _ => Raise AttributeError
  end.

(** [v.values()]. *)
Definition dict_values (v : val) : res (list val) :=
  match v with
  | VDict d => Ok (values d)
  | _ => Raise AttributeError
  end.

(** A number, as [int], [float] or [bool]. *)
Definition as_number (v : val) : res Q :=
  match v with
  | VInt z => Ok (inject_Z z)
  | VFloat q => Ok q
  | VBool b => Ok (if b then 1%Q else 0%Q)
  | _ => Raise TypeError
  end.

(** [v > 0] for a number [v]; other operands are not ordered with [int]. *)
Definition gt0 (v : val) : res bool :=
  match as_number v with
  | Ok q => Ok (negb (Qle_bool q 0))
  | Raise e => Raise e
  end.

Definition as_int (v : val) : option Z :=
  match v with
  | VInt z => Some z
  | VBool b => Some (if b then 1%Z else 0%Z)
  | _ => None
  end.

(** [a + b] where [a] is a number: integers stay integers, anything else
    that is a number gives a float. *)
Definition add (a b : val) : res val :=
  match as_int a, as_int b with
  | Some x, Some y => Ok (VInt (x + y))
  | _, _ =>
      match as_number a, as_number b with
      | Ok x, Ok y => Ok (VFloat (x + y))
      | Raise e, _ => Raise e
      | _, Raise e => Raise e
      end
  end.

(** [sum(l)] for a list of numbers, read as a rational. *)
Fixpoint sum (l : list val) : res Q :=
  match l with
  | [] => Ok 0%Q
  | v :: l' =>
      match as_number v, sum l' with
      | Ok x, Ok y => Ok (x + y)%Q
      | Raise e, _ => Raise e
      | _, Raise e => Raise e
      end
  end.

End Py.

Import Py.

Notation "x <- m ;; k" := (Py.bind m (fun x => k))
  (at level 61, m at next level, right associativity).

(* ===================================================================== *)
(** ** comprehensive_ocr_pipeline.py *)
(* ===================================================================== *)

Module Pipeline.

(** The dictionary [combined] that [combine_results] builds. *)
Record combined : Type := mkCombined {
  all_text : list val;
  shapes_detected : val;
  lines_detected : val;
  confidence_scores : dict;
  method_summary : dict
}.

Definition empty_combined : combined :=
  mkCombined [] (VList []) (VList []) [] [].

Definition text_entry (method text type : string) : val :=
  VDict [("method", VStr method); ("text", VStr text); ("type", VStr type)].

(** [if key in result and result[key].strip(): all_text.append({...})] *)
Definition append_text (texts : list val) (result : val)
    (key method type : string) : res (list val) :=
  present <- contains key result ;;
  if (present : bool) then
    v <- getitem result key ;;
    s <- strip v ;;
    if str_truthy s
    then Ok (texts ++ [text_entry method s type])
    else Ok texts
  else Ok texts.

(** [if key in result and key in result[key]: target = result[key][key]] *)
Definition pick_nested (current : val) (result : val) (key : string) : res val :=
  present <- contains key result ;;
  if (present : bool) then
    inner <- getitem result key ;;
    nested <- contains key inner ;;
    if (nested : bool) then getitem inner key else Ok current
  else Ok current.

(** [result.get(outer, {}).get(inner, 0)] *)
Definition get_nested (result : val) (outer inner : string) : res val :=
  o <- get result outer (VDict []) ;;
  get o inner (VInt 0).

(** One turn of the loop [for method, result in method_results.items()]. *)
Definition combine_step (c : combined) (method : string) (result : val)
    : res combined :=
  if (method =? "tesseract")%string then
    texts <- append_text (all_text c) result "extracted_text" "tesseract" "printed" ;;
    detections <- get result "total_detections" (VInt 0) ;;
    Ok (mkCombined texts (shapes_detected c) (lines_detected c)
          (confidence_scores c)
          (Py.set "tesseract"
             (VDict [("detections", detections); ("type", VStr "printed_text")])
             (method_summary c)))
  else if (method =? "trocr")%string then
    texts <- append_text (all_text c) result "text" "trocr" "handwritten" ;;
    t <- get result "text" (VStr "") ;;
    s <- strip t ;;
    Ok (mkCombined texts (shapes_detected c) (lines_detected c)
          (confidence_scores c)
          (Py.set "trocr"
             (VDict [("text_found", VBool (str_truthy s));
                     ("type", VStr "handwritten_text")])
             (method_summary c)))
  else if (method =? "google_vision")%string then
    texts <- append_text (all_text c) result "text" "google_vision" "mixed" ;;
    detections <- get result "total_detections" (VInt 0) ;;
    Ok (mkCombined texts (shapes_detected c) (lines_detected c)
          (confidence_scores c)
          (Py.set "google_vision"
             (VDict [("detections", detections); ("type", VStr "mixed_text")])
             (method_summary c)))
  else if (method =? "yolo")%string then
    shapes <- pick_nested (shapes_detected c) result "shapes" ;;
    lines <- pick_nested (lines_detected c) result "lines" ;;
    n_shapes <- get_nested result "shapes" "total_shapes" ;;
    n_lines <- get_nested result "lines" "total_lines" ;;
    n_objects <- get_nested result "yolo" "total_detections" ;;
    Ok (mkCombined (all_text c) shapes lines
          (confidence_scores c)
          (Py.set "yolo"
             (VDict [("shapes", n_shapes); ("lines", n_lines);
                     ("objects", n_objects); ("type", VStr "visual_elements")])
             (method_summary c)))
  else Ok c.

Fixpoint combine_loop (items : dict) (c : combined) : res combined :=
  match items with
  | [] => Ok c
  | (method, result) :: rest =>
      c' <- combine_step c method result ;;
      combine_loop rest c'
  end.

Definition combine_results (method_results : dict) : res combined :=
  combine_loop method_results empty_combined.

End Pipeline.

(* ===================================================================== *)
(** ** comprehensive_ocr_pipeline.py: the gathering part of
       [comprehensive_analysis] *)
(* ===================================================================== *)

Module Gather.

Import Pipeline.

(** What the engines returned for one image (the image file exists; the
    method returns early otherwise).  [None] stands for an engine that is
    not run: [model_loaded] false for TrOCR and YOLO, [use_google_vision]
    false for Google Vision.  Tesseract always runs. *)
Record engine_outputs : Type := mkOutputs {
  tesseract_result : val;
  handwriting_result : option val;
  symbol_result : option val;
  gv_result : option val
}.

(** The state the method threads: [results['methods_used']] and
    [results['results']]. *)
Definition gathered : Type := (list string * dict)%type.

(** [if 'error' not in r: methods_used.append(name); results[name] = r]
    [else: print(r['error'])] *)
Definition record_result (g : gathered) (name : string) (r : val)
    (report : val -> res unit) : res gathered :=
  failed <- contains "error" r ;;
  if (failed : bool) then
    _ <- getitem r "error" ;;
    Ok g
  else
    _ <- report r ;;
    Ok (fst g ++ [name], Py.set name r (snd g)).

Definition report_detections (r : val) : res unit :=
  _ <- get r "total_detections" (VInt 0) ;; Ok tt.

Definition report_nothing (r : val) : res unit := Ok tt.

Definition report_symbols (r : val) : res unit :=
  _ <- get_nested r "shapes" "total_shapes" ;;
  _ <- get_nested r "lines" "total_lines" ;;
  _ <- get_nested r "yolo" "total_detections" ;;
  Ok tt.

Definition record_optional (g : gathered) (name : string) (r : option val)
    (report : val -> res unit) : res gathered :=
  match r with
  | Some v => record_result g name v report
  | None => Ok g
  end.

Definition gather_results (e : engine_outputs) : res gathered :=
  g1 <- record_result ([], []) "tesseract" (tesseract_result e) report_detections ;;
  g2 <- record_optional g1 "trocr" (handwriting_result e) report_nothing ;;
  g3 <- record_optional g2 "yolo" (symbol_result e) report_symbols ;;
  record_optional g3 "google_vision" (gv_result e) report_nothing.

(** [results['combined'] = self.combine_results(results['results'])] *)
Definition comprehensive_analysis (e : engine_outputs) : res combined :=
  g <- gather_results e ;;
  combine_results (snd g).

(** The sources the method runs, in the order it runs them. *)
Definition attempted (e : engine_outputs) : list string :=
  ["tesseract"]
  ++ (match handwriting_result e with Some _ => ["trocr"] | None => [] end)
  ++ (match symbol_result e with Some _ => ["yolo"] | None => [] end)
  ++ (match gv_result e with Some _ => ["google_vision"] | None => [] end).

End Gather.

(* ===================================================================== *)
(** ** comprehensive_ai_ocr.py: the performance block *)
(* ===================================================================== *)

Module AiOcr.

(** [result.get('status') == 'success'] *)
Definition is_success (result : val) : res bool :=
  st <- get result "status" VNone ;;
  Ok (eq_str st "success").

(** [sum(1 for result in results if result.get('status') == 'success')] *)
Fixpoint count_success (results : list val) : res nat :=
  match results with
  | [] => Ok 0%nat
  | r :: rest =>
      ok <- is_success r ;;
      n <- count_success rest ;;
      Ok (if (ok : bool) then S n else n)
  end.

Definition Q_of_nat (n : nat) : Q := inject_Z (Z.of_nat n).

Record performance : Type := mkPerformance {
  successful_apis : nat;
  total_apis_attempted : nat;
  success_rate : val;
  apis_used : list string
}.

(** ['success_rate': (successful_apis / total_apis) * 100
                     if total_apis > 0 else 0] *)
Definition rate (successful total : nat) : val :=
  if (0 <? total)%nat
  then VFloat ((Q_of_nat successful / Q_of_nat total) * 100)%Q
  else VInt 0.

Definition compute_performance (api_results : dict) : res performance :=
  successful <- count_success (values api_results) ;;
  let total := List.length api_results in
  Ok (mkPerformance successful total (rate successful total) (keys api_results)).

End AiOcr.

(* ===================================================================== *)
(** ** data_pipeline.py *)
(* ===================================================================== *)

Module DataPipeline.

Import AiOcr.

(** The counters of [summary] while the loop of [_summarize_api_results]
    runs. *)
Record tally : Type := mkTally {
  successful : Z;
  failed : Z;
  total_tokens_used : val;
  total_processing_time : val;
  api_performance : dict
}.

Definition summarize_step (t : tally) (api_name : string) (result : val)
    : res tally :=
  ok <- is_success result ;;
  if (ok : bool) then
    tokens <- get result "tokens_used" (VInt 0) ;;
    tokens_sum <- add (total_tokens_used t) tokens ;;
    time <- get result "processing_time" (VInt 0) ;;
    time_sum <- add (total_processing_time t) time ;;
    time' <- get result "processing_time" (VInt 0) ;;
    tokens' <- get result "tokens_used" (VInt 0) ;;
    Ok (mkTally (successful t + 1) (failed t) tokens_sum time_sum
          (Py.set api_name
             (VDict [("status", VStr "success");
                     ("processing_time", time');
                     ("tokens_used", tokens')])
             (api_performance t)))
  else
    err <- get result "error" (VStr "Unknown error") ;;
    Ok (mkTally (successful t) (failed t + 1)
          (total_tokens_used t) (total_processing_time t)
          (Py.set api_name
             (VDict [("status", VStr "failed"); ("error", err)])
             (api_performance t))).

Fixpoint summarize_loop (items : dict) (t : tally) : res tally :=
  match items with
  | [] => Ok t
  | (api_name, result) :: rest =>
      t' <- summarize_step t api_name result ;;
      summarize_loop rest t'
  end.

Definition _summarize_api_results (api_results : dict) : res val :=
  t <- summarize_loop api_results
         (mkTally 0 0 (VInt 0) (VFloat 0) []) ;;
  Ok (VDict [("total_apis_used", VInt (Z.of_nat (List.length api_results)));
             ("successful_apis", VInt (successful t));
             ("failed_apis", VInt (failed t));
             ("total_tokens_used", total_tokens_used t);
             ("total_processing_time", total_processing_time t);
             ("api_performance", VDict (api_performance t))]).

(** The list [confidences] that [_calculate_ocr_confidence] collects. *)
Fixpoint collect_confidences (results : list val) : res (list val) :=
  match results with
  | [] => Ok []
  | result :: rest =>
      ok <- is_success result ;;
      mine <-
        (if (ok : bool) then
           explicit <- contains "confidence" result ;;
           if (explicit : bool) then
             c <- getitem result "confidence" ;; Ok [c]
           else
             tokens <- get result "tokens_used" (VInt 0) ;;
             ai <- gt0 tokens ;;
             if (ai : bool) then Ok [VFloat 0.8] else Ok [VFloat 0.6]
         else Ok []) ;;
      others <- collect_confidences rest ;;
      Ok (mine ++ others)
  end.

(** [sum(confidences) / len(confidences) if confidences else 0.0] *)
Definition mean_or_zero (confidences : list val) : res val :=
  match confidences with
  | [] => Ok (VFloat 0)
  | _ =>
      total <- Py.sum confidences ;;
      Ok (VFloat (total / Q_of_nat (List.length confidences)))
  end.

Definition _calculate_ocr_confidence (ocr_results : val) : res val :=
  api_results <- get ocr_results "api_results" (VDict []) ;;
  results <- dict_values api_results ;;
  confidences <- collect_confidences results ;;
  mean_or_zero confidences.

End DataPipeline.

(* ===================================================================== *)
(** ** cadly_ultimate_integration.py *)
(* ===================================================================== *)

Module Cadly.

(** [d.get(a, {}).get(b, {})] *)
Definition section (d : val) (a b : string) : res val :=
  x <- get d a (VDict []) ;;
  get x b (VDict []).

Definition Qmin (a b : Q) : Q := if Qle_bool a b then a else b.

Definition ocr_score (structured_data : val) : res (list Q) :=
  api_summary <- section structured_data "ocr_analysis" "api_results_summary" ;;
  used <- get api_summary "total_apis_used" (VInt 0) ;;
  positive <- gt0 used ;;
  if (positive : bool) then
    s <- get api_summary "successful_apis" (VInt 0) ;;
    t <- get api_summary "total_apis_used" (VInt 1) ;;
    sq <- as_number s ;;
    tq <- as_number t ;;
    Ok [((sq / tq) * 0.3)%Q]
  else Ok [].

Definition symbol_score (structured_data : val) : res (list Q) :=
  symbol_performance <- section structured_data "symbol_analysis" "performance" ;;
  n <- get symbol_performance "total_elements_detected" (VInt 0) ;;
  positive <- gt0 n ;;
  if (positive : bool) then
    n' <- get symbol_performance "total_elements_detected" (VInt 0) ;;
    nq <- as_number n' ;;
    Ok [(Qmin (nq / 20) 1 * 0.25)%Q]
  else Ok [].

Definition semantic_score (structured_data : val) : res (list Q) :=
  semantic_performance <- section structured_data "semantic_analysis" "performance" ;;
  semantic_confidence <- get semantic_performance "average_confidence" (VInt 0) ;;
  positive <- gt0 semantic_confidence ;;
  if (positive : bool) then
    cq <- as_number semantic_confidence ;;
    Ok [(cq * 0.35)%Q]
  else Ok [].

Definition richness_score (structured_data : val) : res (list Q) :=
  quality_metrics <- section structured_data "technical_data" "quality_metrics" ;;
  content_richness <- get quality_metrics "technical_content_richness" (VInt 0) ;;
  positive <- gt0 content_richness ;;
  if (positive : bool) then
    rq <- as_number content_richness ;;
    Ok [(Qmin (rq / 15) 1 * 0.1)%Q]
  else Ok [].

Fixpoint Qsum (l : list Q) : Q :=
  match l with
  | [] => 0%Q
  | x :: l' => (x + Qsum l')%Q
  end.

(** [return sum(scores) if scores else 0.5] *)
Definition _calculate_comprehensive_quality_score (structured_data : val)
    : res val :=
  s1 <- ocr_score structured_data ;;
  s2 <- symbol_score structured_data ;;
  s3 <- semantic_score structured_data ;;
  s4 <- richness_score structured_data ;;
  let scores := s1 ++ s2 ++ s3 ++ s4 in
  match scores with
  | [] => Ok (VFloat 0.5)
  | _ => Ok (VFloat (Qsum scores))
  end.

End Cadly.

(* ===================================================================== *)
(** ** enhanced_symbol_detection.py: the orientation of a detected line *)
(* ===================================================================== *)

Module SymbolDetection.

Inductive orientation : Type :=
| horizontal
| vertical
| diagonal.

(** [a < b] on rationals, as a boolean. *)
Definition Qlt_bool (a b : Q) : bool := negb (Qle_bool b a).

(** The test of [_detect_lines], for an [angle] in degrees. *)
Definition classify (angle : Q) : orientation :=
  if Qlt_bool (Qabs angle) 10 || Qlt_bool 170 (Qabs angle) then horizontal
  else if Qlt_bool 80 (Qabs angle) && Qlt_bool (Qabs angle) 100 then vertical
  else diagonal.

End SymbolDetection.

(* ===================================================================== *)
(** ** Vocabulary of the statements *)
(* ===================================================================== *)

Module Spec.

Import Pipeline.

(** The method names [combine_results] dispatches on. *)
Definition recognised (method : string) : bool :=
  (method =? "tesseract")%string || (method =? "trocr")%string ||
  (method =? "google_vision")%string || (method =? "yolo")%string.

(** [key] is absent from [d] or holds a string. *)
Definition str_or_absent (d : dict) (key : string) : bool :=
  match lookup key d with
  | None | Some (VStr _) => true
  | Some _ => false
  end.

(** [key] is absent from [d] or holds a dictionary. *)
Definition dict_or_absent (d : dict) (key : string) : bool :=
  match lookup key d with
  | None | Some (VDict _) => true
  | Some _ => false
  end.

(** The shape of the dictionaries the engines return, as far as
    [combine_results] reads them: text under a string, the three YOLO
    sections as dictionaries.  Entries under other names are not read. *)
Definition well_typed (method : string) (result : val) : bool :=
  if recognised method then
    match result with
    | VDict d =>
        if (method =? "tesseract")%string then str_or_absent d "extracted_text"
        else if (method =? "yolo")%string then
          dict_or_absent d "shapes" && dict_or_absent d "lines" &&
          dict_or_absent d "yolo"
        else str_or_absent d "text"
    | _ => false
    end
  else true.

Definition well_typed_input (method_results : dict) : bool :=
  forallb (fun kv => well_typed (fst kv) (snd kv)) method_results.

(** A Python dictionary has each key once. *)
Definition unique_keys (d : dict) : Prop := NoDup (keys d).

(** The stripped text under [key], when there is some. *)
Definition text_field (result : val) (key : string) : option string :=
  match result with
  | VDict d =>
      match lookup key d with
      | Some (VStr s) => Some (str_strip s)
      | _ => None
      end
  | _ => None
  end.

Definition text_items (text : option string) (method type : string) : list val :=
  match text with
  | Some s => if str_truthy s then [text_entry method s type] else []
  | None => []
  end.

(** What one entry of the input adds to [all_text]. *)
Definition text_of (method : string) (result : val) : list val :=
  if (method =? "tesseract")%string
  then text_items (text_field result "extracted_text") "tesseract" "printed"
  else if (method =? "trocr")%string
  then text_items (text_field result "text") "trocr" "handwritten"
  else if (method =? "google_vision")%string
  then text_items (text_field result "text") "google_vision" "mixed"
  else [].

(** [result[key][key]], when both levels are there. *)
Definition nested (result : val) (key : string) : option val :=
  match result with
  | VDict d =>
      match lookup key d with
      | Some (VDict d') => lookup key d'
      | _ => None
      end
  | _ => None
  end.

(** The elements of a Python list. *)
Definition items (v : val) : list val :=
  match v with
  | VList l => l
  | _ => []
  end.

(** What one entry of the input puts in [shapes_detected] (with
    [key = "shapes"]) or [lines_detected] (with [key = "lines"]): only the
    entry named yolo is read. *)
Definition detected_of (key : string) (method : string) (result : val)
    : option val :=
  if (method =? "yolo")%string then nested result key else None.

Definition detected_items (key : string) (kv : string * val) : list val :=
  match detected_of key (fst kv) (snd kv) with
  | Some v => items v
  | None => []
  end.

(** What any entry would add if every source's shapes (or lines) were
    concatenated, whatever its name. *)
Definition offered_items (key : string) (kv : string * val) : list val :=
  match nested (snd kv) key with
  | Some v => items v
  | None => []
  end.

Definition detected_of_entry (key : string) (kv : string * val) : option val :=
  detected_of key (fst kv) (snd kv).

(** An assignment that happens only when there is something to assign. *)
Definition choose (current : val) (o : option val) : val :=
  match o with
  | Some v => v
  | None => current
  end.

(** A ledger entry without an ['error'] key. *)
Definition no_error_entry (kv : string * val) : Prop :=
  contains "error" (snd kv) = Ok false.

Definition text_of_entry (kv : string * val) : list val :=
  text_of (fst kv) (snd kv).

(** [result.get('status') == 'success'], for a dictionary. *)
Definition status_success (result : val) : bool :=
  match result with
  | VDict d =>
      match lookup "status" d with
      | Some v => eq_str v "success"
      | None => false
      end
  | _ => false
  end.

Definition is_dict (v : val) : bool :=
  match v with VDict _ => true | _ => false end.

Definition all_dicts (d : dict) : bool := forallb is_dict (values d).

Definition successes (d : dict) : nat :=
  List.length (filter status_success (values d)).

(** A failed extraction, as the engines report it: a dictionary with an
    ['error'] key, no ['success'] status and none of the content keys. *)
Definition is_failure (result : val) : bool :=
  match result with
  | VDict d =>
      has_key "error" d && negb (status_success result) &&
      forallb (fun k => negb (has_key k d))
        ["extracted_text"; "text"; "shapes"; "lines"; "yolo"]
  | _ => false
  end.



(** The confidence [_calculate_ocr_confidence] takes for one successful
    source. *)
Definition confidence_of (result : val) : val :=
  match result with
  | VDict d =>
      match lookup "confidence" d with
      | Some c => c
      | None =>
          match lookup "tokens_used" d with
          | Some t =>
              match as_number t with
              | Ok q => if Qle_bool q 0 then VFloat 0.6 else VFloat 0.8
              | Raise _ => VNone
              end
          | None => VFloat 0.6
          end
      end
  | _ => VNone
  end.

(** The policy of the specification: the reported confidence, or 0.6. *)
Definition confidence_by_default (result : val) : val :=
  match result with
  | VDict d =>
      match lookup "confidence" d with
      | Some c => c
      | None => VFloat 0.6
      end
  | _ => VNone
  end.

(** A source whose [tokens_used], if present, is a number. *)
Definition tokens_numeric (result : val) : bool :=
  match result with
  | VDict d =>
      match lookup "tokens_used" d with
      | Some t => match as_number t with Ok _ => true | Raise _ => false end
      | None => true
      end
  | _ => false
  end.

(** A source whose [confidence], if present, is a number. *)
Definition confidence_numeric (result : val) : bool :=
  match result with
  | VDict d =>
      match lookup "confidence" d with
      | Some c => match as_number c with Ok _ => true | Raise _ => false end
      | None => true
      end
  | _ => false
  end.

(** The sources of [comprehensive_analysis] whose result has no ['error']. *)
Definition no_error (r : val) : bool :=
  match r with
  | VDict d => negb (has_key "error" d)
  | _ => false
  end.

Definition kept (name : string) (r : option val) : list string :=
  match r with
  | Some v => if no_error v then [name] else []
  | None => []
  end.

Definition succeeded (e : Gather.engine_outputs) : list string :=
  kept "tesseract" (Some (Gather.tesseract_result e))
  ++ kept "trocr" (Gather.handwriting_result e)
  ++ kept "yolo" (Gather.symbol_result e)
  ++ kept "google_vision" (Gather.gv_result e).

Definition typed_output (name : string) (r : option val) : bool :=
  match r with
  | Some v => is_dict v && well_typed name v
  | None => true
  end.

Definition typed_outputs (e : Gather.engine_outputs) : bool :=
  typed_output "tesseract" (Some (Gather.tesseract_result e))
  && typed_output "trocr" (Gather.handwriting_result e)
  && typed_output "yolo" (Gather.symbol_result e)
  && typed_output "google_vision" (Gather.gv_result e).

End Spec.

From Stdlib Require Import DecimalString.

(* ===================================================================== *)
(** ** More of the Python object model *)
(* ===================================================================== *)

Module PyExt.

(** The exceptions the functions below can raise besides those of
    [Py.exn]. *)
Inductive failure : Type :=
| Exn (e : exn)
| ZeroDivisionError
| ValueError.

Inductive outcome (A : Type) : Type :=
| Returns (a : A)
| Raises (f : failure).
Arguments Returns {A} a.
Arguments Raises {A} f.

Definition obind {A B : Type} (m : outcome A) (f : A -> outcome B) : outcome B :=
  match m with
  | Returns a => f a
  | Raises e => Raises e
  end.

Definition lift {A : Type} (r : res A) : outcome A :=
  match r with
  | Ok a => Returns a
  | Raise e => Raises (Exn e)
  end.

(** [a / b] on numbers. *)
Definition div (a b : Q) : outcome Q :=
  if Qeq_bool b 0 then Raises ZeroDivisionError else Returns (a / b)%Q.

(** [bool(v)]. *)
Definition truthy (v : val) : bool :=
  match v with
  | VNone => false
  | VBool b => b
  | VInt z => negb (z =? 0)%Z
  | VFloat q => negb (Qeq_bool q 0)
  | VStr s => str_truthy s
  | VList l => match l with [] => false | _ => true end
  | VDict d => match d with [] => false | _ => true end
  end.

(** [isinstance(v, str)]. *)
Definition is_str (v : val) : bool :=
  match v with VStr _ => true | _ => false end.

(** [len(v)]. *)
Definition len (v : val) : res nat :=
  match v with
  | VStr s => Ok (String.length s)
  | VList l => Ok (List.length l)
  | VDict d => Ok (List.length d)
  | _ => Raise TypeError
  end.

(** [v[k] = x] for a string [k]. *)
Definition setitem (v : val) (k : string) (x : val) : res val :=
  match v with
  | VDict d => Ok (VDict (Py.set k x d))
  | _ => Raise TypeError
  end.

(** [f"{v:.1f}"]: only a number has the format code [f]. *)
Definition format_f (v : val) : outcome unit :=
  match v with
  | VInt _ | VFloat _ | VBool _ => Returns tt
  | VStr _ => Raises ValueError
  | _ => Raises (Exn TypeError)
  end.

(** [a < b] and [a > b] for a number [a] and a literal [b]. *)
Definition lt (v : val) (b : Q) : res bool :=
  match as_number v with
  | Ok q => Ok (negb (Qle_bool b q))
  | Raise e => Raise e
  end.

Definition gt (v : val) (b : Q) : res bool :=
  match as_number v with
  | Ok q => Ok (negb (Qle_bool q b))
  | Raise e => Raise e
  end.

End PyExt.

Import PyExt.

Notation "x <~ m ;; k" := (PyExt.obind m (fun x => k))
  (at level 61, m at next level, right associativity).

(* ===================================================================== *)
(** ** comprehensive_ai_ocr.py: the engines' wrappers, the summary, the
       whole of [comprehensive_analysis] and [batch_process] *)
(* ===================================================================== *)

Module AiOcrRun.

Import AiOcr.

(** How a call ended: with a value, or with an exception whose [str] is
    [message]. *)
Inductive call : Type :=
| Returned (v : val)
| Excepted (message : string).

(** [analyze_with_tesseract]: [engine] is how
    [process_engineering_drawing] ended, [elapsed] the time measured. *)
Definition analyze_with_tesseract (engine : call) (elapsed : Q) : val :=
  match engine with
  | Returned result =>
      VDict [("status", VStr "success"); ("api", VStr "tesseract_ocr");
             ("processing_time", VFloat elapsed); ("data", result);
             ("method", VStr "traditional_ocr")]
  | Excepted message =>
      VDict [("status", VStr "error"); ("api", VStr "tesseract_ocr");
             ("error", VStr message); ("processing_time", VFloat elapsed)]
  end.

(** [analyze_with_trocr]: the model may not be loaded. *)
Definition analyze_with_trocr (model_loaded : bool) (engine : call)
    (elapsed : Q) : val :=
  if model_loaded then
    match engine with
    | Returned result =>
        VDict [("status", VStr "success"); ("api", VStr "trocr");
               ("processing_time", VFloat elapsed); ("data", result);
               ("method", VStr "handwriting_recognition")]
    | Excepted message =>
        VDict [("status", VStr "error"); ("api", VStr "trocr");
               ("error", VStr message); ("processing_time", VFloat elapsed)]
    end
  else
    VDict [("status", VStr "error"); ("api", VStr "trocr");
           ("error", VStr "TrOCR model not loaded")].

(** The dictionary [summary] of [_generate_analysis_summary]. *)
Record summary : Type := mkSummary {
  text_extracted : list val;
  technical_insights : list val;
  confidence_scores : dict;
  recommended_actions : list val
}.

(** [if key in data: target.append(entry(data[key]))] *)
Definition append_if_present (target : list val) (data : val) (key : string)
    (entry : val -> res val) : res (list val) :=
  present <- contains key data ;;
  if (present : bool) then
    v <- getitem data key ;;
    e <- entry v ;;
    Ok (target ++ [e])
  else Ok target.

Definition summary_step (s : summary) (api_name : string) (result : val)
    : res summary :=
  ok <- is_success result ;;
  if (ok : bool) then
    data <- get result "data" (VDict []) ;;
    if (api_name =? "openai")%string then
      insights <- append_if_present (technical_insights s) data "analysis"
                    (fun v => Ok (VDict [("source", VStr "GPT-4 Vision");
                                         ("insight", v)])) ;;
      Ok (mkSummary (text_extracted s) insights
            (confidence_scores s) (recommended_actions s))
    else if (api_name =? "claude")%string then
      insights <- append_if_present (technical_insights s) data "analysis"
                    (fun v => Ok (VDict [("source", VStr "Claude AI");
                                         ("insight", v)])) ;;
      Ok (mkSummary (text_extracted s) insights
            (confidence_scores s) (recommended_actions s))
    else if (api_name =? "google")%string then
      texts <- append_if_present (text_extracted s) data "full_text"
                 (fun v =>
                    n <- get data "text_annotations" (VInt 0) ;;
                    Ok (VDict [("source", VStr "Google Vision");
                               ("text", v); ("annotations", n)])) ;;
      Ok (mkSummary texts (technical_insights s)
            (confidence_scores s) (recommended_actions s))
    else if (api_name =? "tesseract")%string then
      texts <- append_if_present (text_extracted s) data "extracted_text"
                 (fun v =>
                    n <- get data "total_detections" (VInt 0) ;;
                    Ok (VDict [("source", VStr "Tesseract OCR");
                               ("text", v); ("detections", n)])) ;;
      Ok (mkSummary texts (technical_insights s)
            (confidence_scores s) (recommended_actions s))
    else if (api_name =? "trocr")%string then
      texts <- append_if_present (text_extracted s) data "text"
                 (fun v => Ok (VDict [("source", VStr "TrOCR Handwriting");
                                      ("text", v)])) ;;
      Ok (mkSummary texts (technical_insights s)
            (confidence_scores s) (recommended_actions s))
    else Ok s
  else Ok s.

Fixpoint summary_loop (items : dict) (s : summary) : res summary :=
  match items with
  | [] => Ok s
  | (api_name, result) :: rest =>
      s' <- summary_step s api_name result ;;
      summary_loop rest s'
  end.

Definition _generate_analysis_summary (api_results : dict) : res summary :=
  summary_loop api_results (mkSummary [] [] [] []).

(** What [comprehensive_analysis] is given: for each hosted API, how its
    call ended, or [None] when [apis_status] does not say ['ready']; and
    what the two local engines returned. *)
Record engines : Type := mkEngines {
  openai : option call;
  claude : option call;
  google : option call;
  tesseract_result : val;
  trocr_result : val
}.

(** The log line of a result: [if result.get('status') == 'success':
    print(f"... {result.get('processing_time', 0):.1f}s")]. *)
Definition log_result (result : val) : outcome unit :=
  ok <~ lift (is_success result) ;;
  if (ok : bool) then
    t <~ lift (get result "processing_time" (VInt 0)) ;;
    format_f t
  else Returns tt.

(** One turn of the loop over the gathered tasks. *)
Definition store_call (api_results : dict) (api_name : string) (c : call)
    : outcome dict :=
  match c with
  | Excepted message =>
      Returns (Py.set api_name
                 (VDict [("status", VStr "error"); ("error", VStr message)])
                 api_results)
  | Returned result =>
      _ <~ (match result with
            | VDict _ => log_result result
            | _ => Returns tt
            end) ;;
      Returns (Py.set api_name result api_results)
  end.

Definition tasks (e : engines) : list (string * call) :=
  (match openai e with Some c => [("openai", c)] | None => [] end)
  ++ (match claude e with Some c => [("claude", c)] | None => [] end)
  ++ (match google e with Some c => [("google", c)] | None => [] end).

Fixpoint store_calls (ts : list (string * call)) (api_results : dict)
    : outcome dict :=
  match ts with
  | [] => Returns api_results
  | (api_name, c) :: rest =>
      api_results' <~ store_call api_results api_name c ;;
      store_calls rest api_results'
  end.

(** [results['api_results']] when the method reaches the performance
    block. *)
Definition collect_api_results (e : engines) : outcome dict :=
  ai <~ store_calls (tasks e) [] ;;
  let with_tesseract := Py.set "tesseract" (tesseract_result e) ai in
  _ <~ log_result (tesseract_result e) ;;
  let with_trocr := Py.set "trocr" (trocr_result e) with_tesseract in
  _ <~ log_result (trocr_result e) ;;
  Returns with_trocr.

Definition performance_dict (total_time : Q) (p : performance) : val :=
  VDict [("total_processing_time", VFloat total_time);
         ("successful_apis", VInt (Z.of_nat (successful_apis p)));
         ("total_apis_attempted", VInt (Z.of_nat (total_apis_attempted p)));
         ("success_rate", success_rate p);
         ("apis_used", VList (map VStr (apis_used p)))].

Definition summary_dict (s : summary) : val :=
  VDict [("text_extracted", VList (text_extracted s));
         ("technical_insights", VList (technical_insights s));
         ("confidence_scores", VDict (confidence_scores s));
         ("recommended_actions", VList (recommended_actions s))].

(** [comprehensive_analysis]: the dictionary [results] it returns. *)
Definition comprehensive_analysis (image_path preprocessed timestamp : val)
    (total_time : Q) (e : engines) : outcome val :=
  api_results <~ collect_api_results e ;;
  p <~ lift (compute_performance api_results) ;;
  s <~ lift (_generate_analysis_summary api_results) ;;
  Returns (VDict [("image_path", image_path);
                  ("preprocessed_image", preprocessed);
                  ("timestamp", timestamp);
                  ("api_results", VDict api_results);
                  ("performance", performance_dict total_time p);
                  ("summary", summary_dict s)]).

(** [batch_process]: per path, in order, what [comprehensive_analysis]
    returned, or [None] when [os.path.exists] said no. *)
Definition missing_file : val :=
  VDict [("status", VStr "error"); ("error", VStr "File not found")].

Fixpoint batch_results (images : list (string * option val)) (results : dict)
    : dict :=
  match images with
  | [] => results
  | (image_path, analysed) :: rest =>
      batch_results rest
        (Py.set image_path
           (match analysed with Some r => r | None => missing_file end)
           results)
  end.

(** [sum(1 for r in results if r.get('status') != 'error')] *)
Fixpoint count_not_error (results : list val) : res nat :=
  match results with
  | [] => Ok 0%nat
  | r :: rest =>
      st <- get r "status" VNone ;;
      n <- count_not_error rest ;;
      Ok (if eq_str st "error" then n else S n)
  end.

Record batch_summary : Type := mkBatchSummary {
  total_processing_time : Q;
  successful_images : Z;
  failed_images : Z;
  batch_success_rate : Q;
  average_time_per_image : Q
}.

Definition batch_process (images : list (string * option val)) (batch_time : Q)
    : outcome (dict * batch_summary) :=
  let results := batch_results images [] in
  successful <~ lift (count_not_error (values results)) ;;
  let n := Z.of_nat (List.length images) in
  ratio <~ div (inject_Z (Z.of_nat successful)) (inject_Z n) ;;
  average <~ div batch_time (inject_Z n) ;;
  Returns (results,
           mkBatchSummary batch_time (Z.of_nat successful)
             (n - Z.of_nat successful) (ratio * 100)%Q average).

End AiOcrRun.

(* ===================================================================== *)
(** ** data_pipeline.py: text extraction and the pipeline statistics *)
(* ===================================================================== *)

Module TextExtraction.

Import AiOcr.

(** The [if]/[elif] chain of [_extract_text_from_ocr]: what one
    successful result appends to [text_data]. *)
Definition pick_text (data : val) : res (list val) :=
  has_analysis <- contains "analysis" data ;;
  analysis_is_str <-
    (if (has_analysis : bool)
     then a <- getitem data "analysis" ;; Ok (is_str a)
     else Ok false) ;;
  if (analysis_is_str : bool) then
    a <- getitem data "analysis" ;; Ok [a]
  else
    has_full <- contains "full_text" data ;;
    if (has_full : bool) then
      t <- getitem data "full_text" ;; Ok [t]
    else
      has_extracted <- contains "extracted_text" data ;;
      if (has_extracted : bool) then
        t <- getitem data "extracted_text" ;; Ok [t]
      else
        has_text <- contains "text" data ;;
        if (has_text : bool) then
          t <- getitem data "text" ;; Ok [t]
        else Ok [].

Fixpoint text_data_loop (items : dict) : res (list val) :=
  match items with
  | [] => Ok []
  | (api_name, result) :: rest =>
      ok <- is_success result ;;
      mine <-
        (if (ok : bool)
         then data <- get result "data" (VDict []) ;; pick_text data
         else Ok []) ;;
      others <- text_data_loop rest ;;
      Ok (mine ++ others)
  end.

(** [api_results.items()] *)
Definition dict_items (v : val) : res dict :=
  match v with
  | VDict d => Ok d
  | _ => Raise AttributeError
  end.

Definition _extract_text_from_ocr (ocr_results : val) : res (list val) :=
  api_results <- get ocr_results "api_results" (VDict []) ;;
  items <- dict_items api_results ;;
  text_data <- text_data_loop items ;;
  Ok (filter (fun text => truthy text && is_str text) text_data).

(** The chain of [_extract_all_text_content]: the value of [text] for one
    successful result. *)
Definition first_text (data : val) : res val :=
  has_analysis <- contains "analysis" data ;;
  if (has_analysis : bool) then getitem data "analysis"
  else
    has_full <- contains "full_text" data ;;
    if (has_full : bool) then getitem data "full_text"
    else
      has_extracted <- contains "extracted_text" data ;;
      if (has_extracted : bool) then getitem data "extracted_text"
      else
        has_text <- contains "text" data ;;
        if (has_text : bool) then getitem data "text"
        else Ok (VStr "").

Definition content_entry (api_name : string) (text : string) (time : val) : val :=
  VDict [("source", VStr api_name);
         ("text", VStr (str_strip text));
         ("length", VInt (Z.of_nat (String.length text)));
         ("processing_time", time)].

Fixpoint text_content_loop (items : dict) : res (list val) :=
  match items with
  | [] => Ok []
  | (api_name, result) :: rest =>
      ok <- is_success result ;;
      mine <-
        (if (ok : bool) then
           data <- get result "data" (VDict []) ;;
           text <- first_text data ;;
           match text with
           | VStr s =>
               if str_truthy s then
                 time <- get result "processing_time" (VInt 0) ;;
                 Ok [content_entry api_name s time]
               else Ok []
           | _ => Ok []
           end
         else Ok []) ;;
      others <- text_content_loop rest ;;
      Ok (mine ++ others)
  end.

Definition _extract_all_text_content (ocr_results : val) : res (list val) :=
  api_results <- get ocr_results "api_results" (VDict []) ;;
  items <- dict_items api_results ;;
  text_content_loop items.

End TextExtraction.

Module PipelineStats.

(** [self.pipeline_stats], with the counters as integers and the average
    as a number. *)
Record stats : Type := mkStats {
  total_processed : Z;
  successful_completions : Z;
  failed_processes : Z;
  average_processing_time : Q
}.

Definition initial : stats := mkStats 0 0 0 0.

(** [_update_average_time] *)
Definition _update_average_time (s : stats) (processing_time : Q)
    : outcome stats :=
  let current_avg := average_processing_time s in
  let total := total_processed s in
  new_avg <~ div (current_avg * inject_Z (total - 1) + processing_time)
                 (inject_Z total) ;;
  Returns (mkStats (total_processed s) (successful_completions s)
             (failed_processes s) new_avg).

(** How a run of [process_single_image] ends: all stages done in
    [total_time], or an exception in one of them. *)
Inductive ending : Type :=
| Completed (total_time : Q)
| Failed.

(** What [process_single_image] does to the statistics.  The update of
    the average is inside the [try]: if it raised, the [except] clause
    would count a failure on top of the completion already counted. *)
Definition record_ending (s : stats) (e : ending) : stats :=
  match e with
  | Completed total_time =>
      let counted :=
        mkStats (total_processed s + 1) (successful_completions s + 1)
          (failed_processes s) (average_processing_time s) in
      match _update_average_time counted total_time with
      | Returns s' => s'
      | Raises _ =>
          mkStats (total_processed counted) (successful_completions counted)
            (failed_processes counted + 1) (average_processing_time counted)
      end
  | Failed =>
      mkStats (total_processed s) (successful_completions s)
        (failed_processes s + 1) (average_processing_time s)
  end.

Definition record_endings (s : stats) (es : list ending) : stats :=
  fold_left record_ending es s.

End PipelineStats.

(* ===================================================================== *)
(** ** semantic_understanding.py: the average the quality score reads *)
(* ===================================================================== *)

Module Semantic.

Import AiOcr.

(** [[result.get('confidence', 0) for result in analyses.values()
      if result.get('status') == 'success']] *)
Fixpoint successful_confidences (results : list val) : res (list val) :=
  match results with
  | [] => Ok []
  | result :: rest =>
      ok <- is_success result ;;
      mine <-
        (if (ok : bool)
         then c <- get result "confidence" (VInt 0) ;; Ok [c]
         else Ok []) ;;
      others <- successful_confidences rest ;;
      Ok (mine ++ others)
  end.

Definition _calculate_average_confidence (analyses : val) : res val :=
  results <- dict_values analyses ;;
  confidences <- successful_confidences results ;;
  DataPipeline.mean_or_zero confidences.

End Semantic.

(* ===================================================================== *)
(** ** cadly_ultimate_integration.py: assessment, performance summary,
       recommendations and system statistics *)
(* ===================================================================== *)

Module ProcessingResult.

(** The dataclass [ProcessingResult] of data_pipeline.py. *)
Record t : Type := make {
  pipeline_id : val;
  image_path : val;
  stage : val;
  status : val;
  processing_time : val;
  data : val;
  errors : val;
  metadata : val;
  timestamp : val
}.

(** What the functions are handed: a [ProcessingResult], or a plain value
    (a dictionary, for an image whose task raised), which has none of
    these attributes. *)
Inductive object : Type :=
| Plain (v : val)
| Result (r : t).

(** [getattr(o, 'status', default)] and [getattr(o, 'processing_time',
    default)]. *)
Definition getattr_status (o : object) (default : val) : val :=
  match o with
  | Plain _ => default
  | Result r => status r
  end.

Definition getattr_processing_time (o : object) (default : val) : val :=
  match o with
  | Plain _ => default
  | Result r => processing_time r
  end.

End ProcessingResult.

Module CadlyMore.

Import AiOcr Cadly.

(** [_determine_confidence_level] *)
Definition _determine_confidence_level (quality_score : Q) : string :=
  if Qle_bool 0.8 quality_score then "High"
  else if Qle_bool 0.6 quality_score then "Medium"
  else if Qle_bool 0.4 quality_score then "Low"
  else "Very Low".

(** [(successful / total) if total > 0 else 0] *)
Definition fraction (successful total : nat) : val :=
  if (0 <? total)%nat
  then VFloat (Q_of_nat successful / Q_of_nat total)
  else VInt 0.

(** [sum(result.get('tokens_used', 0) for result in results)] *)
Fixpoint sum_tokens (results : list val) (acc : val) : res val :=
  match results with
  | [] => Ok acc
  | r :: rest =>
      t <- get r "tokens_used" (VInt 0) ;;
      acc' <- add acc t ;;
      sum_tokens rest acc'
  end.

Definition ocr_systems (ocr_results : val) : res val :=
  present <- contains "api_results" ocr_results ;;
  if (present : bool) then
    api_results <- getitem ocr_results "api_results" ;;
    results <- dict_values api_results ;;
    successful <- count_success results ;;
    total <- len api_results ;;
    tokens <- sum_tokens results (VInt 0) ;;
    Ok (VDict [("total_systems", VInt (Z.of_nat total));
               ("successful_systems", VInt (Z.of_nat successful));
               ("success_rate", fraction successful total);
               ("total_tokens_used", tokens)])
  else Ok (VDict []).

Definition semantic_ai (semantic_results : val) : res val :=
  present <- contains "ai_analyses" semantic_results ;;
  if (present : bool) then
    ai_analyses <- getitem semantic_results "ai_analyses" ;;
    results <- dict_values ai_analyses ;;
    successful <- count_success results ;;
    total <- len ai_analyses ;;
    metrics <- get semantic_results "performance_metrics" (VDict []) ;;
    confidence <- get metrics "average_confidence" (VInt 0) ;;
    Ok (VDict [("total_ai_models", VInt (Z.of_nat total));
               ("successful_analyses", VInt (Z.of_nat successful));
               ("success_rate", fraction successful total);
               ("average_confidence", confidence)])
  else Ok (VDict []).

Definition symbol_detection (symbol_results : val) : res val :=
  present <- contains "performance" symbol_results ;;
  if (present : bool) then getitem symbol_results "performance"
  else Ok (VDict []).

(** [successful / total if total > 0 else 0] on the two sums. *)
Definition overall_rate (successful total : val) : res val :=
  positive <- gt0 total ;;
  if (positive : bool) then
    s <- as_number successful ;;
    t <- as_number total ;;
    Ok (VFloat (s / t))
  else Ok (VInt 0).

Definition _extract_ai_performance_summary (pipeline_data : val) : res val :=
  ocr_results <- get pipeline_data "ocr_results" (VDict []) ;;
  ocr <- ocr_systems ocr_results ;;
  semantic_results <- get pipeline_data "semantic_results" (VDict []) ;;
  semantic <- semantic_ai semantic_results ;;
  symbol_results <- get pipeline_data "symbol_results" (VDict []) ;;
  symbol <- symbol_detection symbol_results ;;
  n_ocr <- get ocr "total_systems" (VInt 0) ;;
  n_semantic <- get semantic "total_ai_models" (VInt 0) ;;
  n_both <- add n_ocr n_semantic ;;
  total <- add n_both (VInt 1) ;;
  s_ocr <- get ocr "successful_systems" (VInt 0) ;;
  s_semantic <- get semantic "successful_analyses" (VInt 0) ;;
  s_both <- add s_ocr s_semantic ;;
  symbol_status <- get symbol_results "status" VNone ;;
  successful <- add s_both (VInt (if eq_str symbol_status "failed" then 0 else 1)) ;;
  overall <- overall_rate successful total ;;
  Ok (VDict [("ocr_systems", ocr);
             ("semantic_ai", semantic);
             ("symbol_detection", symbol);
             ("overall_ai_success_rate", overall)]).

(** The dictionary stored under ['quality_assessment']. *)
Definition quality_assessment (quality_score threshold : Q) (timestamp : val)
    : val :=
  VDict [("overall_quality_score", VFloat quality_score);
         ("needs_manual_review", VBool (negb (Qle_bool threshold quality_score)));
         ("confidence_level", VStr (_determine_confidence_level quality_score));
         ("assessment_timestamp", timestamp)].

(** [_enhance_analysis_result]; [threshold] is the configured
    [require_manual_review_below]. *)
Definition _enhance_analysis_result (threshold : Q) (timestamp : val)
    (pipeline_result : ProcessingResult.object)
    : res ProcessingResult.object :=
  match pipeline_result with
  | ProcessingResult.Plain _ => Ok pipeline_result
  | ProcessingResult.Result r =>
      structured_there <- contains "structured_output" (ProcessingResult.data r) ;;
      if (structured_there : bool) then
        structured <- getitem (ProcessingResult.data r) "structured_output" ;;
        score <- _calculate_comprehensive_quality_score structured ;;
        quality_score <- as_number score ;;
        has_metadata <- contains "metadata" (ProcessingResult.metadata r) ;;
        m0 <- (if (has_metadata : bool)
               then Ok (ProcessingResult.metadata r)
               else setitem (ProcessingResult.metadata r)
                      "quality_assessment" (VDict [])) ;;
        m1 <- setitem m0 "quality_assessment"
                (quality_assessment quality_score threshold timestamp) ;;
        performance <- _extract_ai_performance_summary (ProcessingResult.data r) ;;
        m2 <- setitem m1 "ai_system_performance" performance ;;
        Ok (ProcessingResult.Result
              (ProcessingResult.make
                 (ProcessingResult.pipeline_id r) (ProcessingResult.image_path r)
                 (ProcessingResult.stage r) (ProcessingResult.status r)
                 (ProcessingResult.processing_time r) (ProcessingResult.data r)
                 (ProcessingResult.errors r) m2 (ProcessingResult.timestamp r)))
      else Ok pipeline_result
  end.

(** The seven messages of [_generate_analysis_recommendations]. *)
Definition manual_review : string :=
  "Manual review recommended due to low confidence scores".
Definition preprocess_image : string :=
  "Consider image preprocessing or higher resolution source".
Definition insufficient_quality : string :=
  "Image quality may be insufficient for automated analysis".
Definition ai_issues : string :=
  "Multiple AI systems encountered issues - manual verification suggested".
Definition no_dimensions : string :=
  "No dimensions detected - verify drawing contains dimensional information".
Definition no_materials : string :=
  "No materials identified - check for material specifications in drawing".
Definition all_good : string :=
  "Analysis completed successfully with good quality metrics".

(** [if len(technical_data.get(key, [])) == 0: recommendations.append(m)] *)
Definition when_none_found (recommendations : list string)
    (technical_data : val) (key message : string) : res (list string) :=
  found <- get technical_data key (VList []) ;;
  n <- len found ;;
  Ok (if (n =? 0)%nat then recommendations ++ [message] else recommendations).

Definition _generate_analysis_recommendations
    (analysis_result : ProcessingResult.object) : res (list string) :=
  recommendations <-
    match analysis_result with
    | ProcessingResult.Plain _ => Ok []
    | ProcessingResult.Result r =>
        qa <- get (ProcessingResult.metadata r) "quality_assessment" (VDict []) ;;
        review <- get qa "needs_manual_review" (VBool false) ;;
        let r1 := if truthy review then [manual_review] else [] in
        level <- get qa "confidence_level" (VStr "Unknown") ;;
        let r2 :=
          if eq_str level "Low" then r1 ++ [preprocess_image]
          else if eq_str level "Very Low" then r1 ++ [insufficient_quality]
          else r1 in
        ai <- get (ProcessingResult.metadata r) "ai_system_performance" (VDict []) ;;
        overall <- get ai "overall_ai_success_rate" (VInt 0) ;;
        low <- lt overall 0.7 ;;
        let r3 := if (low : bool) then r2 ++ [ai_issues] else r2 in
        structured_there <- contains "structured_output" (ProcessingResult.data r) ;;
        if (structured_there : bool) then
          structured <- getitem (ProcessingResult.data r) "structured_output" ;;
          technical_data <- get structured "technical_data" (VDict []) ;;
          r4 <- when_none_found r3 technical_data "dimensions_found" no_dimensions ;;
          when_none_found r4 technical_data "materials_identified" no_materials
        else Ok r3
    end ;;
  Ok (match recommendations with
      | [] => [all_good]
      | _ => recommendations
      end).

(** [self.system_stats], as far as the two methods below use it. *)
Record system_stats : Type := mkSystemStats {
  total_analyses : Z;
  successful_analyses : Z;
  total_processing_time : Q;
  system_uptime : Q
}.

(** [_update_system_stats]: the statistics after the call, and whether
    the call returned.  The counters are written before the time is
    added, so they stay written when the addition raises. *)
Definition _update_system_stats (s : system_stats)
    (analysis_result : ProcessingResult.object) : system_stats * res unit :=
  let total := (total_analyses s + 1)%Z in
  let successful :=
    if eq_str (ProcessingResult.getattr_status analysis_result (VStr "")) "completed"
    then (successful_analyses s + 1)%Z
    else successful_analyses s in
  match as_number (ProcessingResult.getattr_processing_time analysis_result (VInt 0)) with
  | Ok t =>
      (mkSystemStats total successful (total_processing_time s + t) (system_uptime s),
       Ok tt)
  | Raise e =>
      (mkSystemStats total successful (total_processing_time s) (system_uptime s),
       Raise e)
  end.

Record metrics : Type := mkMetrics {
  system_uptime_seconds : Q;
  total_analyses_completed : Z;
  success_rate : Q;
  average_processing_time : Q;
  throughput_per_hour : Q
}.

(** [_get_current_performance_metrics]; [now] is [time.time()]. *)
Definition _get_current_performance_metrics (s : system_stats) (now : Q)
    : metrics :=
  let uptime := (now - system_uptime s)%Q in
  mkMetrics uptime (total_analyses s)
    (if (0 <? total_analyses s)%Z
     then inject_Z (successful_analyses s) / inject_Z (total_analyses s)
     else 0)
    (if (0 <? total_analyses s)%Z
     then total_processing_time s / inject_Z (total_analyses s)
     else 0)
    (if negb (Qle_bool uptime 0)
     then inject_Z (total_analyses s) / (uptime / 3600)
     else 0).

End CadlyMore.

(* ===================================================================== *)
(** ** enhanced_symbol_detection.py: shapes and lines *)
(* ===================================================================== *)

Module Shapes.

Import SymbolDetection.

(** What OpenCV measured on one contour: [cv2.contourArea], the number of
    vertices of [cv2.approxPolyDP], [cv2.boundingRect], [cv2.arcLength]. *)
Record contour : Type := mkContour {
  area : Q;
  vertices : nat;
  x : Z;
  y : Z;
  w : Z;
  h : Z;
  perimeter : Q
}.

(** [f'{vertices}-gon'] *)
Definition n_gon (n : nat) : string :=
  NilEmpty.string_of_uint (Nat.to_uint n) ++ "-gon".

(** The classification at the end of [_classify_shape]: the bucket
    (['type']) and the name (['shape']). *)
Definition classification (vertices : nat) (aspect_ratio circularity : Q)
    : string * string :=
  if (vertices =? 3)%nat then ("triangles", "triangle")
  else if (vertices =? 4)%nat then
    ("rectangles",
     if Qle_bool 0.95 aspect_ratio && Qle_bool aspect_ratio 1.05
     then "square" else "rectangle")
  else if (4 <? vertices)%nat then ("polygons", n_gon vertices)
  else if Qlt_bool 0.7 circularity then ("circles", "circle")
  else ("polygons", "irregular").

(** [_classify_shape]: [None] is what the [except] clause returns, here
    for a division by zero.  [pi] is [np.pi]; tuples are read as lists. *)
Definition _classify_shape (pi : Q) (c : contour) : option val :=
  match div (inject_Z (w c)) (inject_Z (h c)),
        div (area c) (inject_Z (w c * h c)) with
  | Returns aspect_ratio, Returns extent =>
      let circularity :=
        if Qlt_bool 0 (perimeter c)
        then (4 * pi * (area c / (perimeter c * perimeter c)))%Q
        else 0%Q in
      let kind := classification (vertices c) aspect_ratio circularity in
      Some (VDict [("vertices", VInt (Z.of_nat (vertices c)));
                   ("area", VFloat (area c));
                   ("perimeter", VFloat (perimeter c));
                   ("aspect_ratio", VFloat aspect_ratio);
                   ("extent", VFloat extent);
                   ("circularity", VFloat circularity);
                   ("bounding_box",
                    VList [VInt (x c); VInt (y c); VInt (w c); VInt (h c)]);
                   ("centroid",
                    VList [VInt (x c + w c / 2); VInt (y c + h c / 2)]);
                   ("type", VStr (fst kind));
                   ("shape", VStr (snd kind))])
  | _, _ => None
  end.

(** One segment of [cv2.HoughLinesP], with the length and the angle (in
    degrees) that NumPy computed from it: [np.sqrt] and [np.arctan2] are
    not modelled, so the two numbers are fields beside the end points. *)
Record segment : Type := mkSegment {
  x1 : Z;
  y1 : Z;
  x2 : Z;
  y2 : Z;
  length : Q;
  angle : Q
}.

Definition orientation_name (o : orientation) : string :=
  match o with
  | horizontal => "horizontal"
  | vertical => "vertical"
  | diagonal => "diagonal"
  end.

Definition line_entry (s : segment) : val :=
  VDict [("start", VList [VInt (x1 s); VInt (y1 s)]);
         ("end", VList [VInt (x2 s); VInt (y2 s)]);
         ("length", VFloat (length s));
         ("angle", VFloat (angle s));
         ("orientation", VStr (orientation_name (classify (angle s))));
         ("type", VStr "line")].

(** [_detect_lines]: [None] when [cv2.HoughLinesP] found no line. *)
Definition _detect_lines (lines : option (list segment)) : list val :=
  match lines with
  | Some segments => map line_entry segments
  | None => []
  end.

Definition initial_shapes : dict :=
  [("circles", VList []); ("rectangles", VList []); ("triangles", VList []);
   ("polygons", VList []); ("lines", VList []); ("total_shapes", VInt 0)].

(** [shapes_detected[key].append(item)] and [.extend(items)] *)
Definition extend (shapes_detected : dict) (key : string) (new : list val)
    : res dict :=
  bucket <- getitem (VDict shapes_detected) key ;;
  match bucket with
  | VList old => Ok (Py.set key (VList (old ++ new)) shapes_detected)
  | _ => Raise AttributeError
  end.

(** [shapes_detected['total_shapes'] += n] *)
Definition count_more (shapes_detected : dict) (n : nat) : res dict :=
  total <- getitem (VDict shapes_detected) "total_shapes" ;;
  total' <- add total (VInt (Z.of_nat n)) ;;
  Ok (Py.set "total_shapes" total' shapes_detected).

Fixpoint classify_contours (pi : Q) (contours : list contour)
    (shapes_detected : dict) : res dict :=
  match contours with
  | [] => Ok shapes_detected
  | c :: rest =>
      if Qlt_bool (area c) 50 then classify_contours pi rest shapes_detected
      else
        match _classify_shape pi c with
        | Some shape_info =>
            bucket <- getitem shape_info "type" ;;
            match bucket with
            | VStr key =>
                s1 <- extend shapes_detected key [shape_info] ;;
                s2 <- count_more s1 1 ;;
                classify_contours pi rest s2
            | _ => Raise TypeError
            end
        | None => classify_contours pi rest shapes_detected
        end
  end.

(** The body of [detect_geometric_shapes], given the contours, the
    segments and the circles OpenCV found. *)
Definition detect_geometric_shapes (pi : Q) (contours : list contour)
    (lines : option (list segment)) (circles : list val) : res dict :=
  s1 <- classify_contours pi contours initial_shapes ;;
  let found := _detect_lines lines in
  let s2 := Py.set "lines" (VList found) s1 in
  s3 <- count_more s2 (List.length found) ;;
  s4 <- extend s3 "circles" circles ;;
  count_more s4 (List.length circles).

End Shapes.

(* ===================================================================== *)
(** ** Vocabulary of the further statements *)
(* ===================================================================== *)

Module Terms.

Import Pipeline Spec.

(** A text without leading or trailing whitespace, and not empty. *)
Definition clean (s : string) : Prop :=
  s <> EmptyString /\ str_strip s = s.

(** The three methods that can add to [all_text], with the type each
    one writes. *)
Definition text_methods : list (string * string) :=
  [("tesseract", "printed"); ("trocr", "handwritten");
   ("google_vision", "mixed")].

(** An item of [all_text] written for [method]. *)
Definition item_of (method : string) (item : val) : Prop :=
  exists s type, item = text_entry method s type.

(** The outputs [comprehensive_analysis] keeps, under their names, in
    the order the engines run: those without an ['error'] key. *)
Definition kept_entry (name : string) (r : option val) : dict :=
  match r with
  | Some v => if no_error v then [(name, v)] else []
  | None => []
  end.

Definition handed_over (e : Gather.engine_outputs) : dict :=
  kept_entry "tesseract" (Some (Gather.tesseract_result e))
  ++ kept_entry "trocr" (Gather.handwriting_result e)
  ++ kept_entry "yolo" (Gather.symbol_result e)
  ++ kept_entry "google_vision" (Gather.gv_result e).

Definition is_number (v : val) : bool :=
  match as_number v with Ok _ => true | Raise _ => false end.

(** A result dictionary whose ['data'], if any, is a dictionary. *)
Definition data_ok (r : val) : bool :=
  match r with
  | VDict d =>
      match lookup "data" d with
      | None | Some (VDict _) => true
      | Some _ => false
      end
  | _ => false
  end.

(** A result dictionary whose log line can be printed: when it says
    ['success'], its ['processing_time'], if any, is a number. *)
Definition loggable (r : val) : bool :=
  match r with
  | VDict d =>
      if status_success r then
        match lookup "processing_time" d with
        | Some t => is_number t
        | None => true
        end
      else true
  | _ => false
  end.

(** What a call leaves in [api_results]. *)
Definition entry_of (c : AiOcrRun.call) : val :=
  match c with
  | AiOcrRun.Returned v => v
  | AiOcrRun.Excepted message =>
      VDict [("status", VStr "error"); ("error", VStr message)]
  end.

Definition call_ok (c : option AiOcrRun.call) : bool :=
  match c with
  | Some (AiOcrRun.Returned v) => loggable v && data_ok v
  | _ => true
  end.

Definition engines_ok (e : AiOcrRun.engines) : bool :=
  call_ok (AiOcrRun.openai e) && call_ok (AiOcrRun.claude e) &&
  call_ok (AiOcrRun.google e) &&
  (loggable (AiOcrRun.tesseract_result e) && data_ok (AiOcrRun.tesseract_result e)) &&
  (loggable (AiOcrRun.trocr_result e) && data_ok (AiOcrRun.trocr_result e)).

(** The hosted APIs that were ready, then the two local engines. *)
Definition expected_results (e : AiOcrRun.engines) : dict :=
  map (fun nc => (fst nc, entry_of (snd nc))) (AiOcrRun.tasks e)
  ++ [("tesseract", AiOcrRun.tesseract_result e);
      ("trocr", AiOcrRun.trocr_result e)].

(** A value that [comprehensive_analysis] of comprehensive_ai_ocr.py can
    return. *)
Definition produced (r : val) : Prop :=
  exists image_path preprocessed timestamp total_time e,
    AiOcrRun.comprehensive_analysis image_path preprocessed timestamp
      total_time e
    = Returns r.

(** The result [comprehensive_analysis] gives when no hosted API is
    ready and both local engines returned an error dictionary. *)
Definition local_engines (tesseract_data trocr_data : dict) (t1 t2 : Q)
    : AiOcrRun.engines :=
  AiOcrRun.mkEngines None None None
    (AiOcrRun.analyze_with_tesseract (AiOcrRun.Returned (VDict tesseract_data)) t1)
    (AiOcrRun.analyze_with_trocr true (AiOcrRun.Returned (VDict trocr_data)) t2).

(** What [batch_process] stores for one image. *)
Definition stored (analysis : option val) : val :=
  match analysis with
  | Some r => r
  | None => AiOcrRun.missing_file
  end.

Definition analysed (images : list (string * option val)) : nat :=
  List.length (filter (fun io => match snd io with Some _ => true | None => false end)
                 images).

Definition missing (images : list (string * option val)) : nat :=
  List.length (filter (fun io => match snd io with Some _ => false | None => true end)
                 images).

(** What [_summarize_api_results] stores under [api_performance] for one
    result. *)
Definition performance_entry (result : val) : val :=
  match result with
  | VDict d =>
      if status_success result then
        VDict [("status", VStr "success");
               ("processing_time",
                match lookup "processing_time" d with Some t => t | None => VInt 0 end);
               ("tokens_used",
                match lookup "tokens_used" d with Some t => t | None => VInt 0 end)]
      else
        VDict [("status", VStr "failed");
               ("error",
                match lookup "error" d with
                | Some e => e
                | None => VStr "Unknown error"
                end)]
  | _ => VNone
  end.

(** A number between [lo] and [hi]. *)
Definition in_range (lo hi : Q) (v : val) : Prop :=
  exists q, as_number v = Ok q /\ (lo <= q /\ q <= hi)%Q.

(** A result whose ['confidence'], if any, is a number between 0 and 1. *)
Definition confidence_in_unit (r : val) : bool :=
  match r with
  | VDict d =>
      match lookup "confidence" d with
      | Some c =>
          match as_number c with
          | Ok q => Qle_bool 0 q && Qle_bool q 1
          | Raise _ => false
          end
      | None => true
      end
  | _ => false
  end.

(** A result that reports no ['confidence']. *)
Definition no_confidence (r : val) : bool :=
  match r with
  | VDict d => negb (has_key "confidence" d)
  | _ => false
  end.

(** The text a kept test [text and isinstance(text, str)] lets through. *)
Definition kept_text (text : val) : bool := truthy text && is_str text.

(** The times of the runs that completed, in order, and the number of
    runs that failed. *)
Definition completed_times (es : list PipelineStats.ending) : list Q :=
  flat_map (fun e => match e with
                     | PipelineStats.Completed t => [t]
                     | PipelineStats.Failed => []
                     end) es.

Definition failures (es : list PipelineStats.ending) : nat :=
  List.length (filter (fun e => match e with
                                | PipelineStats.Failed => true
                                | PipelineStats.Completed _ => false
                                end) es).

(** [key] is absent from [d] or holds a number that passes [ok]. *)
Definition number_or_absent (d : dict) (key : string) (ok : Q -> bool) : bool :=
  match lookup key d with
  | None => true
  | Some v =>
      match as_number v with
      | Ok q => ok q
      | Raise _ => false
      end
  end.

(** [d.get(a, {}).get(b, {})] is a dictionary that passes [ok]. *)
Definition section_ok (d : dict) (a b : string) (ok : dict -> bool) : bool :=
  match lookup a d with
  | None => ok []
  | Some (VDict x) =>
      match lookup b x with
      | None => ok []
      | Some (VDict y) => ok y
      | Some _ => false
      end
  | Some _ => false
  end.

(** An API summary whose counts are numbers, with the successful ones
    between 0 and the total when there is a positive total. *)
Definition ratio_ok (summary : dict) : bool :=
  match lookup "total_apis_used" summary with
  | None => true
  | Some t =>
      match as_number t with
      | Raise _ => false
      | Ok tq =>
          if Qle_bool tq 0 then true
          else
            match lookup "successful_apis" summary with
            | None => true
            | Some s =>
                match as_number s with
                | Ok sq => Qle_bool 0 sq && Qle_bool sq tq
                | Raise _ => false
                end
            end
      end
  end.

(** A structured output as [_calculate_comprehensive_quality_score] can
    read it: the four sections are dictionaries (or absent), the four
    readings numbers (or absent), the success ratio and the semantic
    confidence not above 1. *)
Definition quality_inputs_ok (structured : val) : bool :=
  match structured with
  | VDict d =>
      section_ok d "ocr_analysis" "api_results_summary" ratio_ok &&
      section_ok d "symbol_analysis" "performance"
        (fun s => number_or_absent s "total_elements_detected" (fun _ => true)) &&
      section_ok d "semantic_analysis" "performance"
        (fun s => number_or_absent s "average_confidence" (fun q => Qle_bool q 1)) &&
      section_ok d "technical_data" "quality_metrics"
        (fun s => number_or_absent s "technical_content_richness" (fun _ => true))
  | _ => false
  end.

(** Pipeline data as [_extract_ai_performance_summary] can read it. *)
Definition results_ok (v : val) : bool :=
  match v with
  | VDict d => forallb is_dict (values d) && forallb tokens_numeric (values d)
  | _ => false
  end.

Definition ocr_results_ok (v : option val) : bool :=
  match v with
  | None => true
  | Some (VDict o) =>
      match lookup "api_results" o with
      | None => true
      | Some a => results_ok a
      end
  | Some _ => false
  end.

Definition semantic_results_ok (v : option val) : bool :=
  match v with
  | None => true
  | Some (VDict s) =>
      match lookup "ai_analyses" s with
      | None => true
      | Some (VDict a) =>
          forallb is_dict (values a) && dict_or_absent s "performance_metrics"
      | Some _ => false
      end
  | Some _ => false
  end.

Definition symbol_results_ok (v : option val) : bool :=
  match v with
  | None | Some (VDict _) => true
  | Some _ => false
  end.

Definition performance_inputs_ok (pipeline_data : val) : bool :=
  match pipeline_data with
  | VDict p =>
      ocr_results_ok (lookup "ocr_results" p) &&
      semantic_results_ok (lookup "semantic_results" p) &&
      symbol_results_ok (lookup "symbol_results" p)
  | _ => false
  end.

(** The statistics after [_update_system_stats] was called once for each
    object, whether the call returned or raised. *)
Definition updates (s : CadlyMore.system_stats)
    (objects : list ProcessingResult.object) : CadlyMore.system_stats :=
  fold_left (fun s o => fst (CadlyMore._update_system_stats s o)) objects s.

(** An object whose [status] attribute is ['completed']. *)
Definition completed (o : ProcessingResult.object) : bool :=
  eq_str (ProcessingResult.getattr_status o (VStr "")) "completed".

(** A list of at most one score, between 0 and [w]. *)
Definition at_most (w : Q) (l : list Q) : Prop :=
  l = [] \/ exists x, l = [x] /\ (0 <= x /\ x <= w)%Q.

(** A value that [len] accepts, and a structured output whose technical
    findings, if any, are such values. *)
Definition sized (v : val) : bool :=
  match v with
  | VStr _ | VList _ | VDict _ => true
  | _ => false
  end.

Definition sized_or_absent (d : dict) (key : string) : bool :=
  match lookup key d with
  | None => true
  | Some v => sized v
  end.

Definition findings_sized (structured : val) : bool :=
  match structured with
  | VDict d =>
      match lookup "technical_data" d with
      | None => true
      | Some (VDict technical_data) =>
          sized_or_absent technical_data "dimensions_found" &&
          sized_or_absent technical_data "materials_identified"
      | Some _ => false
      end
  | _ => false
  end.

(** The dictionary [detect_geometric_shapes] fills. *)
Definition shapes_dict (circles rectangles triangles polygons lines : list val)
    (total : Z) : dict :=
  [("circles", VList circles); ("rectangles", VList rectangles);
   ("triangles", VList triangles); ("polygons", VList polygons);
   ("lines", VList lines); ("total_shapes", VInt total)].

(** The contours that pass the area filter. *)
Definition large_enough (c : Shapes.contour) : bool :=
  negb (SymbolDetection.Qlt_bool (Shapes.area c) 50).

End Terms.

(* ===================================================================== *)
(** ** Dictionaries *)
(* ===================================================================== *)

Section DictFacts.

Lemma lookup_none_iff (k : string) (d : dict) :
  lookup k d = None <-> ~ In k (keys d).
Proof.
  induction d as [|[k' v] d IH]; simpl.
  - tauto.
  - destruct (String.eqb_spec k' k) as [->|Hne].
    + split; [discriminate | intros H; exfalso; apply H; now left].
    + rewrite IH. split.
      * intros H [H1|H1]; [now apply Hne | now apply H].
      * intros H H1. apply H. now right.
Qed.

Lemma has_key_true_iff (k : string) (d : dict) :
  has_key k d = true <-> In k (keys d).
Proof.
  unfold has_key. destruct (lookup k d) eqn:E.
  - split; [intros _ | reflexivity].
    destruct (in_dec string_dec k (keys d)) as [H|H]; [exact H|].
    apply lookup_none_iff in H. congruence.
  - apply lookup_none_iff in E. split; [discriminate | tauto].
Qed.

Lemma has_key_false_iff (k : string) (d : dict) :
  has_key k d = false <-> ~ In k (keys d).
Proof.
  rewrite <- has_key_true_iff. destruct (has_key k d); split; congruence.
Qed.

Lemma keys_set (k : string) (v : val) (d : dict) :
  keys (Py.set k v d) = if has_key k d then keys d else keys d ++ [k].
Proof.
  induction d as [|[k' v'] d IH]; simpl.
  - reflexivity.
  - unfold has_key in *. simpl.
    destruct (String.eqb_spec k' k) as [->|Hne]; simpl.
    + reflexivity.
    + rewrite IH. now destruct (lookup k d).
Qed.

Lemma keys_set_fresh (k : string) (v : val) (d : dict) :
  ~ In k (keys d) -> keys (Py.set k v d) = keys d ++ [k].
Proof.
  intros H. rewrite keys_set. apply has_key_false_iff in H. now rewrite H.
Qed.

Lemma Forall_set (P : string * val -> Prop) (k : string) (v : val) (d : dict) :
  Forall P d -> P (k, v) -> Forall P (Py.set k v d).
Proof.
  intros Hd Hv. induction d as [|[k' v'] d IH]; simpl.
  - now constructor.
  - inversion Hd; subst. destruct (k' =? k)%string; constructor; auto.
Qed.

Lemma lookup_In (k : string) (v : val) (d : dict) :
  lookup k d = Some v -> In (k, v) d.
Proof.
  induction d as [|[k' v'] d IH]; simpl; [discriminate|].
  destruct (String.eqb_spec k' k) as [->|Hne].
  - intros [= ->]. now left.
  - intros H. right. now apply IH.
Qed.

Lemma keys_app (d1 d2 : dict) : keys (d1 ++ d2) = keys d1 ++ keys d2.
Proof. unfold keys. apply map_app. Qed.


End DictFacts.

Section CombineFacts.

Import Pipeline Spec.

Lemma append_text_typed (texts : list val) (d : dict) (key method type : string) :
  str_or_absent d key = true ->
  append_text texts (VDict d) key method type
  = Ok (texts ++ text_items (text_field (VDict d) key) method type).
Proof.
  unfold str_or_absent, append_text, text_items, text_field. simpl.
  unfold has_key.
  destruct (lookup key d) as [[]|] eqn:E; try discriminate; intros _; simpl.
  - destruct (str_truthy (str_strip s)); [reflexivity | now rewrite app_nil_r].
  - now rewrite app_nil_r.
Qed.

Lemma pick_nested_typed (current : val) (d : dict) (key : string) :
  dict_or_absent d key = true ->
  pick_nested current (VDict d) key = Ok (choose current (nested (VDict d) key)).
Proof.
  unfold dict_or_absent, pick_nested, nested, choose. simpl. unfold has_key.
  destruct (lookup key d) as [[]|] eqn:E; try discriminate; intros _; simpl.
  - unfold has_key. now destruct (lookup key d0).
  - reflexivity.
Qed.

Lemma get_nested_typed (d : dict) (outer inner : string) :
  dict_or_absent d outer = true ->
  exists v, get_nested (VDict d) outer inner = Ok v.
Proof.
  unfold dict_or_absent, get_nested. simpl.
  destruct (lookup outer d) as [[]|]; try discriminate; intros _; simpl.
  - destruct (lookup inner d0); eauto.
  - eauto.
Qed.

Lemma combine_step_typed (c : combined) (method : string) (result : val) :
  well_typed method result = true ->
  exists entry,
    no_error_entry (method, entry) /\
    combine_step c method result
    = Ok (mkCombined
            (all_text c ++ text_of method result)
            (choose (shapes_detected c) (detected_of "shapes" method result))
            (choose (lines_detected c) (detected_of "lines" method result))
            (confidence_scores c)
            (if recognised method
             then Py.set method entry (method_summary c)
             else method_summary c)).
Proof.
  unfold well_typed, recognised, combine_step, text_of, detected_of.
  destruct (String.eqb_spec method "tesseract") as [->|H1]; simpl.
  { destruct result; try discriminate. intros Ht.
    rewrite append_text_typed by exact Ht. simpl.
    destruct (lookup "total_detections" d); simpl; eexists; (split; [|reflexivity]);
      reflexivity. }
  destruct (String.eqb_spec method "trocr") as [->|H2]; simpl.
  { destruct result; try discriminate. intros Ht.
    rewrite append_text_typed by exact Ht. simpl.
    unfold str_or_absent in Ht.
    destruct (lookup "text" d) as [[]|]; try discriminate; simpl;
      eexists; (split; [|reflexivity]); reflexivity. }
  destruct (String.eqb_spec method "google_vision") as [->|H3]; simpl.
  { destruct result; try discriminate. intros Ht.
    rewrite append_text_typed by exact Ht. simpl.
    destruct (lookup "total_detections" d); simpl; eexists; (split; [|reflexivity]);
      reflexivity. }
  destruct (String.eqb_spec method "yolo") as [->|H4]; simpl.
  { destruct result; try discriminate. intros Ht.
    apply andb_prop in Ht as [Ht Hy]. apply andb_prop in Ht as [Hs Hl].
    rewrite !pick_nested_typed by assumption. simpl.
    destruct (get_nested_typed d "shapes" "total_shapes" Hs) as [v1 ->].
    destruct (get_nested_typed d "lines" "total_lines" Hl) as [v2 ->].
    destruct (get_nested_typed d "yolo" "total_detections" Hy) as [v3 ->].
    simpl. rewrite app_nil_r. eexists. split; [|reflexivity]. reflexivity. }
  intros _. exists (VDict []). split.
  - reflexivity.
  - rewrite app_nil_r. now destruct c.
Qed.

Lemma combine_loop_typed (l : dict) :
  forall c : combined,
    well_typed_input l = true ->
    NoDup (keys l) ->
    (forall k, In k (keys l) -> ~ In k (keys (method_summary c))) ->
    exists c',
      combine_loop l c = Ok c' /\
      all_text c' = all_text c ++ flat_map text_of_entry l /\
      shapes_detected c'
      = fold_left choose (map (detected_of_entry "shapes") l) (shapes_detected c) /\
      lines_detected c'
      = fold_left choose (map (detected_of_entry "lines") l) (lines_detected c) /\
      keys (method_summary c')
      = keys (method_summary c) ++ filter recognised (keys l) /\
      (Forall no_error_entry (method_summary c) ->
       Forall no_error_entry (method_summary c')).
Proof.
  induction l as [|[m r] l IH]; intros c Hwt Hnd Hfresh.
  - exists c. simpl. rewrite !app_nil_r. repeat split; auto.
  - simpl in Hwt. apply andb_prop in Hwt as [Hm Hl].
    simpl in Hnd. apply NoDup_cons_iff in Hnd as [Hnotin Hnd].
    destruct (combine_step_typed c m r Hm) as (entry & Hentry & Hstep).
    simpl. rewrite Hstep. simpl.
    set (c1 := mkCombined _ _ _ _ _) in *.
    assert (Hkeys1 : keys (method_summary c1)
                     = keys (method_summary c) ++ (if recognised m then [m] else [])).
    { subst c1. simpl. destruct (recognised m).
      - apply keys_set_fresh. apply Hfresh. now left.
      - now rewrite app_nil_r. }
    destruct (IH c1 Hl Hnd) as (c' & Hrun & Ht & Hs & Hln & Hk & Hne).
    { intros k Hk. rewrite Hkeys1. intros Hin. apply in_app_or in Hin as [Hin|Hin].
      - apply (Hfresh k); [now right | exact Hin].
      - destruct (recognised m); [|contradiction].
        destruct Hin as [<-|[]]. contradiction. }
    exists c'. split; [exact Hrun|]. split; [|split; [|split; [|split]]].
    + rewrite Ht. subst c1. simpl. unfold text_of_entry at 2. simpl.
      now rewrite app_assoc.
    + rewrite Hs. reflexivity.
    + rewrite Hln. reflexivity.
    + rewrite Hk, Hkeys1. simpl. rewrite <- app_assoc.
      now destruct (recognised m).
    + intros Hc. apply Hne. subst c1. simpl.
      destruct (recognised m); [|exact Hc]. now apply Forall_set.
Qed.

End CombineFacts.

Section CombineResults.

Import Pipeline Spec.

Lemma fold_choose_unique (key : string) (l : dict) :
  forall init : val,
    NoDup (keys l) ->
    fold_left choose (map (detected_of_entry key) l) init
    = match lookup "yolo" l with
      | Some r => choose init (nested r key)
      | None => init
      end.
Proof.
  induction l as [|[m r] l IH]; intros init Hnd; simpl.
  - reflexivity.
  - simpl in Hnd. apply NoDup_cons_iff in Hnd as [Hnotin Hnd].
    rewrite IH by exact Hnd.
    unfold detected_of_entry, detected_of. simpl.
    destruct (String.eqb_spec m "yolo") as [->|Hne].
    + apply lookup_none_iff in Hnotin. now rewrite Hnotin.
    + reflexivity.
Qed.

Lemma detected_items_unique (key : string) (l : dict) :
  NoDup (keys l) ->
  flat_map (detected_items key) l
  = match lookup "yolo" l with
    | Some r => items (choose (VList []) (nested r key))
    | None => []
    end.
Proof.
  induction l as [|[m r] l IH]; intros Hnd; simpl.
  - reflexivity.
  - simpl in Hnd. apply NoDup_cons_iff in Hnd as [Hnotin Hnd].
    rewrite IH by exact Hnd.
    unfold detected_items, detected_of. simpl.
    destruct (String.eqb_spec m "yolo") as [->|Hne].
    + apply lookup_none_iff in Hnotin. rewrite Hnotin, app_nil_r.
      now destruct (nested r key).
    + reflexivity.
Qed.

Lemma combine_results_typed (l : dict) :
  well_typed_input l = true ->
  unique_keys l ->
  exists c,
    combine_results l = Ok c /\
    all_text c = flat_map text_of_entry l /\
    shapes_detected c
    = match lookup "yolo" l with
      | Some r => choose (VList []) (nested r "shapes")
      | None => VList []
      end /\
    lines_detected c
    = match lookup "yolo" l with
      | Some r => choose (VList []) (nested r "lines")
      | None => VList []
      end /\
    keys (method_summary c) = filter recognised (keys l) /\
    Forall no_error_entry (method_summary c).
Proof.
  intros Hwt Hnd.
  destruct (combine_loop_typed l empty_combined Hwt Hnd) as
    (c & Hrun & Ht & Hs & Hl & Hk & Hne).
  { intros k _ []. }
  exists c. split; [exact Hrun|].
  rewrite Ht, Hs, Hl, Hk. rewrite !fold_choose_unique by exact Hnd. simpl.
  repeat split; auto.
Qed.

Lemma combine_loop_app (l1 l2 : dict) :
  forall c : combined,
    combine_loop (l1 ++ l2) c = Py.bind (combine_loop l1 c) (combine_loop l2).
Proof.
  induction l1 as [|[m r] l1 IH]; intros c; simpl.
  - reflexivity.
  - destruct (combine_step c m r); simpl; [apply IH | reflexivity].
Qed.

Lemma combine_step_unrecognised (c : combined) (method : string) (result : val) :
  recognised method = false -> combine_step c method result = Ok c.
Proof.
  unfold recognised, combine_step. intros H.
  repeat (apply orb_false_elim in H as [H ?]).
  repeat match goal with E : (_ =? _)%string = false |- _ => rewrite E; clear E end.
  reflexivity.
Qed.

Ltac bind_inv H :=
  repeat match type of H with
    | Py.bind ?m _ = Ok _ =>
        let E := fresh "E" in destruct m eqn:E; simpl in H; [|discriminate H]
    end.

Lemma combine_step_keys (c c' : combined) (method : string) (result : val) :
  combine_step c method result = Ok c' ->
  forall k, In k (keys (method_summary c')) ->
            In k (keys (method_summary c)) \/ (k = method /\ recognised method = true).
Proof.
  intros Hstep k.
  destruct (recognised method) eqn:Hrec.
  - unfold combine_step in Hstep.
    assert (Hset : exists entry,
               method_summary c' = Py.set method entry (method_summary c)).
    { unfold recognised in Hrec.
      destruct (String.eqb_spec method "tesseract") as [->|H1];
        [bind_inv Hstep; injection Hstep as <-; simpl; eauto|].
      destruct (String.eqb_spec method "trocr") as [->|H2];
        [bind_inv Hstep; injection Hstep as <-; simpl; eauto|].
      destruct (String.eqb_spec method "google_vision") as [->|H3];
        [bind_inv Hstep; injection Hstep as <-; simpl; eauto|].
      destruct (String.eqb_spec method "yolo") as [->|H4];
        [bind_inv Hstep; injection Hstep as <-; simpl; eauto|].
      discriminate. }
    destruct Hset as [entry ->]. rewrite keys_set.
    destruct (has_key method (method_summary c)); [now left|].
    intros Hin. apply in_app_or in Hin as [Hin|[<-|[]]]; auto.
  - rewrite combine_step_unrecognised in Hstep by exact Hrec.
    injection Hstep as <-. now left.
Qed.

Lemma combine_loop_keys (l : dict) :
  forall c c' : combined,
    combine_loop l c = Ok c' ->
    forall k, In k (keys (method_summary c')) ->
              In k (keys (method_summary c)) \/ recognised k = true.
Proof.
  induction l as [|[m r] l IH]; intros c c' Hrun k Hin; simpl in Hrun.
  - injection Hrun as <-. now left.
  - destruct (combine_step c m r) as [c1|] eqn:Hstep; simpl in Hrun; [|discriminate].
    destruct (IH c1 c' Hrun k Hin) as [H|H]; [|now right].
    destruct (combine_step_keys _ _ _ _ Hstep k H) as [H1|[-> H1]]; auto.
Qed.

End CombineResults.

Section FailedResult.

Import Pipeline Spec.

Variable failure : val.
Hypothesis failed : is_failure failure = true.

(** A failure is a dictionary that has none of the content keys. *)
Lemma failure_shape :
  exists d,
    failure = VDict d /\
    lookup "extracted_text" d = None /\
    lookup "text" d = None /\
    lookup "shapes" d = None /\
    lookup "lines" d = None /\
    lookup "yolo" d = None.
Proof.
  pose proof failed as H. unfold is_failure in H.
  destruct failure as [| | | | | |d]; try discriminate. exists d.
  apply andb_prop in H as [_ H]. simpl in H.
  repeat (apply andb_prop in H as [? H]).
  repeat match goal with
         | E : negb (has_key _ _) = true |- _ =>
             apply negb_true_iff, has_key_false_iff, lookup_none_iff in E
         end.
  now repeat split.
Qed.

Lemma failure_well_typed (method : string) :
  well_typed method failure = true.
Proof.
  destruct failure_shape as (d & -> & He & Ht & Hs & Hl & Hy).
  unfold well_typed, str_or_absent, dict_or_absent.
  rewrite He, Ht, Hs, Hl, Hy.
  now repeat match goal with |- context [if ?b then _ else _] => destruct b end.
Qed.

Lemma failure_no_text (method : string) :
  text_of method failure = [].
Proof.
  destruct failure_shape as (d & -> & He & Ht & _).
  unfold text_of, text_field. rewrite He, Ht.
  now repeat match goal with |- context [if ?b then _ else _] => destruct b end.
Qed.

Lemma failure_nothing_detected (key method : string) :
  key = "shapes" \/ key = "lines" ->
  detected_of key method failure = None.
Proof.
  destruct failure_shape as (d & -> & _ & _ & Hs & Hl & _).
  unfold detected_of, nested. intros Hkey.
  destruct (method =? "yolo")%string; [|reflexivity].
  destruct Hkey as [-> | ->]; [now rewrite Hs | now rewrite Hl].
Qed.

End FailedResult.

Section Failures.

Import Pipeline Spec.

Lemma well_typed_input_app (d1 d2 : dict) :
  well_typed_input (d1 ++ d2) = well_typed_input d1 && well_typed_input d2.
Proof. unfold well_typed_input. apply forallb_app. Qed.

Lemma unique_keys_app (d1 d2 : dict) :
  unique_keys (d1 ++ d2) -> unique_keys d1 /\ unique_keys d2.
Proof.
  unfold unique_keys. rewrite keys_app. intros H. split.
  - now apply NoDup_app_remove_r in H.
  - now apply NoDup_app_remove_l in H.
Qed.

Lemma unique_keys_replace (d1 d2 : dict) (k : string) (v v' : val) :
  unique_keys (d1 ++ (k, v) :: d2) -> unique_keys (d1 ++ (k, v') :: d2).
Proof. unfold unique_keys. now rewrite !keys_app. Qed.


Lemma combine_results_items (d : dict) :
  well_typed_input d = true ->
  unique_keys d ->
  exists c,
    combine_results d = Ok c /\
    all_text c = flat_map text_of_entry d /\
    items (shapes_detected c) = flat_map (detected_items "shapes") d /\
    items (lines_detected c) = flat_map (detected_items "lines") d.
Proof.
  intros Hwt Hnd.
  destruct (combine_results_typed d Hwt Hnd) as (c & Hrun & Ht & Hs & Hl & _).
  exists c. rewrite Ht, Hs, Hl, !detected_items_unique by exact Hnd.
  repeat split; auto; now destruct (lookup "yolo" d).
Qed.

End Failures.

(* ===================================================================== *)
(** ** The ledger of [combine_results] *)
(* ===================================================================== *)

Section Ledger.

Import Pipeline Spec Gather.

Lemma recognised_iff (method : string) :
  recognised method = true <->
  method = "tesseract" \/ method = "trocr" \/
  method = "google_vision" \/ method = "yolo".
Proof.
  unfold recognised. rewrite !orb_true_iff, !String.eqb_eq. tauto.
Qed.

(** C10.  [combine_results] dispatches on four names only (tesseract,
    trocr, google_vision, yolo: [recognised], see [recognised_iff]).  An
    entry under any other name, whatever it carries, is skipped: the run
    with it is the run without it, so it adds nothing to [all_text],
    [shapes_detected] or [lines_detected], and the ledger has no entry
    for it. *)
Theorem C10_unrecognised_source_ignored :
  forall (before after : dict) (name : string) (result : val),
    recognised name = false ->
    combine_results (before ++ (name, result) :: after)
    = combine_results (before ++ after)
    /\ (forall c,
          combine_results (before ++ (name, result) :: after) = Ok c ->
          lookup name (method_summary c) = None).
Proof.
  intros before after name result Hrec.
  assert (Heq : combine_results (before ++ (name, result) :: after)
                = combine_results (before ++ after)).
  { unfold combine_results. rewrite !combine_loop_app.
    destruct (combine_loop before empty_combined) as [c|e]; simpl; [|reflexivity].
    now rewrite combine_step_unrecognised. }
  split; [exact Heq|].
  intros c Hrun. apply lookup_none_iff. intros Hin.
  destruct (combine_loop_keys _ _ _ Hrun name Hin) as [[]|H].
  congruence.
Qed.

Lemma C10_unrecognised_source_ignored_witness :
  recognised "easyocr" = false /\
  combine_results
    ([("tesseract", VDict [("extracted_text", VStr "R5")])]
       ++ ("easyocr", VDict [("text", VStr "M8 bolt");
                             ("shapes", VDict [("shapes", VList [VStr "circle"])])])
       :: [])
  = combine_results ([("tesseract", VDict [("extracted_text", VStr "R5")])] ++ []).
Proof.
  split; [reflexivity|].
  apply (C10_unrecognised_source_ignored
           [("tesseract", VDict [("extracted_text", VStr "R5")])] []
           "easyocr").
  reflexivity.
Defined.

Lemma record_result_typed (g : gathered) (name : string) (r : val)
    (report : val -> res unit) :
  is_dict r = true ->
  (no_error r = true -> report r = Ok tt) ->
  record_result g name r report
  = Ok (if no_error r
        then (fst g ++ [name], Py.set name r (snd g))
        else g).
Proof.
  unfold is_dict, no_error, record_result. destruct r; try discriminate.
  intros _ Hreport. simpl. unfold has_key in *.
  destruct (lookup "error" d); simpl.
  - reflexivity.
  - now rewrite Hreport.
Qed.

Lemma report_symbols_typed (r : val) :
  is_dict r = true -> well_typed "yolo" r = true -> report_symbols r = Ok tt.
Proof.
  unfold well_typed, report_symbols. destruct r; try discriminate. simpl.
  intros _ H. apply andb_prop in H as [H Hy]. apply andb_prop in H as [Hs Hl].
  destruct (get_nested_typed d "shapes" "total_shapes" Hs) as [v1 ->].
  destruct (get_nested_typed d "lines" "total_lines" Hl) as [v2 ->].
  destruct (get_nested_typed d "yolo" "total_detections" Hy) as [v3 ->].
  reflexivity.
Qed.

Lemma report_detections_typed (r : val) :
  is_dict r = true -> report_detections r = Ok tt.
Proof.
  unfold report_detections. destruct r; try discriminate. simpl.
  now destruct (lookup "total_detections" d).
Qed.

Lemma record_optional_typed (g : gathered) (name : string) (r : option val)
    (report : val -> res unit) :
  typed_output name r = true ->
  (forall v, r = Some v -> no_error v = true -> report v = Ok tt) ->
  record_optional g name r report
  = Ok (match kept name r with
        | [] => g
        | _ => (fst g ++ [name],
                match r with Some v => Py.set name v (snd g) | None => snd g end)
        end).
Proof.
  unfold typed_output, record_optional, kept. destruct r as [v|]; [|reflexivity].
  intros H Hreport. apply andb_prop in H as [Hd _].
  rewrite record_result_typed; auto. now destruct (no_error v).
Qed.

(** What [comprehensive_analysis] hands to [combine_results]: the results
    without an ['error'] key, under their names, in the order the engines
    run. *)
Lemma gather_results_typed (e : engine_outputs) :
  typed_outputs e = true ->
  exists d,
    gather_results e = Ok (succeeded e, d) /\
    keys d = succeeded e /\
    unique_keys d /\
    well_typed_input d = true.
Proof.
  unfold typed_outputs, gather_results, succeeded.
  destruct e as [t h s g]. simpl.
  intros H. apply andb_prop in H as [H Hg]. apply andb_prop in H as [H Hs].
  apply andb_prop in H as [Ht Hh].
  assert (Hs' : forall v, s = Some v -> no_error v = true -> report_symbols v = Ok tt).
  { intros v -> _. simpl in Hs. apply andb_prop in Hs as [? ?].
    now apply report_symbols_typed. }
  simpl in Ht. apply andb_prop in Ht as [Htd Htw].
  rewrite (record_result_typed _ "tesseract" t); auto;
    [| intros _; now apply report_detections_typed ].
  simpl. rewrite (record_optional_typed _ "trocr" h); auto. simpl.
  rewrite (record_optional_typed _ "yolo" s); auto. simpl.
  rewrite (record_optional_typed _ "google_vision" g); auto.
  unfold kept in *.
  destruct (no_error t); destruct h as [vh|]; try destruct (no_error vh);
    destruct s as [vs|]; try destruct (no_error vs);
    destruct g as [vg|]; try destruct (no_error vg);
    simpl in *; eexists; (split; [reflexivity|]);
    (split; [reflexivity|]);
    (split; [unfold unique_keys; simpl;
             repeat (constructor; [simpl; intuition discriminate|]); constructor
            | unfold well_typed_input; simpl;
              repeat match goal with
                     | H : _ && _ = true |- _ => apply andb_prop in H as [_ H]
                     end;
              repeat match goal with H : _ = true |- _ => rewrite H; clear H end;
              reflexivity]).
Qed.

Lemma succeeded_recognised (e : engine_outputs) :
  filter recognised (succeeded e) = succeeded e.
Proof.
  unfold succeeded, kept. destruct e as [t h s g]. simpl.
  destruct (no_error t); destruct h as [vh|]; try destruct (no_error vh);
    destruct s as [vs|]; try destruct (no_error vs);
    destruct g as [vg|]; try destruct (no_error vg); reflexivity.
Qed.

(** C1, as the code has it.  For a dictionary of well-typed results,
    [combine_results] returns, and the keys of [method_summary] are the
    input's keys that are among the four recognised names, each once and
    in input order; no entry has an ['error'] key; an empty input gives an
    empty ledger.  In [comprehensive_analysis] the ledger lists the
    sources whose result had no ['error'] key: a failed source is not
    handed to [combine_results]. *)
Theorem C1_ledger_of_recognised_sources :
  forall (d : dict) (e : engine_outputs),
    unique_keys d ->
    well_typed_input d = true ->
    typed_outputs e = true ->
    (exists c,
        combine_results d = Ok c /\
        keys (method_summary c) = filter recognised (keys d) /\
        Forall no_error_entry (method_summary c) /\
        (d = [] -> method_summary c = []))
    /\
    (exists c,
        comprehensive_analysis e = Ok c /\
        keys (method_summary c) = succeeded e /\
        Forall no_error_entry (method_summary c)).
Proof.
  intros d e Hnd Hwt He. split.
  - destruct (combine_results_typed d Hwt Hnd) as (c & Hrun & _ & _ & _ & Hk & Hne).
    exists c. repeat split; auto.
    intros ->. simpl in Hk. destruct (method_summary c); [reflexivity|discriminate].
  - destruct (gather_results_typed e He) as (g & Hg & Hkeys & Hnd' & Hwt').
    destruct (combine_results_typed g Hwt' Hnd') as (c & Hrun & _ & _ & _ & Hk & Hne).
    exists c. unfold comprehensive_analysis. rewrite Hg. simpl.
    repeat split; auto.
    now rewrite Hk, Hkeys, succeeded_recognised.
Qed.

Lemma C1_ledger_of_recognised_sources_witness :
  let d := [("tesseract", VDict [("extracted_text", VStr "DIM 150mm");
                                 ("total_detections", VInt 3)]);
            ("gpt4", VDict [("analysis", VStr "bracket")]);
            ("yolo", VDict [("shapes", VDict [("total_shapes", VInt 0);
                                              ("shapes", VList [])])])] in
  let e := mkOutputs (VDict [("error", VStr "Could not load image")])
                     (Some (VDict [("text", VStr "R5")])) None None in
  unique_keys d /\ well_typed_input d = true /\ typed_outputs e = true /\
  (exists c,
      combine_results d = Ok c /\
      keys (method_summary c) = filter recognised (keys d) /\
      Forall no_error_entry (method_summary c) /\
      (d = [] -> method_summary c = []))
  /\
  (exists c,
      comprehensive_analysis e = Ok c /\
      keys (method_summary c) = succeeded e /\
      Forall no_error_entry (method_summary c)).
Proof.
  intros d e.
  assert (Hnd : unique_keys d).
  { unfold unique_keys, d. simpl.
    repeat (constructor; [simpl; intuition discriminate|]). constructor. }
  split; [exact Hnd|]. split; [reflexivity|]. split; [reflexivity|].
  apply (C1_ledger_of_recognised_sources d e); [exact Hnd | reflexivity | reflexivity].
Defined.

(** C1 as stated fails.  A source outside the four names gets no ledger
    entry, so the ledger is shorter than the input; the entry of a failed
    result under a recognised name has no ['error'] key; and a source that
    [comprehensive_analysis] ran and that failed does not reach the ledger
    at all. *)
Lemma C1_counterexample :
  combine_results
    [("tesseract", VDict [("error", VStr "timeout")]);
     ("easyocr", VDict [("text", VStr "M8")])]
  = Ok (mkCombined [] (VList []) (VList []) []
          [("tesseract",
            VDict [("detections", VInt 0); ("type", VStr "printed_text")])])
  /\ List.length
       [("tesseract",
         VDict [("detections", VInt 0); ("type", VStr "printed_text")])]
     <> List.length
          [("tesseract", VDict [("error", VStr "timeout")]);
           ("easyocr", VDict [("text", VStr "M8")])]
  /\ contains "error"
       (VDict [("detections", VInt 0); ("type", VStr "printed_text")])
     = Ok false
  /\ comprehensive_analysis
       (mkOutputs (VDict [("error", VStr "Could not load image")])
                  None None None)
     = Ok empty_combined
  /\ List.length (method_summary empty_combined)
     <> List.length
          (attempted
             (mkOutputs (VDict [("error", VStr "Could not load image")])
                        None None None)).
Proof.
  repeat split; try reflexivity; simpl; discriminate.
Qed.

End Ledger.

(* ===================================================================== *)
(** ** Content lists of [combine_results] *)
(* ===================================================================== *)

Section Content.

Import Pipeline Spec.

Lemma well_typed_input_perm (d d' : dict) :
  Permutation d d' -> well_typed_input d = true -> well_typed_input d' = true.
Proof.
  unfold well_typed_input. intros Hp H. rewrite forallb_forall in *.
  intros x Hx. apply H. eapply Permutation_in; [symmetry; exact Hp | exact Hx].
Qed.

Lemma unique_keys_perm (d d' : dict) :
  Permutation d d' -> unique_keys d -> unique_keys d'.
Proof.
  unfold unique_keys, keys. intros Hp.
  apply Permutation_NoDup. now apply Permutation_map.
Qed.

(** C5, as the code has it.  [shapes_detected] is what the entry named
    yolo holds under ['shapes']['shapes'], assigned as it is, and the
    empty list when there is no such entry or it has no shapes;
    [lines_detected] likewise with ['lines']['lines'].  Entries under
    other names are not read for shapes or lines. *)
Theorem C5_shapes_and_lines_come_from_yolo :
  forall d : dict,
    unique_keys d ->
    well_typed_input d = true ->
    exists c,
      combine_results d = Ok c /\
      shapes_detected c
      = match lookup "yolo" d with
        | Some r => choose (VList []) (nested r "shapes")
        | None => VList []
        end /\
      lines_detected c
      = match lookup "yolo" d with
        | Some r => choose (VList []) (nested r "lines")
        | None => VList []
        end.
Proof.
  intros d Hnd Hwt.
  destruct (combine_results_typed d Hwt Hnd) as (c & Hrun & _ & Hs & Hl & _).
  exists c. auto.
Qed.

Lemma C5_shapes_and_lines_come_from_yolo_witness :
  let d := [("google_vision",
             VDict [("text", VStr "PLATE");
                    ("shapes", VDict [("shapes", VList [VStr "square"])])]);
            ("yolo",
             VDict [("shapes", VDict [("total_shapes", VInt 1);
                                      ("shapes", VList [VStr "circle"])]);
                    ("lines", VDict [("total_lines", VInt 0);
                                     ("lines", VList [])])])] in
  unique_keys d /\ well_typed_input d = true /\
  exists c,
    combine_results d = Ok c /\
    shapes_detected c
    = match lookup "yolo" d with
      | Some r => choose (VList []) (nested r "shapes")
      | None => VList []
      end /\
    lines_detected c
    = match lookup "yolo" d with
      | Some r => choose (VList []) (nested r "lines")
      | None => VList []
      end.
Proof.
  intros d.
  assert (Hnd : unique_keys d).
  { unfold unique_keys, d. simpl.
    repeat (constructor; [simpl; intuition discriminate|]). constructor. }
  split; [exact Hnd|]. split; [reflexivity|].
  apply (C5_shapes_and_lines_come_from_yolo d); [exact Hnd | reflexivity].
Defined.

(** C5 as stated fails: of two sources that both carry shapes (and
    lines), only the one named yolo reaches [shapes_detected] (and
    [lines_detected]); the other source's items are dropped, so the
    result is not the concatenation of what the sources offer. *)
Lemma C5_counterexample :
  let d := [("yolo",
             VDict [("shapes", VDict [("total_shapes", VInt 1);
                                      ("shapes", VList [VStr "circle"])]);
                    ("lines", VDict [("total_lines", VInt 1);
                                     ("lines", VList [VStr "l1"])])]);
            ("google_vision",
             VDict [("shapes", VDict [("total_shapes", VInt 1);
                                      ("shapes", VList [VStr "square"])]);
                    ("lines", VDict [("total_lines", VInt 1);
                                     ("lines", VList [VStr "l2"])])])] in
  exists c,
    combine_results d = Ok c /\
    shapes_detected c = VList [VStr "circle"] /\
    flat_map (offered_items "shapes") d = [VStr "circle"; VStr "square"] /\
    items (shapes_detected c) <> flat_map (offered_items "shapes") d /\
    lines_detected c = VList [VStr "l1"] /\
    flat_map (offered_items "lines") d = [VStr "l1"; VStr "l2"] /\
    items (lines_detected c) <> flat_map (offered_items "lines") d.
Proof.
  eexists. split; [reflexivity|]. simpl.
  repeat split; try reflexivity; discriminate.
Qed.

(** C7.  The content lists are built entry by entry in the order of the
    input: [all_text], [shapes_detected] and [lines_detected] are the
    concatenation, along the input, of what each entry contributes
    ([text_of_entry], [detected_items]).  This holds of the input and of
    any reordering of it, so reordering the input reorders the blocks of
    the output in the same way, and the item lists of the two runs are
    permutations of each other. *)
Theorem C7_order_preservation :
  forall d d' : dict,
    unique_keys d ->
    well_typed_input d = true ->
    Permutation d d' ->
    exists c c',
      combine_results d = Ok c /\
      combine_results d' = Ok c' /\
      all_text c = flat_map text_of_entry d /\
      all_text c' = flat_map text_of_entry d' /\
      items (shapes_detected c) = flat_map (detected_items "shapes") d /\
      items (shapes_detected c') = flat_map (detected_items "shapes") d' /\
      items (lines_detected c) = flat_map (detected_items "lines") d /\
      items (lines_detected c') = flat_map (detected_items "lines") d' /\
      Permutation (all_text c) (all_text c') /\
      Permutation (items (shapes_detected c)) (items (shapes_detected c')) /\
      Permutation (items (lines_detected c)) (items (lines_detected c')).
Proof.
  intros d d' Hnd Hwt Hp.
  destruct (combine_results_items d Hwt Hnd) as (c & Hrun & Ht & Hs & Hl).
  destruct (combine_results_items d'
              (well_typed_input_perm _ _ Hp Hwt) (unique_keys_perm _ _ Hp Hnd))
    as (c' & Hrun' & Ht' & Hs' & Hl').
  exists c, c'. rewrite Ht, Ht', Hs, Hs', Hl, Hl'.
  repeat split; auto; now apply Permutation_flat_map.
Qed.

Lemma C7_order_preservation_witness :
  let t := ("tesseract", VDict [("extracted_text", VStr " DIM 150mm ")]) in
  let h := ("trocr", VDict [("text", VStr "R5")]) in
  let y := ("yolo", VDict [("shapes", VDict [("shapes", VList [VStr "circle"])])]) in
  unique_keys [t; h; y] /\ well_typed_input [t; h; y] = true /\
  Permutation [t; h; y] [y; h; t] /\
  exists c c',
    combine_results [t; h; y] = Ok c /\
    combine_results [y; h; t] = Ok c' /\
    all_text c = flat_map text_of_entry [t; h; y] /\
    all_text c' = flat_map text_of_entry [y; h; t] /\
    items (shapes_detected c) = flat_map (detected_items "shapes") [t; h; y] /\
    items (shapes_detected c') = flat_map (detected_items "shapes") [y; h; t] /\
    items (lines_detected c) = flat_map (detected_items "lines") [t; h; y] /\
    items (lines_detected c') = flat_map (detected_items "lines") [y; h; t] /\
    Permutation (all_text c) (all_text c') /\
    Permutation (items (shapes_detected c)) (items (shapes_detected c')) /\
    Permutation (items (lines_detected c)) (items (lines_detected c')).
Proof.
  intros t h y.
  assert (Hnd : unique_keys [t; h; y]).
  { unfold unique_keys. simpl.
    repeat (constructor; [simpl; intuition discriminate|]). constructor. }
  assert (Hp : Permutation [t; h; y] [y; h; t]).
  { change [y; h; t] with (rev [t; h; y]). apply Permutation_rev. }
  split; [exact Hnd|]. split; [reflexivity|]. split; [exact Hp|].
  apply (C7_order_preservation [t; h; y] [y; h; t]);
    [exact Hnd | reflexivity | exact Hp].
Defined.

(** The order is that of the input: the same three entries, reversed,
    give the text items reversed. *)
Example order_follows_input :
  exists c c',
    combine_results
      [("tesseract", VDict [("extracted_text", VStr " DIM 150mm ")]);
       ("trocr", VDict [("text", VStr "R5")])] = Ok c /\
    combine_results
      [("trocr", VDict [("text", VStr "R5")]);
       ("tesseract", VDict [("extracted_text", VStr " DIM 150mm ")])] = Ok c' /\
    all_text c = [text_entry "tesseract" "DIM 150mm" "printed";
                  text_entry "trocr" "R5" "handwritten"] /\
    all_text c' = [text_entry "trocr" "R5" "handwritten";
                   text_entry "tesseract" "DIM 150mm" "printed"].
Proof. do 2 eexists. repeat split. Qed.

(** C9.  Take an input with an entry [(name, result)] anywhere in it, and
    the input where that entry's result is replaced by a failure.  Both
    runs return; in both, [all_text], [shapes_detected] and
    [lines_detected] are what the entries before contribute, then what
    this entry contributes, then what the entries after contribute.  The
    parts of the other entries are the same in the two runs (they are
    what [combine_results] gives on those entries alone), and the failed
    entry contributes nothing. *)
Theorem C9_failure_isolation :
  forall (before after : dict) (name : string) (result failure : val),
    unique_keys (before ++ (name, result) :: after) ->
    well_typed_input (before ++ (name, result) :: after) = true ->
    is_failure failure = true ->
    exists c c' cb ca,
      combine_results (before ++ (name, result) :: after) = Ok c /\
      combine_results (before ++ (name, failure) :: after) = Ok c' /\
      combine_results before = Ok cb /\
      combine_results after = Ok ca /\
      all_text c = all_text cb ++ text_of name result ++ all_text ca /\
      all_text c' = all_text cb ++ all_text ca /\
      items (shapes_detected c)
      = items (shapes_detected cb)
        ++ detected_items "shapes" (name, result)
        ++ items (shapes_detected ca) /\
      items (shapes_detected c')
      = items (shapes_detected cb) ++ items (shapes_detected ca) /\
      items (lines_detected c)
      = items (lines_detected cb)
        ++ detected_items "lines" (name, result)
        ++ items (lines_detected ca) /\
      items (lines_detected c')
      = items (lines_detected cb) ++ items (lines_detected ca).
Proof.
  intros before after name result failure Hnd Hwt Hf.
  pose proof (unique_keys_replace _ _ _ _ failure Hnd) as Hnd'.
  destruct (unique_keys_app _ _ Hnd) as [Hndb Hnda'].
  assert (Hnda : unique_keys after).
  { unfold unique_keys in *. simpl in Hnda'. now apply NoDup_cons_iff in Hnda'. }
  pose proof Hwt as Hwt0.
  rewrite well_typed_input_app in Hwt. apply andb_prop in Hwt as [Hwtb Hwta'].
  simpl in Hwta'. apply andb_prop in Hwta' as [Hwtr Hwta].
  assert (Hwt' : well_typed_input (before ++ (name, failure) :: after) = true).
  { rewrite well_typed_input_app, Hwtb. simpl.
    now rewrite (failure_well_typed failure Hf name), Hwta. }
  destruct (combine_results_items _ Hwt0 Hnd) as (c & Hrun & Ht & Hs & Hl).
  destruct (combine_results_items _ Hwt' Hnd') as (c' & Hrun' & Ht' & Hs' & Hl').
  destruct (combine_results_items _ Hwtb Hndb) as (cb & Hrunb & Htb & Hsb & Hlb).
  destruct (combine_results_items _ Hwta Hnda) as (ca & Hruna & Hta & Hsa & Hla).
  exists c, c', cb, ca.
  rewrite Ht, Ht', Hs, Hs', Hl, Hl', Htb, Hsb, Hlb, Hta, Hsa, Hla.
  rewrite !flat_map_app. simpl.
  change (text_of_entry (name, result)) with (text_of name result).
  change (text_of_entry (name, failure)) with (text_of name failure).
  rewrite (failure_no_text failure Hf name).
  assert (Hd : forall key, key = "shapes" \/ key = "lines" ->
                           detected_items key (name, failure) = []).
  { intros key Hkey. unfold detected_items. simpl.
    now rewrite (failure_nothing_detected failure Hf key name Hkey). }
  rewrite !Hd by auto.
  simpl. repeat split; auto.
Qed.

Lemma C9_failure_isolation_witness :
  let before := [("tesseract", VDict [("extracted_text", VStr "DIM 150mm")])] in
  let after := [("yolo", VDict [("shapes", VDict [("shapes", VList [VStr "circle"])])])] in
  let result := VDict [("text", VStr "R5")] in
  let failure := VDict [("error", VStr "TrOCR model not loaded")] in
  unique_keys (before ++ ("trocr", result) :: after) /\
  well_typed_input (before ++ ("trocr", result) :: after) = true /\
  is_failure failure = true /\
  exists c c' cb ca,
    combine_results (before ++ ("trocr", result) :: after) = Ok c /\
    combine_results (before ++ ("trocr", failure) :: after) = Ok c' /\
    combine_results before = Ok cb /\
    combine_results after = Ok ca /\
    all_text c = all_text cb ++ text_of "trocr" result ++ all_text ca /\
    all_text c' = all_text cb ++ all_text ca /\
    items (shapes_detected c)
    = items (shapes_detected cb)
      ++ detected_items "shapes" ("trocr", result)
      ++ items (shapes_detected ca) /\
    items (shapes_detected c')
    = items (shapes_detected cb) ++ items (shapes_detected ca) /\
    items (lines_detected c)
    = items (lines_detected cb)
      ++ detected_items "lines" ("trocr", result)
      ++ items (lines_detected ca) /\
    items (lines_detected c')
    = items (lines_detected cb) ++ items (lines_detected ca).
Proof.
  intros before after result failure.
  assert (Hnd : unique_keys (before ++ ("trocr", result) :: after)).
  { unfold unique_keys. simpl.
    repeat (constructor; [simpl; intuition discriminate|]). constructor. }
  split; [exact Hnd|]. split; [reflexivity|]. split; [reflexivity|].
  apply (C9_failure_isolation before after "trocr" result failure);
    [exact Hnd | reflexivity | reflexivity].
Defined.

End Content.

(* ===================================================================== *)
(** ** Success rate *)
(* ===================================================================== *)

Section SuccessRate.

Import Spec AiOcr.

Lemma is_success_dict (d : dict) :
  is_success (VDict d) = Ok (status_success (VDict d)).
Proof.
  unfold is_success, status_success. simpl. now destruct (lookup "status" d).
Qed.

Lemma count_success_dicts (results : list val) :
  forallb is_dict results = true ->
  count_success results = Ok (List.length (filter status_success results)).
Proof.
  induction results as [|r rs IH]; [reflexivity|].
  cbn [forallb count_success filter].
  intros H. apply andb_prop in H as [Hr Hrs].
  destruct r; try discriminate.
  rewrite is_success_dict, (IH Hrs). cbn [Py.bind].
  now destruct (status_success (VDict d)).
Qed.

Lemma filter_length_le {A : Type} (f : A -> bool) (l : list A) :
  (List.length (filter f l) <= List.length l)%nat.
Proof.
  induction l as [|x l IH]; simpl; [lia|]. destruct (f x); simpl; lia.
Qed.

Lemma Q_of_nat_nonneg (n : nat) : (0 <= Q_of_nat n)%Q.
Proof.
  unfold Q_of_nat. change 0%Q with (inject_Z 0). rewrite <- Zle_Qle. lia.
Qed.

Lemma Q_of_nat_pos (n : nat) : (0 < n)%nat -> (0 < Q_of_nat n)%Q.
Proof.
  intros H. unfold Q_of_nat. change 0%Q with (inject_Z 0). rewrite <- Zlt_Qlt. lia.
Qed.

Lemma percentage_bounds (s t : nat) :
  (s <= t)%nat -> (0 < t)%nat ->
  (0 <= Q_of_nat s / Q_of_nat t * 100 /\ Q_of_nat s / Q_of_nat t * 100 <= 100)%Q.
Proof.
  intros Hst Ht.
  pose proof (Q_of_nat_nonneg s) as Hs0.
  pose proof (Q_of_nat_pos t Ht) as Ht0.
  assert (Hle : (Q_of_nat s <= Q_of_nat t)%Q).
  { unfold Q_of_nat. rewrite <- Zle_Qle. lia. }
  assert (H0 : (0 <= Q_of_nat s / Q_of_nat t)%Q).
  { apply Qle_shift_div_l; [exact Ht0|]. now rewrite Qmult_0_l. }
  assert (H1 : (Q_of_nat s / Q_of_nat t <= 1)%Q).
  { apply Qle_shift_div_r; [exact Ht0|]. now rewrite Qmult_1_l. }
  split.
  - apply Qmult_le_0_compat; [exact H0 | discriminate].
  - setoid_replace 100%Q with (1 * 100)%Q at 2 by ring.
    apply Qmult_le_compat_r; [exact H1 | discriminate].
Qed.

Lemma compute_performance_dicts (api_results : dict) :
  all_dicts api_results = true ->
  compute_performance api_results
  = Ok (mkPerformance (successes api_results) (List.length api_results)
          (rate (successes api_results) (List.length api_results))
          (keys api_results)).
Proof.
  intros Hd. unfold compute_performance, all_dicts in *.
  now rewrite (count_success_dicts _ Hd).
Qed.

(** C2, as the code has it.  For a dictionary of result dictionaries the
    performance block returns; [successful_apis] is the number of results
    whose status is ['success'], [total_apis_attempted] the number of
    results; [success_rate] is 100 times their quotient, a percentage
    between 0 and 100, and the integer 0 when there is no result. *)
Theorem C2_success_rate_is_a_percentage :
  forall api_results : dict,
    all_dicts api_results = true ->
    exists p q,
      compute_performance api_results = Ok p /\
      successful_apis p = successes api_results /\
      total_apis_attempted p = List.length api_results /\
      as_number (success_rate p) = Ok q /\
      (api_results = [] -> success_rate p = VInt 0) /\
      (api_results <> [] ->
       q == 100 * (Q_of_nat (successes api_results)
                   / Q_of_nat (List.length api_results)))%Q /\
      (0 <= q /\ q <= 100)%Q.
Proof.
  intros d Hd. rewrite (compute_performance_dicts d Hd).
  assert (Hle : (successes d <= List.length d)%nat).
  { unfold successes. etransitivity; [apply filter_length_le|].
    unfold values. now rewrite length_map. }
  unfold rate. destruct d as [|kv d'].
  - simpl. eexists. exists (inject_Z 0). split; [reflexivity|]. simpl.
    repeat split; try reflexivity; try discriminate; try congruence.
  - set (d := kv :: d') in *.
    assert (Hpos : (0 < List.length d)%nat) by (subst d; simpl; lia).
    destruct (Nat.ltb_spec 0 (List.length d)) as [_|Hc]; [|lia].
    eexists. eexists. split; [reflexivity|]. simpl.
    split; [reflexivity|]. split; [reflexivity|]. split; [reflexivity|].
    split; [discriminate|]. split.
    + intros _. ring.
    + now apply percentage_bounds.
Qed.

Lemma C2_success_rate_is_a_percentage_witness :
  let d := [("tesseract", VDict [("status", VStr "success")]);
            ("trocr", VDict [("status", VStr "error");
                             ("error", VStr "TrOCR model not loaded")])] in
  all_dicts d = true /\
  exists p q,
    compute_performance d = Ok p /\
    successful_apis p = successes d /\
    total_apis_attempted p = List.length d /\
    as_number (success_rate p) = Ok q /\
    (d = [] -> success_rate p = VInt 0) /\
    (d <> [] ->
     q == 100 * (Q_of_nat (successes d) / Q_of_nat (List.length d)))%Q /\
    (0 <= q /\ q <= 100)%Q.
Proof.
  intros d. split; [reflexivity|].
  apply (C2_success_rate_is_a_percentage d). reflexivity.
Defined.

(** C2 as stated fails: with one source, which succeeded, the rate is
    100, not 1/1, and lies outside [0, 1]. *)
Lemma C2_counterexample :
  compute_performance [("tesseract", VDict [("status", VStr "success")])]
  = Ok (mkPerformance 1 1 (VFloat 100) ["tesseract"])
  /\ ~ (100 == Q_of_nat 1 / Q_of_nat 1)%Q
  /\ ~ (100 <= 1)%Q.
Proof.
  split; [reflexivity|]. split; intros H; vm_compute in H; congruence.
Qed.

End SuccessRate.

(* ===================================================================== *)
(** ** Success without content *)
(* ===================================================================== *)

Section EmptySuccess.

Import Pipeline Spec AiOcr.







End EmptySuccess.

(* ===================================================================== *)
(** ** OCR confidence *)
(* ===================================================================== *)

Section Confidence.

Import Spec AiOcr DataPipeline.

Lemma collect_confidences_typed (results : list val) :
  forallb is_dict results = true ->
  forallb tokens_numeric results = true ->
  collect_confidences results
  = Ok (map confidence_of (filter status_success results)).
Proof.
  induction results as [|r rs IH]; [reflexivity|].
  cbn [forallb collect_confidences filter].
  intros Hd Ht. apply andb_prop in Hd as [Hr Hd]. apply andb_prop in Ht as [Htr Ht].
  destruct r; try discriminate.
  rewrite is_success_dict, (IH Hd Ht). cbn [Py.bind].
  destruct (status_success (VDict d)); [|reflexivity].
  unfold confidence_of, tokens_numeric, gt0 in *. simpl. unfold has_key.
  destruct (lookup "confidence" d); simpl; [reflexivity|].
  destruct (lookup "tokens_used" d) as [t|]; simpl.
  - destruct (as_number t) as [q|]; [|discriminate]. simpl.
    now destruct (Qle_bool q 0).
  - reflexivity.
Qed.

Lemma confidence_of_numeric (r : val) :
  confidence_numeric r = true ->
  tokens_numeric r = true ->
  exists q, as_number (confidence_of r) = Ok q.
Proof.
  unfold confidence_numeric, tokens_numeric, confidence_of.
  destruct r; try discriminate.
  destruct (lookup "confidence" d) as [c|].
  - destruct (as_number c) as [q|]; [eauto | discriminate].
  - intros _. destruct (lookup "tokens_used" d) as [t|]; [|simpl; eauto].
    destruct (as_number t) as [q|]; [|discriminate].
    intros _. destruct (Qle_bool q 0); simpl; eauto.
Qed.

Lemma sum_confidences_numeric (results : list val) :
  forallb confidence_numeric results = true ->
  forallb tokens_numeric results = true ->
  exists total,
    Py.sum (map confidence_of (filter status_success results)) = Ok total.
Proof.
  induction results as [|r rs IH]; [simpl; eauto|].
  cbn [forallb filter].
  intros Hc Ht. apply andb_prop in Hc as [Hcr Hc]. apply andb_prop in Ht as [Htr Ht].
  destruct (IH Hc Ht) as [total Htotal].
  destruct (status_success r); [|eauto].
  destruct (confidence_of_numeric r Hcr Htr) as [q Hq].
  cbn [map Py.sum]. rewrite Hq, Htotal. eauto.
Qed.

(** C4, as the code has it.  [_calculate_ocr_confidence] collects one
    confidence per successful source ([confidence_of]): the reported
    ['confidence'] when the result has one; otherwise 0.8 when the result
    reports [tokens_used > 0], and 0.6 in the remaining case.  It returns
    their mean, and 0.0 when no source succeeded.  The success rate does
    not enter the result. *)
Theorem C4_confidence_defaults_and_mean :
  forall api_results : dict,
    all_dicts api_results = true ->
    forallb tokens_numeric (values api_results) = true ->
    forallb confidence_numeric (values api_results) = true ->
    collect_confidences (values api_results)
    = Ok (map confidence_of (filter status_success (values api_results)))
    /\
    exists total,
      Py.sum (map confidence_of (filter status_success (values api_results)))
      = Ok total /\
      _calculate_ocr_confidence (VDict [("api_results", VDict api_results)])
      = Ok (VFloat
              (match successes api_results with
               | O => 0
               | S _ => total / Q_of_nat (successes api_results)
               end)).
Proof.
  intros d Hd Ht Hc. unfold all_dicts in Hd.
  pose proof (collect_confidences_typed _ Hd Ht) as Hcollect.
  split; [exact Hcollect|].
  destruct (sum_confidences_numeric _ Hc Ht) as [total Htotal].
  exists total. split; [exact Htotal|].
  unfold _calculate_ocr_confidence. simpl. rewrite Hcollect. simpl.
  unfold mean_or_zero, successes.
  destruct (filter status_success (values d)) as [|r rs] eqn:E; [reflexivity|].
  rewrite Htotal. simpl. now rewrite length_map.
Qed.

Lemma C4_confidence_defaults_and_mean_witness :
  let d := [("gpt4", VDict [("status", VStr "success");
                            ("tokens_used", VInt 1200)]);
            ("tesseract", VDict [("status", VStr "success");
                                 ("confidence", VFloat 0.9)]);
            ("trocr", VDict [("status", VStr "success")]);
            ("claude", VDict [("status", VStr "error");
                              ("error", VStr "rate limited")])] in
  all_dicts d = true /\
  forallb tokens_numeric (values d) = true /\
  forallb confidence_numeric (values d) = true /\
  collect_confidences (values d)
  = Ok (map confidence_of (filter status_success (values d)))
  /\
  exists total,
    Py.sum (map confidence_of (filter status_success (values d))) = Ok total /\
    _calculate_ocr_confidence (VDict [("api_results", VDict d)])
    = Ok (VFloat
            (match successes d with
             | O => 0
             | S _ => total / Q_of_nat (successes d)
             end)).
Proof.
  intros d. split; [reflexivity|]. split; [reflexivity|]. split; [reflexivity|].
  apply (C4_confidence_defaults_and_mean d); reflexivity.
Defined.

(** The three cases on one input: 0.8 for the source that reports
    tokens, the reported 0.9, 0.6 for the source that reports neither. *)
Example confidences_collected :
  collect_confidences
    [VDict [("status", VStr "success"); ("tokens_used", VInt 1200)];
     VDict [("status", VStr "success"); ("confidence", VFloat 0.9)];
     VDict [("status", VStr "success")];
     VDict [("status", VStr "error"); ("error", VStr "rate limited")]]
  = Ok [VFloat 0.8; VFloat 0.9; VFloat 0.6].
Proof. reflexivity. Qed.

(** C4 as stated fails.  A successful source without ['confidence'] that
    reports tokens contributes 0.8, not the default 0.6; and the result
    is the mean alone: with a failed source next to it (one success out
    of two) it is still 0.8, the value it has when every source
    succeeded. *)
Lemma C4_counterexample :
  collect_confidences
    [VDict [("status", VStr "success"); ("tokens_used", VInt 1200)]]
  = Ok [VFloat 0.8]
  /\ map confidence_by_default
       [VDict [("status", VStr "success"); ("tokens_used", VInt 1200)]]
     = [VFloat 0.6]
  /\ ~ (0.8 == 0.6)%Q
  /\ _calculate_ocr_confidence
       (VDict [("api_results",
                VDict [("gpt4", VDict [("status", VStr "success");
                                       ("tokens_used", VInt 1200)])])])
     = Ok (VFloat 0.8)
  /\ _calculate_ocr_confidence
       (VDict [("api_results",
                VDict [("gpt4", VDict [("status", VStr "success");
                                       ("tokens_used", VInt 1200)]);
                       ("tesseract", VDict [("status", VStr "error");
                                            ("error", VStr "not installed")])])])
     = Ok (VFloat 0.8).
Proof.
  repeat split; try reflexivity. intros H. vm_compute in H. congruence.
Qed.

End Confidence.

(* ===================================================================== *)
(** ** Every source failed *)
(* ===================================================================== *)

Section TotalFailure.

Import Pipeline Spec AiOcr DataPipeline Cadly.














End TotalFailure.

(* ===================================================================== *)
(** ** Orientation of a line *)
(* ===================================================================== *)

Section Orientation.

Import SymbolDetection.

Lemma Qlt_bool_iff (a b : Q) : Qlt_bool a b = true <-> (a < b)%Q.
Proof.
  unfold Qlt_bool. rewrite negb_true_iff. split.
  - intros H. apply Qnot_le_lt. intros Hle.
    apply Qle_bool_iff in Hle. congruence.
  - intros H. destruct (Qle_bool b a) eqn:E; [|reflexivity].
    apply Qle_bool_iff in E. exfalso. now apply (Qlt_not_le a b).
Qed.

Lemma Qlt_bool_false_iff (a b : Q) : Qlt_bool a b = false <-> (b <= a)%Q.
Proof.
  unfold Qlt_bool. rewrite negb_false_iff. apply Qle_bool_iff.
Qed.

Lemma classify_cases (angle : Q) :
  ((Qabs angle < 10 \/ 170 < Qabs angle)%Q /\ classify angle = horizontal)
  \/ ((10 <= Qabs angle /\ Qabs angle <= 170)%Q /\
      (80 < Qabs angle /\ Qabs angle < 100)%Q /\ classify angle = vertical)
  \/ ((10 <= Qabs angle /\ Qabs angle <= 170)%Q /\
      (Qabs angle <= 80 \/ 100 <= Qabs angle)%Q /\ classify angle = diagonal).
Proof.
  unfold classify.
  destruct (Qlt_bool (Qabs angle) 10) eqn:E1; simpl.
  { left. apply Qlt_bool_iff in E1. auto. }
  destruct (Qlt_bool 170 (Qabs angle)) eqn:E2; simpl.
  { left. apply Qlt_bool_iff in E2. auto. }
  apply Qlt_bool_false_iff in E1, E2. right.
  destruct (Qlt_bool 80 (Qabs angle)) eqn:E3; simpl.
  - destruct (Qlt_bool (Qabs angle) 100) eqn:E4.
    + apply Qlt_bool_iff in E3, E4. left. auto.
    + apply Qlt_bool_false_iff in E4. right. auto.
  - apply Qlt_bool_false_iff in E3. right. auto.
Qed.

Lemma orientation_entry (s : Shapes.segment) :
  getitem (Shapes.line_entry s) "orientation"
  = Ok (VStr (Shapes.orientation_name (classify (Shapes.angle s)))).
Proof. reflexivity. Qed.

(** C6.  For every line that [_detect_lines] reports, the ['orientation']
    it writes beside the ['angle'] is ['horizontal'] exactly when the
    absolute angle is below 10 or above 170, ['vertical'] exactly when it
    lies strictly between 80 and 100, and ['diagonal'] in every other
    case; in particular an absolute angle of exactly 10, 80, 100 or 170
    gives ['diagonal']. *)
Theorem C6_orientation_thresholds :
  forall s : Shapes.segment,
    getitem (Shapes.line_entry s) "angle" = Ok (VFloat (Shapes.angle s))
    /\
    (getitem (Shapes.line_entry s) "orientation" = Ok (VStr "horizontal") <->
     (Qabs (Shapes.angle s) < 10 \/ 170 < Qabs (Shapes.angle s))%Q)
    /\
    (getitem (Shapes.line_entry s) "orientation" = Ok (VStr "vertical") <->
     (80 < Qabs (Shapes.angle s) /\ Qabs (Shapes.angle s) < 100)%Q)
    /\
    (getitem (Shapes.line_entry s) "orientation" = Ok (VStr "diagonal") <->
     ~ (Qabs (Shapes.angle s) < 10 \/ 170 < Qabs (Shapes.angle s))%Q /\
     ~ (80 < Qabs (Shapes.angle s) /\ Qabs (Shapes.angle s) < 100)%Q)
    /\
    ((Qabs (Shapes.angle s) == 10 \/ Qabs (Shapes.angle s) == 80 \/
      Qabs (Shapes.angle s) == 100 \/ Qabs (Shapes.angle s) == 170)%Q ->
     getitem (Shapes.line_entry s) "orientation" = Ok (VStr "diagonal"))
    /\
    (forall segments : list Shapes.segment,
        In s segments ->
        In (Shapes.line_entry s) (Shapes._detect_lines (Some segments))).
Proof.
  intros s. split; [reflexivity|]. rewrite orientation_entry.
  split; [|split; [|split; [|split]]].
  5: { intros segments Hs. cbn [Shapes._detect_lines]. now apply in_map. }
  all: destruct (classify_cases (Shapes.angle s))
         as [[H ->]|[(H1 & H2 & ->)|(H1 & H2 & ->)]];
       set (a := Qabs (Shapes.angle s)) in *; cbn [Shapes.orientation_name].
  - tauto.
  - split; [discriminate | intros; exfalso; lra].
  - split; [discriminate | intros; exfalso; lra].
  - split; [discriminate | intros; exfalso; lra].
  - tauto.
  - split; [discriminate | intros; exfalso; lra].
  - split; [discriminate | tauto].
  - split; [discriminate | tauto].
  - split; [|reflexivity]. intros _. split; intros H; lra.
  - intros [E|[E|[E|E]]]; exfalso; lra.
  - intros [E|[E|[E|E]]]; exfalso; lra.
  - reflexivity.
Qed.

(** The boundary angles and one angle inside each band. *)
Example orientation_samples :
  map classify [0; 9; 10; 45; 80; 90; 100; 135; 170; 171; 180;
                -9; -10; -90; -100; -175]%Q
  = [horizontal; horizontal; diagonal; diagonal; diagonal; vertical;
     diagonal; diagonal; diagonal; horizontal; horizontal;
     horizontal; diagonal; vertical; diagonal; horizontal].
Proof. reflexivity. Qed.

End Orientation.

(* ===================================================================== *)
(** ** Further properties of [combine_results] *)
(* ===================================================================== *)

Ltac bind_destruct H :=
  repeat match type of H with
    | Py.bind ?m _ = Ok _ =>
        let E := fresh "E" in destruct m eqn:E; simpl in H; [|discriminate H]
    end.

Section CombineMore.

Import Pipeline Spec Terms.

Lemma combine_step_confidence_scores (c c' : combined) (method : string)
    (result : val) :
  combine_step c method result = Ok c' ->
  confidence_scores c' = confidence_scores c.
Proof.
  unfold combine_step. intros H.
  destruct (method =? "tesseract")%string;
    [bind_destruct H; now injection H as <-|].
  destruct (method =? "trocr")%string;
    [bind_destruct H; now injection H as <-|].
  destruct (method =? "google_vision")%string;
    [bind_destruct H; now injection H as <-|].
  destruct (method =? "yolo")%string;
    [bind_destruct H; now injection H as <-|].
  now injection H as <-.
Qed.

Lemma combine_loop_confidence_scores (d : dict) :
  forall c c' : combined,
    combine_loop d c = Ok c' -> confidence_scores c' = confidence_scores c.
Proof.
  induction d as [|[m r] d IH]; intros c c' H; simpl in H.
  - now injection H as <-.
  - destruct (combine_step c m r) as [c1|] eqn:E; simpl in H; [|discriminate].
    rewrite (IH _ _ H). eapply combine_step_confidence_scores; eauto.
Qed.

(** X1.  [combine_results] declares [confidence_scores] and never writes
    it: whatever the input, a run that returns leaves it empty. *)
Theorem combine_results_never_scores :
  forall (method_results : dict) (c : combined),
    combine_results method_results = Ok c ->
    confidence_scores c = [].
Proof.
  intros d c H. apply (combine_loop_confidence_scores d empty_combined c H).
Qed.

Lemma combine_results_never_scores_witness :
  let d := [("google_vision", VDict [("text", VStr "PLATE 12");
                                     ("confidence", VStr "High");
                                     ("total_detections", VInt 2)]);
            ("yolo", VDict [("yolo", VDict [("total_detections", VInt 1)])])] in
  let c := mkCombined [text_entry "google_vision" "PLATE 12" "mixed"]
             (VList []) (VList []) []
             [("google_vision",
               VDict [("detections", VInt 2); ("type", VStr "mixed_text")]);
              ("yolo",
               VDict [("shapes", VInt 0); ("lines", VInt 0);
                      ("objects", VInt 1); ("type", VStr "visual_elements")])] in
  combine_results d = Ok c /\ confidence_scores c = [].
Proof.
  intros d c. split; [reflexivity|].
  apply (combine_results_never_scores d c). reflexivity.
Defined.

Lemma lstrip_cases (s : string) :
  lstrip s = EmptyString \/
  exists c s', lstrip s = String c s' /\ is_space c = false.
Proof.
  induction s as [|c s IH]; simpl; [now left|].
  destruct (is_space c) eqn:E; [exact IH|]. right. eauto.
Qed.

Lemma rstrip_head (c : ascii) (s : string) :
  is_space c = false -> exists r, rstrip (String c s) = String c r.
Proof.
  intros H. simpl. destruct (rstrip s); rewrite ?H; eauto.
Qed.

Lemma rstrip_idempotent (s : string) : rstrip (rstrip s) = rstrip s.
Proof.
  induction s as [|c s IH]; simpl; [reflexivity|].
  destruct (rstrip s) as [|a r] eqn:E.
  - destruct (is_space c) eqn:Ec; simpl; [reflexivity | now rewrite Ec].
  - simpl in *. now rewrite IH.
Qed.

Lemma str_strip_idempotent (s : string) : str_strip (str_strip s) = str_strip s.
Proof.
  unfold str_strip.
  destruct (lstrip_cases s) as [-> | (c & s' & -> & Hc)]; [reflexivity|].
  destruct (rstrip_head c s' Hc) as [r Hr].
  assert (Hl : lstrip (String c r) = String c r) by (simpl; now rewrite Hc).
  rewrite Hr, Hl, <- Hr. apply rstrip_idempotent.
Qed.

Lemma text_of_clean (method : string) (result : val) (item : val) :
  In item (text_of method result) ->
  exists s type,
    item = text_entry method s type /\ clean s /\ In (method, type) text_methods.
Proof.
  unfold text_of, text_items, text_methods.
  assert (Hitem : forall key m t,
             In item (match text_field result key with
                      | Some s => if str_truthy s then [text_entry m s t] else []
                      | None => []
                      end) ->
             exists s, item = text_entry m s t /\ clean s).
  { intros key m t. unfold text_field.
    destruct result; try contradiction.
    destruct (lookup key d) as [[]|]; try contradiction.
    destruct (str_truthy (str_strip s)) eqn:E; [|contradiction].
    intros [<-|[]]. exists (str_strip s). split; [reflexivity|]. split.
    - intros H0. now rewrite H0 in E.
    - apply str_strip_idempotent. }
  destruct (String.eqb_spec method "tesseract") as [->|H1].
  { intros H. destruct (Hitem _ _ _ H) as (s & -> & Hs).
    exists s, "printed". simpl. auto. }
  destruct (String.eqb_spec method "trocr") as [->|H2].
  { intros H. destruct (Hitem _ _ _ H) as (s & -> & Hs).
    exists s, "handwritten". simpl. auto. }
  destruct (String.eqb_spec method "google_vision") as [->|H3].
  { intros H. destruct (Hitem _ _ _ H) as (s & -> & Hs).
    exists s, "mixed". simpl. auto 6. }
  contradiction.
Qed.

(** X2.  Every item of [all_text] carries a text that is not empty and has
    no whitespace at either end, under one of the three text methods with
    the type that goes with it; blank text is never listed. *)
Theorem all_text_is_clean :
  forall (method_results : dict),
    unique_keys method_results ->
    well_typed_input method_results = true ->
    exists c,
      combine_results method_results = Ok c /\
      forall item,
        In item (all_text c) ->
        exists method s type,
          item = text_entry method s type /\
          clean s /\
          In (method, type) text_methods /\
          In method (keys method_results).
Proof.
  intros d Hnd Hwt.
  destruct (combine_results_items d Hwt Hnd) as (c & Hrun & Ht & _).
  exists c. split; [exact Hrun|].
  intros item Hin. rewrite Ht in Hin. apply in_flat_map in Hin as ([m r] & Hd & Hi).
  destruct (text_of_clean m r item Hi) as (s & t & -> & Hs & Hm).
  exists m, s, t. repeat split; auto; try apply Hs.
  unfold keys. change m with (fst (m, r)). now apply in_map.
Qed.

Lemma all_text_is_clean_witness :
  let d := [("tesseract", VDict [("extracted_text", VStr "  DIM 150mm  ")]);
            ("trocr", VDict [("text", VStr "   ")]);
            ("google_vision", VDict [("text", VStr "R5 ")])] in
  unique_keys d /\ well_typed_input d = true /\
  exists c,
    combine_results d = Ok c /\
    forall item,
      In item (all_text c) ->
      exists method s type,
        item = text_entry method s type /\
        clean s /\
        In (method, type) text_methods /\
        In method (keys d).
Proof.
  intros d.
  assert (Hnd : unique_keys d).
  { unfold unique_keys. simpl.
    repeat (constructor; [simpl; intuition discriminate|]). constructor. }
  split; [exact Hnd|]. split; [reflexivity|].
  apply (all_text_is_clean d); [exact Hnd | reflexivity].
Defined.

Lemma lookup_set_same (k : string) (v : val) (d : dict) :
  lookup k (Py.set k v d) = Some v.
Proof.
  induction d as [|[k' v'] d IH]; simpl.
  - now rewrite String.eqb_refl.
  - destruct (String.eqb_spec k' k) as [->|Hne]; simpl.
    + now rewrite String.eqb_refl.
    + destruct (String.eqb_spec k' k); [contradiction | exact IH].
Qed.

Lemma lookup_set_other (k k' : string) (v : val) (d : dict) :
  k <> k' -> lookup k (Py.set k' v d) = lookup k d.
Proof.
  intros Hne. induction d as [|[k0 v0] d IH]; simpl.
  - destruct (String.eqb_spec k' k); [congruence | reflexivity].
  - destruct (String.eqb_spec k0 k') as [->|H0]; simpl.
    + destruct (String.eqb_spec k' k); [congruence | reflexivity].
    + destruct (String.eqb_spec k0 k); [reflexivity | exact IH].
Qed.

Lemma text_of_length (method : string) (result : val) :
  (List.length (text_of method result)
   <= if (method =? "tesseract")%string || (method =? "trocr")%string
         || (method =? "google_vision")%string
      then 1 else 0)%nat.
Proof.
  unfold text_of, text_items.
  destruct (method =? "tesseract")%string; simpl.
  { destruct (text_field result "extracted_text") as [s|]; simpl; [|lia].
    destruct (str_truthy s); simpl; lia. }
  destruct (method =? "trocr")%string; simpl.
  { destruct (text_field result "text") as [s|]; simpl; [|lia].
    destruct (str_truthy s); simpl; lia. }
  destruct (method =? "google_vision")%string; simpl; [|lia].
  destruct (text_field result "text") as [s|]; simpl; [|lia].
  destruct (str_truthy s); simpl; lia.
Qed.

Lemma flat_map_text_length (d : dict) :
  (List.length (flat_map text_of_entry d)
   <= List.length
        (filter (fun m => (m =? "tesseract")%string || (m =? "trocr")%string
                          || (m =? "google_vision")%string) (keys d)))%nat.
Proof.
  induction d as [|[m r] d IH]; simpl; [lia|].
  rewrite length_app. pose proof (text_of_length m r) as H.
  change (text_of_entry (m, r)) with (text_of m r).
  destruct ((m =? "tesseract")%string || (m =? "trocr")%string
            || (m =? "google_vision")%string); simpl; lia.
Qed.

Lemma bounded_by_names (names : list string) (f : string -> bool) (l : list string) :
  NoDup l ->
  (forall m, f m = true -> In m names) ->
  (List.length (filter f l) <= List.length names)%nat.
Proof.
  intros Hnd Hf. apply NoDup_incl_length.
  - now apply NoDup_filter.
  - intros m Hm. apply filter_In in Hm as [_ Hm]. now apply Hf.
Qed.

(** X3.  However many entries the input has, [all_text] has at most three
    items and [method_summary] at most four entries. *)
Theorem combined_sizes_are_bounded :
  forall (method_results : dict),
    unique_keys method_results ->
    well_typed_input method_results = true ->
    exists c,
      combine_results method_results = Ok c /\
      (List.length (all_text c) <= 3)%nat /\
      (List.length (method_summary c) <= 4)%nat.
Proof.
  intros d Hnd Hwt.
  destruct (combine_results_typed d Hwt Hnd) as (c & Hrun & Ht & _ & _ & Hk & _).
  exists c. split; [exact Hrun|]. split.
  - rewrite Ht. etransitivity; [apply flat_map_text_length|].
    apply (bounded_by_names ["tesseract"; "trocr"; "google_vision"]); [exact Hnd|].
    intros m Hm. rewrite !orb_true_iff, !String.eqb_eq in Hm.
    destruct Hm as [[->| ->]| ->]; simpl; auto.
  - replace (List.length (method_summary c))
      with (List.length (keys (method_summary c)))
      by (unfold keys; apply length_map).
    rewrite Hk.
    apply (bounded_by_names ["tesseract"; "trocr"; "google_vision"; "yolo"]);
      [exact Hnd|].
    intros m Hm. apply recognised_iff in Hm.
    destruct Hm as [->|[->|[->| ->]]]; simpl; auto.
Qed.

Lemma combined_sizes_are_bounded_witness :
  let d := [("tesseract", VDict [("extracted_text", VStr "A")]);
            ("easyocr", VDict [("text", VStr "B")]);
            ("paddle", VDict [("text", VStr "C")]);
            ("trocr", VDict [("text", VStr "D")]);
            ("google_vision", VDict [("text", VStr "E")]);
            ("yolo", VDict [])] in
  unique_keys d /\ well_typed_input d = true /\
  exists c,
    combine_results d = Ok c /\
    (List.length (all_text c) <= 3)%nat /\
    (List.length (method_summary c) <= 4)%nat.
Proof.
  intros d.
  assert (Hnd : unique_keys d).
  { unfold unique_keys. simpl.
    repeat (constructor; [simpl; intuition discriminate|]). constructor. }
  split; [exact Hnd|]. split; [reflexivity|].
  apply (combined_sizes_are_bounded d); [exact Hnd | reflexivity].
Defined.

Lemma combine_step_trocr (c : combined) (result : val) :
  well_typed "trocr" result = true ->
  combine_step c "trocr" result
  = Ok (mkCombined
          (all_text c ++ text_of "trocr" result)
          (shapes_detected c) (lines_detected c) (confidence_scores c)
          (Py.set "trocr"
             (VDict [("text_found",
                      VBool (match text_of "trocr" result with
                             | [] => false
                             | _ => true
                             end));
                     ("type", VStr "handwritten_text")])
             (method_summary c))).
Proof.
  unfold well_typed, combine_step, text_of. simpl.
  destruct result; try discriminate. intros Ht.
  rewrite append_text_typed by exact Ht. simpl.
  unfold str_or_absent, text_items, text_field in *.
  destruct (lookup "text" d) as [[]|]; try discriminate; simpl; [|reflexivity].
  now destruct (str_truthy (str_strip s)).
Qed.

Lemma combine_loop_keeps_entry (key : string) (d : dict) :
  forall c : combined,
    well_typed_input d = true ->
    ~ In key (keys d) ->
    exists c',
      combine_loop d c = Ok c' /\
      lookup key (method_summary c') = lookup key (method_summary c).
Proof.
  induction d as [|[m r] d IH]; intros c Hwt Hnot.
  - exists c. now split.
  - simpl in Hwt. apply andb_prop in Hwt as [Hm Hl].
    destruct (combine_step_typed c m r Hm) as (entry & _ & Hstep).
    simpl. rewrite Hstep. simpl.
    match goal with |- context [combine_loop d ?c1] =>
      destruct (IH c1 Hl) as (c' & Hrun & Hlk) end.
    { intros H. apply Hnot. now right. }
    exists c'. split; [exact Hrun|]. rewrite Hlk. simpl.
    destruct (recognised m); [|reflexivity].
    apply lookup_set_other. intros ->. apply Hnot. now left.
Qed.

Lemma lookup_split (k : string) (v : val) (d : dict) :
  lookup k d = Some v ->
  exists d1 d2, d = d1 ++ (k, v) :: d2 /\ ~ In k (keys d1).
Proof.
  induction d as [|[k' v'] d IH]; simpl; [discriminate|].
  destruct (String.eqb_spec k' k) as [->|Hne].
  - intros [= ->]. exists [], d. split; [reflexivity | intros []].
  - intros H. destruct (IH H) as (d1 & d2 & -> & Hnot).
    exists ((k', v') :: d1), d2. split; [reflexivity|].
    intros [H1|H1]; [contradiction | now apply Hnot].
Qed.

Lemma item_of_text_of (method method' : string) (result item : val) :
  In item (text_of method' result) -> item_of method item -> method' = method.
Proof.
  intros Hin (s & t & ->).
  destruct (text_of_clean method' result _ Hin) as (s' & t' & Heq & _).
  unfold text_entry in Heq. congruence.
Qed.

(** X4.  The ledger agrees with the content for TrOCR: its entry says
    [text_found] exactly when [all_text] has an item written for trocr,
    and it has the fixed type ['handwritten_text']. *)
Theorem trocr_text_found_agrees_with_all_text :
  forall (method_results : dict) (result : val),
    unique_keys method_results ->
    well_typed_input method_results = true ->
    lookup "trocr" method_results = Some result ->
    exists c found,
      combine_results method_results = Ok c /\
      lookup "trocr" (method_summary c)
      = Some (VDict [("text_found", VBool found);
                     ("type", VStr "handwritten_text")]) /\
      (found = true <-> exists item, In item (all_text c) /\ item_of "trocr" item).
Proof.
  intros d r Hnd Hwt Hlk.
  destruct (lookup_split _ _ _ Hlk) as (d1 & d2 & -> & Hnot1).
  pose proof Hnd as Hnd0. unfold unique_keys in Hnd0. rewrite keys_app in Hnd0.
  simpl in Hnd0. apply NoDup_remove_2 in Hnd0.
  assert (Hnot2 : ~ In "trocr" (keys d2)).
  { intros H. apply Hnd0. apply in_or_app. now right. }
  pose proof Hwt as Hwt0.
  rewrite well_typed_input_app in Hwt. apply andb_prop in Hwt as [Hwt1 Hwt2].
  simpl in Hwt2. apply andb_prop in Hwt2 as [Hwtr Hwt2].
  destruct (combine_results_items _ Hwt0 Hnd) as (c & Hrun & Ht & _).
  exists c. eexists. split; [exact Hrun|]. split.
  - unfold combine_results in Hrun. rewrite combine_loop_app in Hrun.
    destruct (combine_loop d1 empty_combined) as [c1|] eqn:E1;
      simpl in Hrun; [|discriminate].
    rewrite (combine_step_trocr c1 r Hwtr) in Hrun. simpl in Hrun.
    match type of Hrun with combine_loop d2 ?c2 = _ =>
      destruct (combine_loop_keeps_entry "trocr" d2 c2 Hwt2 Hnot2)
        as (c' & Hrun' & Hkeep) end.
    rewrite Hrun' in Hrun. injection Hrun as <-.
    rewrite Hkeep. simpl. apply lookup_set_same.
  - rewrite Ht, !flat_map_app. simpl.
    change (text_of_entry ("trocr", r)) with (text_of "trocr" r).
    split.
    + intros Hfound. destruct (text_of "trocr" r) as [|item rest] eqn:E;
        [discriminate|].
      exists item. split.
      * apply in_or_app. right. simpl. now left.
      * assert (Hin : In item (text_of "trocr" r)) by (rewrite E; now left).
        destruct (text_of_clean _ _ _ Hin) as (s & t & -> & _). now exists s, t.
    + intros (item & Hin & Hitem).
      apply in_app_or in Hin as [Hin|Hin]; [|apply in_app_or in Hin as [Hin|Hin]].
      * exfalso. apply in_flat_map in Hin as ([m r'] & Hd & Hi).
        pose proof (item_of_text_of _ _ _ _ Hi Hitem) as Hm. simpl in Hm. subst m.
        apply Hnot1. unfold keys. change "trocr" with (fst ("trocr", r')).
        now apply in_map.
      * now destruct (text_of "trocr" r).
      * exfalso. apply in_flat_map in Hin as ([m r'] & Hd & Hi).
        pose proof (item_of_text_of _ _ _ _ Hi Hitem) as Hm. simpl in Hm. subst m.
        apply Hnot2. unfold keys. change "trocr" with (fst ("trocr", r')).
        now apply in_map.
Qed.

Lemma trocr_text_found_agrees_with_all_text_witness :
  let r := VDict [("text", VStr "  "); ("confidence", VStr "N/A")] in
  let d := [("tesseract", VDict [("extracted_text", VStr "DIM 150mm")]);
            ("trocr", r)] in
  unique_keys d /\ well_typed_input d = true /\
  lookup "trocr" d = Some r /\
  exists c found,
    combine_results d = Ok c /\
    lookup "trocr" (method_summary c)
    = Some (VDict [("text_found", VBool found);
                   ("type", VStr "handwritten_text")]) /\
    (found = true <-> exists item, In item (all_text c) /\ item_of "trocr" item).
Proof.
  intros r d.
  assert (Hnd : unique_keys d).
  { unfold unique_keys. simpl.
    repeat (constructor; [simpl; intuition discriminate|]). constructor. }
  split; [exact Hnd|]. split; [reflexivity|]. split; [reflexivity|].
  apply (trocr_text_found_agrees_with_all_text d r);
    [exact Hnd | reflexivity | reflexivity].
Defined.

End CombineMore.

(* ===================================================================== *)
(** ** What [comprehensive_analysis] gathers *)
(* ===================================================================== *)

Section GatherMore.

Import Pipeline Spec Gather Terms.

(** X5.  In [comprehensive_analysis] (comprehensive_ocr_pipeline.py),
    [results['results']] holds exactly the engine outputs that have no
    ['error'] key, unchanged, under their names and in the order
    tesseract, trocr, yolo, google_vision; [results['methods_used']] is
    the list of its keys.  An output with an ['error'] key is dropped
    without stopping the engines after it. *)
Theorem gathered_results_are_the_outputs_without_error :
  forall e : engine_outputs,
    typed_outputs e = true ->
    gather_results e = Ok (keys (handed_over e), handed_over e).
Proof.
  unfold typed_outputs, gather_results, handed_over.
  intros [t h s g]. simpl.
  intros H. apply andb_prop in H as [H Hg]. apply andb_prop in H as [H Hs].
  apply andb_prop in H as [Ht Hh].
  assert (Hs' : forall v, s = Some v -> no_error v = true -> report_symbols v = Ok tt).
  { intros v -> _. simpl in Hs. apply andb_prop in Hs as [? ?].
    now apply report_symbols_typed. }
  simpl in Ht. apply andb_prop in Ht as [Htd Htw].
  rewrite (record_result_typed _ "tesseract" t); auto;
    [| intros _; now apply report_detections_typed ].
  simpl. rewrite (record_optional_typed _ "trocr" h); auto. simpl.
  rewrite (record_optional_typed _ "yolo" s); auto. simpl.
  rewrite (record_optional_typed _ "google_vision" g); auto.
  unfold kept, kept_entry in *.
  destruct (no_error t); destruct h as [vh|]; try destruct (no_error vh);
    destruct s as [vs|]; try destruct (no_error vs);
    destruct g as [vg|]; try destruct (no_error vg); reflexivity.
Qed.

Lemma gathered_results_are_the_outputs_without_error_witness :
  let e := mkOutputs (VDict [("error", VStr "File not found: plate.png")])
             (Some (VDict [("text", VStr "R5"); ("method", VStr "TrOCR")]))
             None
             (Some (VDict [("error", VStr "Google Vision not configured")])) in
  typed_outputs e = true /\
  gather_results e = Ok (keys (handed_over e), handed_over e).
Proof.
  intros e. split; [reflexivity|].
  apply (gathered_results_are_the_outputs_without_error e). reflexivity.
Defined.

End GatherMore.

(* ===================================================================== *)
(** ** comprehensive_ai_ocr.py: summary, analysis and batch *)
(* ===================================================================== *)

Section AiOcrFacts.

Import Spec AiOcr AiOcrRun Terms.

Lemma append_if_present_dict (target : list val) (data : dict) (key : string)
    (entry : val -> res val) :
  (forall v, exists e, entry v = Ok e) ->
  exists l,
    append_if_present target (VDict data) key entry = Ok l /\
    (List.length target <= List.length l <= List.length target + 1)%nat /\
    (lookup key data = None -> l = target).
Proof.
  intros Hentry. unfold append_if_present. simpl. unfold has_key.
  destruct (lookup key data) as [v|]; simpl.
  - destruct (Hentry v) as [e ->]. simpl. exists (target ++ [e]).
    split; [reflexivity|]. rewrite length_app. simpl. split; [lia | discriminate].
  - exists target. split; [reflexivity|]. split; [lia | reflexivity].
Qed.

Lemma summary_step_bound (s : summary) (api_name : string) (result : val) :
  data_ok result = true ->
  exists s',
    summary_step s api_name result = Ok s' /\
    (List.length (text_extracted s') + List.length (technical_insights s')
     <= List.length (text_extracted s) + List.length (technical_insights s)
        + (if status_success result then 1 else 0))%nat /\
    confidence_scores s' = confidence_scores s /\
    recommended_actions s' = recommended_actions s.
Proof.
  unfold data_ok. destruct result; try discriminate. intros Hdata.
  unfold summary_step. rewrite is_success_dict. cbn [Py.bind].
  destruct (status_success (VDict d)); [|exists s; repeat split; lia].
  assert (Hd : exists data, get (VDict d) "data" (VDict []) = Ok (VDict data)).
  { simpl. destruct (lookup "data" d) as [[]|]; try discriminate; eauto. }
  destruct Hd as [data ->]. cbn [Py.bind].
  assert (Hplain : forall src key, forall v : val,
             exists e, (fun v => Ok (VDict [("source", VStr src); (key, v)])) v = Ok e)
    by (intros; eauto).
  assert (Hcount : forall src key, forall v : val,
             exists e, (fun v => n <- get (VDict data) key (VInt 0) ;;
                                 Ok (VDict [("source", VStr src); ("text", v);
                                            (key, n)])) v = Ok e).
  { intros src key v. simpl. destruct (lookup key data); simpl; eauto. }
  destruct (api_name =? "openai")%string.
  { destruct (append_if_present_dict (technical_insights s) data "analysis" _
                (Hplain "GPT-4 Vision" "insight")) as (l & -> & Hl & _).
    simpl. eexists. split; [reflexivity|]. simpl. repeat split; lia. }
  destruct (api_name =? "claude")%string.
  { destruct (append_if_present_dict (technical_insights s) data "analysis" _
                (Hplain "Claude AI" "insight")) as (l & -> & Hl & _).
    simpl. eexists. split; [reflexivity|]. simpl. repeat split; lia. }
  destruct (api_name =? "google")%string.
  { destruct (append_if_present_dict (text_extracted s) data "full_text"
                (fun v => n <- get (VDict data) "text_annotations" (VInt 0) ;;
                          Ok (VDict [("source", VStr "Google Vision");
                                     ("text", v); ("annotations", n)])))
      as (l & Hrun & Hl & _).
    { intros v. simpl. destruct (lookup "text_annotations" data); simpl; eauto. }
    rewrite Hrun. simpl. eexists. split; [reflexivity|]. simpl.
    repeat split; lia. }
  destruct (api_name =? "tesseract")%string.
  { destruct (append_if_present_dict (text_extracted s) data "extracted_text"
                (fun v => n <- get (VDict data) "total_detections" (VInt 0) ;;
                          Ok (VDict [("source", VStr "Tesseract OCR");
                                     ("text", v); ("detections", n)])))
      as (l & Hrun & Hl & _).
    { intros v. simpl. destruct (lookup "total_detections" data); simpl; eauto. }
    rewrite Hrun. simpl. eexists. split; [reflexivity|]. simpl.
    repeat split; lia. }
  destruct (api_name =? "trocr")%string.
  { destruct (append_if_present_dict (text_extracted s) data "text" _
                (Hplain "TrOCR Handwriting" "text")) as (l & -> & Hl & _).
    simpl. eexists. split; [reflexivity|]. simpl. repeat split; lia. }
  exists s. repeat split; lia.
Qed.

Lemma summary_loop_bound (d : dict) :
  forall s : summary,
    forallb data_ok (values d) = true ->
    exists s',
      summary_loop d s = Ok s' /\
      (List.length (text_extracted s') + List.length (technical_insights s')
       <= List.length (text_extracted s) + List.length (technical_insights s)
          + successes d)%nat /\
      confidence_scores s' = confidence_scores s /\
      recommended_actions s' = recommended_actions s.
Proof.
  induction d as [|[k r] d IH]; intros s H.
  - exists s. unfold successes. simpl. repeat split; lia.
  - cbn [values map forallb] in H. apply andb_prop in H as [Hr Hd].
    destruct (summary_step_bound s k r Hr) as (s1 & Hstep & Hlen & Hc & Hrec).
    destruct (IH s1 Hd) as (s' & Hrun & Hlen' & Hc' & Hrec').
    exists s'. simpl. rewrite Hstep. simpl. split; [exact Hrun|].
    split; [|split; congruence].
    unfold successes, values in *. cbn [map filter snd] in *.
    destruct (status_success r); cbn [List.length]; lia.
Qed.

(** X6.  [_generate_analysis_summary] lists at most one item per
    successful source: the number of texts plus the number of insights
    never exceeds the number of results with status ['success'].  It
    leaves [confidence_scores] and [recommended_actions] empty. *)
Theorem summary_has_at_most_one_item_per_success :
  forall api_results : dict,
    forallb data_ok (values api_results) = true ->
    exists s,
      _generate_analysis_summary api_results = Ok s /\
      (List.length (text_extracted s) + List.length (technical_insights s)
       <= successes api_results)%nat /\
      confidence_scores s = [] /\
      recommended_actions s = [].
Proof.
  intros d H.
  destruct (summary_loop_bound d (mkSummary [] [] [] []) H)
    as (s & Hrun & Hlen & Hc & Hr).
  exists s. simpl in *. repeat split; auto.
Qed.

Lemma summary_has_at_most_one_item_per_success_witness :
  let d := [("openai", VDict [("status", VStr "success");
                              ("data", VDict [("analysis", VStr "bracket")])]);
            ("google", VDict [("status", VStr "error"); ("error", VStr "quota")]);
            ("tesseract", VDict [("status", VStr "success");
                                 ("data", VDict [("extracted_text", VStr "")])]);
            ("trocr", VDict [("status", VStr "success");
                             ("data", VDict [("error", VStr "no model")])])] in
  forallb data_ok (values d) = true /\
  exists s,
    _generate_analysis_summary d = Ok s /\
    (List.length (text_extracted s) + List.length (technical_insights s)
     <= successes d)%nat /\
    confidence_scores s = [] /\
    recommended_actions s = [].
Proof.
  intros d. split; [reflexivity|].
  apply (summary_has_at_most_one_item_per_success d). reflexivity.
Defined.

Lemma log_result_ok (r : val) :
  loggable r = true -> log_result r = Returns tt.
Proof.
  unfold loggable, log_result. destruct r; try discriminate.
  rewrite is_success_dict. cbn [lift obind].
  destruct (status_success (VDict d)); [|reflexivity].
  simpl. unfold is_number.
  destruct (lookup "processing_time" d) as [t|]; [|reflexivity].
  now destruct t.
Qed.

Lemma store_call_ok (api_results : dict) (api_name : string) (c : call) :
  call_ok (Some c) = true ->
  store_call api_results api_name c
  = Returns (Py.set api_name (entry_of c) api_results).
Proof.
  destruct c as [v|m]; [|reflexivity]. simpl. intros H.
  apply andb_prop in H as [Hl _].
  pose proof (log_result_ok v Hl) as Hlog.
  destruct v; try discriminate. now rewrite Hlog.
Qed.

Lemma loggable_is_dict (r : val) : loggable r = true -> is_dict r = true.
Proof. now destruct r. Qed.

Lemma error_entry_ok (message : string) :
  let r := VDict [("status", VStr "error"); ("error", VStr message)] in
  is_dict r = true /\ data_ok r = true.
Proof. now split. Qed.

Lemma collect_api_results_ok (e : engines) :
  engines_ok e = true ->
  collect_api_results e = Returns (expected_results e).
Proof.
  revert e.
  intros [o c g t h]. unfold engines_ok, collect_api_results, expected_results, tasks.
  simpl. intros H.
  apply andb_prop in H as [H Hh]. apply andb_prop in H as [H Ht].
  apply andb_prop in H as [H Hg]. apply andb_prop in H as [Ho Hc].
  apply andb_prop in Ht as [Htl _]. apply andb_prop in Hh as [Hhl _].
  rewrite (log_result_ok t Htl), (log_result_ok h Hhl).
  destruct o as [co|]; destruct c as [cc|]; destruct g as [cg|];
    cbn [store_calls app];
    rewrite ?store_call_ok by assumption; cbn [obind];
    rewrite ?store_call_ok by assumption; cbn [obind];
    rewrite ?store_call_ok by assumption; cbn [obind];
    reflexivity.
Qed.

(** X7.  When [comprehensive_analysis] reaches its performance block,
    [api_results] holds, in this order, the hosted APIs that were ready
    (openai, claude, google: what the call returned, or an error entry
    when the call raised), then tesseract and trocr.  The two local
    engines are always there; an exception in a hosted call does not
    leave the method. *)
Theorem api_results_always_hold_the_local_engines :
  forall e : engines,
    engines_ok e = true ->
    collect_api_results e = Returns (expected_results e).
Proof.
  intros e. apply collect_api_results_ok.
Qed.

Lemma api_results_always_hold_the_local_engines_witness :
  let e := mkEngines
             (Some (Excepted "Connection timed out"))
             None
             (Some (Returned (VDict [("status", VStr "success");
                                     ("processing_time", VFloat 1.5);
                                     ("data", VDict [("full_text", VStr "M8")])])))
             (analyze_with_tesseract (Returned (VDict [("error", VStr "no file")])) 0.1)
             (analyze_with_trocr false (Excepted "unused") 0) in
  engines_ok e = true /\
  collect_api_results e = Returns (expected_results e).
Proof.
  intros e. split; [reflexivity|].
  apply (api_results_always_hold_the_local_engines e). reflexivity.
Defined.

Lemma expected_results_ok (e : engines) :
  engines_ok e = true ->
  all_dicts (expected_results e) = true /\
  forallb data_ok (values (expected_results e)) = true /\
  (2 <= List.length (expected_results e))%nat.
Proof.
  destruct e as [o c g t h]. unfold engines_ok, expected_results, tasks, all_dicts.
  simpl. intros H.
  apply andb_prop in H as [H Hh]. apply andb_prop in H as [H Ht].
  apply andb_prop in H as [H Hg]. apply andb_prop in H as [Ho Hc].
  apply andb_prop in Ht as [Htl Htd]. apply andb_prop in Hh as [Hhl Hhd].
  pose proof (loggable_is_dict _ Htl) as Hti.
  pose proof (loggable_is_dict _ Hhl) as Hhi.
  assert (Hcall : forall c0, call_ok (Some c0) = true ->
                             is_dict (entry_of c0) = true /\
                             data_ok (entry_of c0) = true).
  { intros [v|m]; simpl; [|now split].
    intros Hv. apply andb_prop in Hv as [Hv1 Hv2].
    split; [now apply loggable_is_dict | exact Hv2]. }
  destruct o as [co|]; destruct c as [cc|]; destruct g as [cg|]; simpl;
    repeat match goal with
           | Hx : call_ok (Some ?c0) = true |- _ =>
               destruct (Hcall c0 Hx) as [? ?]; clear Hx
           end;
    repeat match goal with Hx : _ = true |- _ => rewrite Hx; clear Hx end;
    repeat split; simpl; lia.
Qed.

(** X8.  [comprehensive_analysis] of comprehensive_ai_ocr.py returns a
    dictionary without a ['status'] key.  Its performance block counts
    at least the two local engines, so [success_rate] is always computed
    by the division (a float between 0 and 100): the [else 0] of its
    guard is never taken from this caller. *)
Theorem analysis_always_counts_two_engines :
  forall (image_path preprocessed timestamp : val) (total_time : Q) (e : engines),
    engines_ok e = true ->
    exists out p q,
      comprehensive_analysis image_path preprocessed timestamp total_time e
      = Returns (VDict out) /\
      lookup "status" out = None /\
      lookup "api_results" out = Some (VDict (expected_results e)) /\
      lookup "performance" out = Some (performance_dict total_time p) /\
      (2 <= total_apis_attempted p)%nat /\
      success_rate p = VFloat q /\
      (0 <= q /\ q <= 100)%Q.
Proof.
  intros ip pp ts tt e He.
  destruct (expected_results_ok e He) as (Hd & Hdata & Hlen).
  unfold comprehensive_analysis.
  rewrite (collect_api_results_ok e He). cbn [obind].
  rewrite (compute_performance_dicts _ Hd). cbn [lift obind].
  destruct (summary_loop_bound (expected_results e) (mkSummary [] [] [] []) Hdata)
    as (s & Hs & _).
  unfold _generate_analysis_summary. rewrite Hs. cbn [lift obind].
  eexists. eexists. eexists. split; [reflexivity|].
  split; [reflexivity|]. split; [reflexivity|]. split; [reflexivity|].
  cbn [total_apis_attempted success_rate]. split; [exact Hlen|].
  unfold rate. destruct (Nat.ltb_spec 0 (List.length (expected_results e))); [|lia].
  split; [reflexivity|]. apply percentage_bounds; [|lia].
  unfold successes. etransitivity; [apply filter_length_le|].
  unfold values. now rewrite length_map.
Qed.

Lemma analysis_always_counts_two_engines_witness :
  let e := mkEngines None
             (Some (Returned (VDict [("status", VStr "error");
                                     ("error", VStr "overloaded")])))
             None
             (analyze_with_tesseract (Returned (VDict [("extracted_text", VStr "R5")])) 0.2)
             (analyze_with_trocr false (Excepted "unused") 0) in
  engines_ok e = true /\
  exists out p q,
    comprehensive_analysis (VStr "plate.png") VNone (VStr "2024-01-01T00:00:00")
      1.5 e
    = Returns (VDict out) /\
    lookup "status" out = None /\
    lookup "api_results" out = Some (VDict (expected_results e)) /\
    lookup "performance" out = Some (performance_dict 1.5 p) /\
    (2 <= total_apis_attempted p)%nat /\
    success_rate p = VFloat q /\
    (0 <= q /\ q <= 100)%Q.
Proof.
  intros e. split; [reflexivity|].
  apply (analysis_always_counts_two_engines
           (VStr "plate.png") VNone (VStr "2024-01-01T00:00:00") 1.5 e).
  reflexivity.
Defined.

(** X9.  A local engine that reports its failure by returning an error
    dictionary is wrapped as a success.  With no hosted API ready and
    both local engines returning such a dictionary, the analysis reports
    two successful APIs out of two, a success rate of 100, and an empty
    summary. *)
Theorem returned_errors_count_as_successes :
  forall (image_path preprocessed timestamp : val) (total_time t1 t2 : Q)
         (tesseract_data trocr_data : dict),
    lookup "extracted_text" tesseract_data = None ->
    lookup "text" trocr_data = None ->
    comprehensive_analysis image_path preprocessed timestamp total_time
      (local_engines tesseract_data trocr_data t1 t2)
    = Returns
        (VDict
           [("image_path", image_path);
            ("preprocessed_image", preprocessed);
            ("timestamp", timestamp);
            ("api_results",
             VDict (expected_results
                      (local_engines tesseract_data trocr_data t1 t2)));
            ("performance",
             performance_dict total_time
               (mkPerformance 2 2 (rate 2 2) ["tesseract"; "trocr"]));
            ("summary", summary_dict (mkSummary [] [] [] []))])
    /\ (exists q, rate 2 2 = VFloat q /\ q == 100)%Q.
Proof.
  intros ip pp ts tt t1 t2 d1 d2 H1 H2.
  split; [|eexists; split; [reflexivity | reflexivity]].
  unfold comprehensive_analysis.
  rewrite (collect_api_results_ok (local_engines d1 d2 t1 t2)) by reflexivity.
  cbn [obind].
  unfold expected_results, local_engines, tasks, analyze_with_tesseract,
    analyze_with_trocr. cbn [openai claude google tesseract_result trocr_result
                             map app].
  unfold _generate_analysis_summary, summary_loop, summary_step.
  rewrite !is_success_dict. simpl.
  unfold append_if_present. simpl. unfold has_key. now rewrite H1, H2.
Qed.

Lemma returned_errors_count_as_successes_witness :
  lookup "extracted_text" [("error", VStr "File not found: plate.png")] = None /\
  lookup "text" [("error", VStr "TrOCR processing failed")] = None /\
  comprehensive_analysis (VStr "plate.png") VNone (VStr "now") 2
    (local_engines [("error", VStr "File not found: plate.png")]
                   [("error", VStr "TrOCR processing failed")] 0.5 0.25)
  = Returns
      (VDict
         [("image_path", VStr "plate.png");
          ("preprocessed_image", VNone);
          ("timestamp", VStr "now");
          ("api_results",
           VDict (expected_results
                    (local_engines [("error", VStr "File not found: plate.png")]
                                   [("error", VStr "TrOCR processing failed")]
                                   0.5 0.25)));
          ("performance",
           performance_dict 2
             (mkPerformance 2 2 (rate 2 2) ["tesseract"; "trocr"]));
          ("summary", summary_dict (mkSummary [] [] [] []))])
  /\ (exists q, rate 2 2 = VFloat q /\ q == 100)%Q.
Proof.
  split; [reflexivity|]. split; [reflexivity|].
  apply (returned_errors_count_as_successes
           (VStr "plate.png") VNone (VStr "now") 2 0.5 0.25); reflexivity.
Defined.

Lemma set_fresh (k : string) (v : val) (d : dict) :
  ~ In k (keys d) -> Py.set k v d = d ++ [(k, v)].
Proof.
  induction d as [|[k' v'] d IH]; simpl; [reflexivity|].
  intros H. destruct (String.eqb_spec k' k) as [->|Hne].
  - exfalso. apply H. now left.
  - rewrite IH; [reflexivity|]. intros H1. apply H. now right.
Qed.

Lemma batch_results_distinct (images : list (string * option val)) :
  forall results : dict,
    NoDup (map fst images) ->
    (forall p, In p (map fst images) -> ~ In p (keys results)) ->
    batch_results images results
    = results ++ map (fun io => (fst io, stored (snd io))) images.
Proof.
  induction images as [|[p o] images IH]; intros results Hnd Hfresh; simpl.
  - now rewrite app_nil_r.
  - simpl in Hnd. apply NoDup_cons_iff in Hnd as [Hnot Hnd].
    rewrite IH; [|exact Hnd|].
    + rewrite set_fresh by (apply Hfresh; now left).
      now rewrite <- app_assoc.
    + intros q Hq. rewrite set_fresh by (apply Hfresh; now left).
      rewrite keys_app. simpl. intros Hin.
      apply in_app_or in Hin as [Hin|[<-|[]]].
      * apply (Hfresh q); [now right | exact Hin].
      * contradiction.
Qed.

Lemma batch_results_values (P : val -> Prop) (images : list (string * option val)) :
  forall results : dict,
    Forall (fun kv => P (snd kv)) results ->
    (forall io, In io images -> P (stored (snd io))) ->
    Forall (fun kv => P (snd kv)) (batch_results images results).
Proof.
  induction images as [|[p o] images IH]; intros results Hres Himg; simpl.
  - exact Hres.
  - apply IH.
    + apply Forall_set; [exact Hres|]. apply (Himg (p, o)). now left.
    + intros io Hio. apply Himg. now right.
Qed.

Lemma count_not_error_dicts (results : list val) :
  Forall (fun r => is_dict r = true) results ->
  exists n, count_not_error results = Ok n /\ (n <= List.length results)%nat.
Proof.
  induction 1 as [|r rs Hr _ IH]; [exists 0%nat; now split|].
  destruct IH as (n & Hn & Hle). destruct r; try discriminate.
  cbn [count_not_error]. rewrite Hn.
  assert (Hst : exists st, get (VDict d) "status" VNone = Ok st)
    by (simpl; destruct (lookup "status" d); eauto).
  destruct Hst as [st ->]. cbn [Py.bind].
  eexists. split; [reflexivity|]. destruct (eq_str st "error"); simpl; lia.
Qed.

Lemma inject_Z_of_nat_zero (n : nat) :
  Qeq_bool (inject_Z (Z.of_nat n)) 0 = match n with O => true | S _ => false end.
Proof.
  destruct n as [|n]; [reflexivity|].
  destruct (Qeq_bool (inject_Z (Z.of_nat (S n))) 0) eqn:E; [|reflexivity].
  apply Qeq_bool_eq in E. unfold Qeq in E. simpl in E. lia.
Qed.

(** X10.  [batch_process] divides by the number of images without a
    guard: for a list of images whose analyses are dictionaries, it
    raises [ZeroDivisionError] exactly when the list is empty, and
    returns otherwise. *)
Theorem batch_process_fails_exactly_on_the_empty_batch :
  forall (images : list (string * option val)) (batch_time : Q),
    (forall p r, In (p, Some r) images -> is_dict r = true) ->
    (images = [] -> batch_process images batch_time = Raises ZeroDivisionError)
    /\
    (images <> [] -> exists out, batch_process images batch_time = Returns out).
Proof.
  intros images t Hd. split.
  - intros ->. reflexivity.
  - intros Hne. unfold batch_process.
    assert (Hvals : Forall (fun r => is_dict r = true)
                      (values (batch_results images []))).
    { unfold values. apply Forall_map.
      apply (batch_results_values (fun v => is_dict v = true)); [constructor|].
      intros [p [r|]] Hio; simpl; [now apply (Hd p) | reflexivity]. }
    destruct (count_not_error_dicts _ Hvals) as (n & -> & _). cbn [lift obind].
    unfold div. rewrite inject_Z_of_nat_zero.
    destruct images as [|io images]; [congruence|]. simpl. eauto.
Qed.

Lemma batch_process_fails_exactly_on_the_empty_batch_witness :
  let images := [("a.png", Some (VDict [("api_results", VDict [])]));
                 ("b.png", None)] in
  (forall p r, In (p, Some r) images -> is_dict r = true) /\
  (images = [] -> batch_process images 3 = Raises ZeroDivisionError) /\
  (images <> [] -> exists out, batch_process images 3 = Returns out).
Proof.
  intros images.
  assert (Hd : forall p r, In (p, Some r) images -> is_dict r = true).
  { intros p r [H|[H|[]]]; inversion H; reflexivity. }
  split; [exact Hd|].
  apply (batch_process_fails_exactly_on_the_empty_batch images 3 Hd).
Defined.

Lemma produced_has_no_status (r : val) :
  produced r -> exists out, r = VDict out /\ lookup "status" out = None.
Proof.
  intros (ip & pp & ts & tt & e & H). unfold comprehensive_analysis in H.
  destruct (collect_api_results e) as [api|]; simpl in H; [|discriminate].
  destruct (compute_performance api) as [p|]; simpl in H; [|discriminate].
  destruct (_generate_analysis_summary api) as [s|]; simpl in H; [|discriminate].
  injection H as <-. eexists. split; reflexivity.
Qed.

Lemma count_not_error_stored (images : list (string * option val)) :
  (forall p r, In (p, Some r) images -> produced r) ->
  count_not_error (map (fun io => stored (snd io)) images) = Ok (analysed images).
Proof.
  unfold analysed.
  induction images as [|[p o] images IH]; intros H; [reflexivity|].
  cbn [map count_not_error filter snd].
  rewrite IH by (intros q r Hq; apply (H q); now right).
  destruct o as [r|]; simpl; [|reflexivity].
  destruct (produced_has_no_status r (H p r (or_introl eq_refl)))
    as (out & -> & Hst).
  simpl. now rewrite Hst.
Qed.

Lemma analysed_plus_missing (images : list (string * option val)) :
  (analysed images + missing images = List.length images)%nat.
Proof.
  unfold analysed, missing.
  induction images as [|[p [r|]] images IH]; simpl; lia.
Qed.

(** X11.  [batch_process] calls an image successful as soon as its
    analysis returned, whatever the APIs inside it did: for distinct
    paths, [successful_images] is the number of images that were found
    and analysed, [failed_images] the number of missing files, and
    [success_rate] 100 times the first over the number of images. *)
Theorem batch_counts_every_analysed_image_as_successful :
  forall (images : list (string * option val)) (batch_time : Q),
    images <> [] ->
    NoDup (map fst images) ->
    (forall p r, In (p, Some r) images -> produced r) ->
    exists results summary,
      batch_process images batch_time = Returns (results, summary) /\
      results = map (fun io => (fst io, stored (snd io))) images /\
      successful_images summary = Z.of_nat (analysed images) /\
      failed_images summary = Z.of_nat (missing images) /\
      (batch_success_rate summary
       == 100 * (inject_Z (Z.of_nat (analysed images))
                 / inject_Z (Z.of_nat (List.length images))))%Q.
Proof.
  intros images t Hne Hnd Hp. unfold batch_process.
  rewrite (batch_results_distinct images []) by (auto; intros p _ []).
  cbn [app]. unfold values. rewrite map_map. cbn [snd].
  rewrite (count_not_error_stored images Hp). cbn [lift obind].
  pose proof (analysed_plus_missing images) as Hsum.
  unfold div. rewrite !inject_Z_of_nat_zero.
  destruct (List.length images) as [|n] eqn:El.
  { destruct images; [congruence | discriminate]. }
  cbn [obind].
  eexists. eexists. split; [reflexivity|].
  cbn [successful_images failed_images batch_success_rate].
  split; [reflexivity|]. split; [reflexivity|]. split; [lia | ring].
Qed.

Lemma batch_counts_every_analysed_image_as_successful_witness :
  let failed_engines :=
    local_engines [("error", VStr "File not found: a.png")]
                  [("error", VStr "TrOCR processing failed")] 0.5 0.25 in
  let r :=
    VDict [("image_path", VStr "a.png");
           ("preprocessed_image", VNone);
           ("timestamp", VStr "now");
           ("api_results", VDict (expected_results failed_engines));
           ("performance",
            performance_dict 2
              (mkPerformance 2 2 (rate 2 2) ["tesseract"; "trocr"]));
           ("summary", summary_dict (mkSummary [] [] [] []))] in
  let images := [("a.png", Some r); ("gone.png", None)] in
  images <> [] /\
  NoDup (map fst images) /\
  (forall p r', In (p, Some r') images -> produced r') /\
  exists results summary,
    batch_process images 4 = Returns (results, summary) /\
    results = map (fun io => (fst io, stored (snd io))) images /\
    successful_images summary = Z.of_nat (analysed images) /\
    failed_images summary = Z.of_nat (missing images) /\
    (batch_success_rate summary
     == 100 * (inject_Z (Z.of_nat (analysed images))
               / inject_Z (Z.of_nat (List.length images))))%Q.
Proof.
  intros failed_engines r images.
  assert (Hne : images <> []) by discriminate.
  assert (Hnd : NoDup (map fst images)).
  { simpl. repeat (constructor; [simpl; intuition discriminate|]). constructor. }
  assert (Hp : forall p r', In (p, Some r') images -> produced r').
  { intros p r' [H|[H|[]]]; inversion H; subst r'.
    exists (VStr "a.png"), VNone, (VStr "now"), 2%Q, failed_engines.
    reflexivity. }
  split; [exact Hne|]. split; [exact Hnd|]. split; [exact Hp|].
  apply (batch_counts_every_analysed_image_as_successful images 4 Hne Hnd Hp).
Defined.

End AiOcrFacts.

(* ===================================================================== *)
(** ** data_pipeline.py: the API summary, the texts, the statistics *)
(* ===================================================================== *)

Section DataPipelineFacts.

Import Spec AiOcr DataPipeline TextExtraction PipelineStats Terms.

Lemma add_numbers (a b : val) :
  is_number a = true -> is_number b = true ->
  exists c, add a b = Ok c /\ is_number c = true.
Proof.
  unfold is_number, add.
  destruct a, b; simpl; try discriminate; intros _ _; eauto.
Qed.

Lemma lookup_app_none (k : string) (d1 d2 : dict) :
  lookup k d1 = None -> lookup k (d1 ++ d2) = lookup k d2.
Proof.
  induction d1 as [|[k' v'] d1 IH]; simpl; [reflexivity|].
  destruct (k' =? k)%string; [discriminate | exact IH].
Qed.

Lemma get_dict (d : dict) (key : string) (default : val) :
  get (VDict d) key default
  = Ok (match lookup key d with Some x => x | None => default end).
Proof. simpl. now destruct (lookup key d). Qed.

Lemma summarize_step_counts (t : tally) (api_name : string) (result : val) :
  tokens_numeric result = true ->
  loggable result = true ->
  is_number (total_tokens_used t) = true ->
  is_number (total_processing_time t) = true ->
  exists tokens time,
    summarize_step t api_name result
    = Ok (mkTally
            (if status_success result then successful t + 1 else successful t)
            (if status_success result then failed t else failed t + 1)
            tokens time
            (Py.set api_name (performance_entry result) (api_performance t)))
    /\ is_number tokens = true /\ is_number time = true.
Proof.
  intros Htok Hlog Hn1 Hn2. destruct result as [| | | | | |d]; try discriminate.
  unfold summarize_step. rewrite is_success_dict. cbn [Py.bind].
  unfold performance_entry.
  destruct (status_success (VDict d)) eqn:Hs.
  - rewrite !get_dict. cbn [Py.bind].
    assert (Ht : is_number (match lookup "tokens_used" d with
                            | Some x => x | None => VInt 0 end) = true).
    { unfold tokens_numeric in Htok. unfold is_number.
      destruct (lookup "tokens_used" d); [exact Htok | reflexivity]. }
    assert (Hp : is_number (match lookup "processing_time" d with
                            | Some x => x | None => VInt 0 end) = true).
    { unfold loggable in Hlog. rewrite Hs in Hlog.
      destruct (lookup "processing_time" d); [exact Hlog | reflexivity]. }
    destruct (add_numbers _ _ Hn1 Ht) as (tokens & -> & Htokens).
    destruct (add_numbers _ _ Hn2 Hp) as (time & -> & Htime).
    cbn [Py.bind]. eauto.
  - rewrite get_dict. cbn [Py.bind]. eauto.
Qed.

Lemma summarize_loop_counts (d : dict) :
  forall t : tally,
    NoDup (keys d) ->
    (forall k, In k (keys d) -> ~ In k (keys (api_performance t))) ->
    forallb tokens_numeric (values d) = true ->
    forallb loggable (values d) = true ->
    is_number (total_tokens_used t) = true ->
    is_number (total_processing_time t) = true ->
    exists t',
      summarize_loop d t = Ok t' /\
      successful t' = (successful t + Z.of_nat (successes d))%Z /\
      failed t' = (failed t + Z.of_nat (List.length d - successes d))%Z /\
      is_number (total_tokens_used t') = true /\
      is_number (total_processing_time t') = true /\
      api_performance t'
      = api_performance t ++ map (fun kv => (fst kv, performance_entry (snd kv))) d.
Proof.
  induction d as [|[k r] d IH]; intros t Hnd Hfresh Htok Hlog Hn1 Hn2.
  - exists t. cbn. rewrite app_nil_r. repeat split; auto; lia.
  - cbn [values map snd forallb] in Htok, Hlog.
    apply andb_prop in Htok as [Htr Htok]. apply andb_prop in Hlog as [Hlr Hlog].
    cbn [keys map fst] in Hnd. apply NoDup_cons_iff in Hnd as [Hk Hnd].
    destruct (summarize_step_counts t k r Htr Hlr Hn1 Hn2)
      as (tokens & time & Hstep & Htokens & Htime).
    cbn [summarize_loop]. rewrite Hstep. cbn [Py.bind].
    rewrite set_fresh by (apply Hfresh; now left).
    match goal with |- exists t', summarize_loop d ?t1 = _ /\ _ =>
      destruct (IH t1) as (t' & Hloop & Hs & Hf & Ht1 & Ht2 & Hperf)
    end; auto.
    { cbn [api_performance]. intros k' Hk'. rewrite keys_app. cbn.
      intros Hin. apply in_app_or in Hin as [Hin|[<-|[]]].
      - apply (Hfresh k'); [now right | exact Hin].
      - contradiction. }
    exists t'. split; [exact Hloop|].
    cbn [successful failed api_performance] in Hs, Hf, Hperf.
    pose proof (filter_length_le status_success (values d)) as Hle.
    unfold values in Hle. rewrite length_map in Hle.
    unfold successes, values in *. cbn [map snd filter List.length].
    repeat split; auto.
    + rewrite Hs. destruct (status_success r); cbn [List.length]; lia.
    + rewrite Hf. destruct (status_success r); cbn [List.length]; lia.
    + rewrite Hperf, <- app_assoc. reflexivity.
Qed.

(** X12.  [_summarize_api_results] counts every source once: for a
    dictionary of results, [successful_apis] is the number of results with
    status ['success'], [failed_apis] the number of all others (whatever
    their status), and [api_performance] has one entry per source, in the
    order of the input.  The two counts add up to [total_apis_used]. *)
Theorem summary_counts_every_source_once :
  forall api_results : dict,
    unique_keys api_results ->
    forallb tokens_numeric (values api_results) = true ->
    forallb loggable (values api_results) = true ->
    exists tokens time,
      _summarize_api_results api_results
      = Ok (VDict
              [("total_apis_used", VInt (Z.of_nat (List.length api_results)));
               ("successful_apis", VInt (Z.of_nat (successes api_results)));
               ("failed_apis",
                VInt (Z.of_nat (List.length api_results - successes api_results)));
               ("total_tokens_used", tokens);
               ("total_processing_time", time);
               ("api_performance",
                VDict (map (fun kv => (fst kv, performance_entry (snd kv)))
                         api_results))])
      /\ is_number tokens = true /\ is_number time = true
      /\ (Z.of_nat (successes api_results)
          + Z.of_nat (List.length api_results - successes api_results)
          = Z.of_nat (List.length api_results))%Z.
Proof.
  intros d Hnd Htok Hlog.
  destruct (summarize_loop_counts d (mkTally 0 0 (VInt 0) (VFloat 0) []))
    as (t' & Hloop & Hs & Hf & Ht1 & Ht2 & Hperf); auto.
  destruct t' as [s f tokens time perf].
  cbn [successful failed total_tokens_used total_processing_time api_performance]
    in *.
  exists tokens, time. unfold _summarize_api_results. rewrite Hloop. cbn [Py.bind].
  subst s f perf. cbn [app Z.add].
  repeat split; auto.
  pose proof (filter_length_le status_success (values d)) as Hle.
  unfold values in Hle. rewrite length_map in Hle.
  unfold successes, values. lia.
Qed.

Lemma summary_counts_every_source_once_witness :
  let d := [("gpt4", VDict [("status", VStr "success");
                            ("tokens_used", VInt 1200);
                            ("processing_time", VFloat 2.5)]);
            ("claude", VDict [("status", VStr "error");
                              ("error", VStr "rate limited")]);
            ("tesseract", VDict [("status", VStr "success");
                                 ("processing_time", VFloat 0.5)])] in
  unique_keys d /\
  forallb tokens_numeric (values d) = true /\
  forallb loggable (values d) = true /\
  exists tokens time,
    _summarize_api_results d
    = Ok (VDict
            [("total_apis_used", VInt (Z.of_nat (List.length d)));
             ("successful_apis", VInt (Z.of_nat (successes d)));
             ("failed_apis", VInt (Z.of_nat (List.length d - successes d)));
             ("total_tokens_used", tokens);
             ("total_processing_time", time);
             ("api_performance",
              VDict (map (fun kv => (fst kv, performance_entry (snd kv))) d))])
    /\ is_number tokens = true /\ is_number time = true
    /\ (Z.of_nat (successes d) + Z.of_nat (List.length d - successes d)
        = Z.of_nat (List.length d))%Z.
Proof.
  intros d.
  assert (Hnd : unique_keys d).
  { unfold unique_keys. simpl.
    repeat (constructor; [simpl; intuition discriminate|]). constructor. }
  split; [exact Hnd|]. split; [reflexivity|]. split; [reflexivity|].
  apply (summary_counts_every_source_once d Hnd); reflexivity.
Defined.

(* --------------------------------------------------------------------- *)
(** *** The two text extractions *)
(* --------------------------------------------------------------------- *)

Lemma contains_dict (k : string) (d : dict) :
  contains k (VDict d) = Ok (has_key k d).
Proof. reflexivity. Qed.

Lemma getitem_has_key (k : string) (d : dict) :
  has_key k d = true -> exists v, lookup k d = Some v /\ getitem (VDict d) k = Ok v.
Proof.
  unfold has_key. simpl. destruct (lookup k d) as [v|]; [eauto | discriminate].
Qed.

(** On a dictionary both chains return, and a non-empty string that
    [_extract_all_text_content] reads is the one [_extract_text_from_ocr]
    picks. *)
Lemma chains_agree (data : dict) :
  exists picked text,
    pick_text (VDict data) = Ok picked /\
    first_text (VDict data) = Ok text /\
    (List.length picked <= 1)%nat /\
    (kept_text text = true -> picked = [text]).
Proof.
  unfold pick_text, first_text. rewrite !contains_dict. cbn [Py.bind].
  destruct (has_key "analysis" data) eqn:Ha.
  - destruct (getitem_has_key _ _ Ha) as (a & _ & ->). cbn [Py.bind].
    destruct (is_str a) eqn:Hstr.
    + exists [a], a. repeat split; auto.
    + assert (Hno : kept_text a = true -> False).
      { unfold kept_text. rewrite Hstr, andb_false_r. discriminate. }
      destruct (has_key "full_text" data) eqn:Hf;
        [destruct (getitem_has_key _ _ Hf) as (x & _ & ->); cbn [Py.bind];
         exists [x], a; repeat split; auto; intros H; destruct (Hno H)|].
      destruct (has_key "extracted_text" data) eqn:He;
        [destruct (getitem_has_key _ _ He) as (x & _ & ->); cbn [Py.bind];
         exists [x], a; repeat split; auto; intros H; destruct (Hno H)|].
      destruct (has_key "text" data) eqn:Ht;
        [destruct (getitem_has_key _ _ Ht) as (x & _ & ->); cbn [Py.bind];
         exists [x], a; repeat split; auto; intros H; destruct (Hno H)|].
      exists [], a. repeat split; auto. intros H; destruct (Hno H).
  - destruct (has_key "full_text" data) eqn:Hf;
      [destruct (getitem_has_key _ _ Hf) as (x & _ & ->); cbn [Py.bind];
       exists [x], x; repeat split; auto|].
    destruct (has_key "extracted_text" data) eqn:He;
      [destruct (getitem_has_key _ _ He) as (x & _ & ->); cbn [Py.bind];
       exists [x], x; repeat split; auto|].
    destruct (has_key "text" data) eqn:Ht;
      [destruct (getitem_has_key _ _ Ht) as (x & _ & ->); cbn [Py.bind];
       exists [x], x; repeat split; auto|].
    exists [], (VStr ""). repeat split; auto. discriminate.
Qed.

Lemma data_of_result (d : dict) :
  data_ok (VDict d) = true ->
  exists data, get (VDict d) "data" (VDict []) = Ok (VDict data).
Proof.
  unfold data_ok. rewrite get_dict.
  destruct (lookup "data" d) as [[| | | | | |data]|]; try discriminate; eauto.
Qed.

Lemma text_loops_agree (d : dict) :
  forallb data_ok (values d) = true ->
  exists texts contents,
    text_data_loop d = Ok texts /\
    text_content_loop d = Ok contents /\
    (List.length contents <= List.length (filter kept_text texts))%nat /\
    (List.length texts <= successes d)%nat /\
    forall entry,
      In entry contents ->
      exists source s time,
        entry = content_entry source s time /\
        s <> EmptyString /\
        In (VStr s) (filter kept_text texts) /\
        In source (keys d).
Proof.
  induction d as [|[k r] d IH]; intros Hok.
  - exists [], []. cbn. repeat split; auto. intros entry [].
  - cbn [values map snd forallb] in Hok. apply andb_prop in Hok as [Hr Hok].
    destruct (IH Hok) as (texts & contents & Ht & Hc & Hlen & Hsucc & Hin).
    destruct r as [| | | | | |dr]; try discriminate.
    cbn [text_data_loop text_content_loop]. rewrite is_success_dict, Ht, Hc.
    cbn [Py.bind]. unfold successes in *. cbn [values map snd filter].
    fold (values d).
    assert (Hkeep : forall (mine : list val) (entry : val),
               In entry contents ->
               exists source s time,
                 entry = content_entry source s time /\
                 s <> EmptyString /\
                 In (VStr s) (filter kept_text (mine ++ texts)) /\
                 In source (keys ((k, VDict dr) :: d))).
    { intros mine entry He.
      destruct (Hin entry He) as (src & s & tm & -> & Hs & Hi & Hk).
      exists src, s, tm. repeat split; auto.
      - rewrite filter_app. apply in_or_app. now right.
      - now right. }
    assert (Hnone : forall picked : list val,
               (List.length picked <= 1)%nat ->
               (List.length ([] ++ contents)
                <= List.length (filter kept_text (picked ++ texts)))%nat /\
               (List.length (picked ++ texts)
                <= S (List.length (filter status_success (values d))))%nat /\
               forall entry,
                 In entry ([] ++ contents) ->
                 exists source s time,
                   entry = content_entry source s time /\
                   s <> EmptyString /\
                   In (VStr s) (filter kept_text (picked ++ texts)) /\
                   In source (keys ((k, VDict dr) :: d))).
    { intros picked Hp. cbn [app].
      split; [rewrite filter_app, length_app; lia|].
      split; [rewrite length_app; lia|]. intros entry He. now apply Hkeep. }
    destruct (status_success (VDict dr)).
    + destruct (data_of_result dr Hr) as (data & ->). cbn [Py.bind].
      destruct (chains_agree data) as (picked & text & -> & -> & Hp1 & Hp2).
      cbn [Py.bind].
      destruct text as [| | | |s| |];
        try (eexists; eexists; split; [reflexivity|]; split; [reflexivity|];
             exact (Hnone picked Hp1)).
      destruct (str_truthy s) eqn:Hs.
      * rewrite get_dict. cbn [Py.bind].
        assert (Hk1 : kept_text (VStr s) = true)
          by (unfold kept_text; simpl; now rewrite Hs).
        rewrite (Hp2 Hk1).
        eexists; eexists; split; [reflexivity|]; split; [reflexivity|].
        cbn [app List.length filter]. rewrite Hk1. cbn [List.length].
        split; [lia|]. split; [lia|].
        intros entry [<-|He].
        -- eexists k, s, _. repeat split; auto.
           ++ intros ->. discriminate.
           ++ now left.
           ++ now left.
        -- destruct (Hkeep [] entry He) as (a & b & c & ? & ? & ? & ?).
           exists a, b, c. repeat split; auto. now right.
      * eexists; eexists; split; [reflexivity|]; split; [reflexivity|].
        exact (Hnone picked Hp1).
    + cbn [Py.bind].
      exists ([] ++ texts), ([] ++ contents).
      split; [reflexivity|]. split; [reflexivity|].
      destruct (Hnone [] ltac:(cbn; lia)) as (H1 & H2 & H3).
      split; [exact H1|]. split; [cbn [app] in *; lia|]. exact H3.
Qed.

Lemma lstrip_length (s : string) :
  (String.length (lstrip s) <= String.length s)%nat.
Proof.
  induction s as [|c s IH]; simpl; [lia|]. destruct (is_space c); simpl; lia.
Qed.

Lemma rstrip_length (s : string) :
  (String.length (rstrip s) <= String.length s)%nat.
Proof.
  induction s as [|c s IH]; simpl; [lia|].
  destruct (rstrip s); [destruct (is_space c)|]; simpl in *; lia.
Qed.

Lemma str_strip_length (s : string) :
  (String.length (str_strip s) <= String.length s)%nat.
Proof.
  unfold str_strip.
  pose proof (rstrip_length (lstrip s)). pose proof (lstrip_length s). lia.
Qed.

(** X13.  The two text extractions of data_pipeline.py agree as far as
    [_extract_all_text_content] goes: each of its entries comes from a
    non-empty string that [_extract_text_from_ocr] returns as well, so it
    never has more entries than the other has texts, and neither has more
    than there are successful sources.  An entry stores the stripped text
    beside the length of the text before stripping, which is positive
    and not smaller than the length of the stored text. *)
Theorem text_contents_are_among_the_texts :
  forall (ocr_results api_results : dict),
    lookup "api_results" ocr_results = Some (VDict api_results) ->
    forallb data_ok (values api_results) = true ->
    exists texts contents,
      _extract_text_from_ocr (VDict ocr_results) = Ok texts /\
      _extract_all_text_content (VDict ocr_results) = Ok contents /\
      (List.length contents <= List.length texts)%nat /\
      (List.length texts <= successes api_results)%nat /\
      forall entry,
        In entry contents ->
        exists source s time,
          entry = VDict [("source", VStr source);
                         ("text", VStr (str_strip s));
                         ("length", VInt (Z.of_nat (String.length s)));
                         ("processing_time", time)] /\
          In (VStr s) texts /\
          In source (keys api_results) /\
          (0 < String.length s)%nat /\
          (String.length (str_strip s) <= String.length s)%nat.
Proof.
  intros ocr d Hl Hok.
  destruct (text_loops_agree d Hok) as (texts & contents & Ht & Hc & Hlen & Hs & Hin).
  exists (filter kept_text texts), contents.
  unfold _extract_text_from_ocr, _extract_all_text_content.
  rewrite get_dict, Hl. cbn [Py.bind dict_items]. rewrite Ht, Hc. cbn [Py.bind].
  split; [reflexivity|]. split; [reflexivity|]. split; [exact Hlen|].
  split.
  { pose proof (filter_length_le kept_text texts). lia. }
  intros entry He. destruct (Hin entry He) as (src & s & tm & -> & Hne & Hi & Hk).
  exists src, s, tm. repeat split; auto.
  - destruct s; [congruence | simpl; lia].
  - apply str_strip_length.
Qed.

Lemma text_contents_are_among_the_texts_witness :
  let api_results :=
    [("gpt4", VDict [("status", VStr "success");
                     ("data", VDict [("analysis", VList []);
                                     ("full_text", VStr "M8 bolt")])]);
     ("tesseract", VDict [("status", VStr "success");
                          ("data", VDict [("extracted_text", VStr " 25 mm ")]);
                          ("processing_time", VFloat 0.5)]);
     ("trocr", VDict [("status", VStr "error")])] in
  let ocr_results := [("api_results", VDict api_results)] in
  lookup "api_results" ocr_results = Some (VDict api_results) /\
  forallb data_ok (values api_results) = true /\
  exists texts contents,
    _extract_text_from_ocr (VDict ocr_results) = Ok texts /\
    _extract_all_text_content (VDict ocr_results) = Ok contents /\
    (List.length contents <= List.length texts)%nat /\
    (List.length texts <= successes api_results)%nat /\
    forall entry,
      In entry contents ->
      exists source s time,
        entry = VDict [("source", VStr source);
                       ("text", VStr (str_strip s));
                       ("length", VInt (Z.of_nat (String.length s)));
                       ("processing_time", time)] /\
        In (VStr s) texts /\
        In source (keys api_results) /\
        (0 < String.length s)%nat /\
        (String.length (str_strip s) <= String.length s)%nat.
Proof.
  intros api_results ocr_results.
  split; [reflexivity|]. split; [reflexivity|].
  apply (text_contents_are_among_the_texts ocr_results api_results); reflexivity.
Defined.

(* --------------------------------------------------------------------- *)
(** *** Means of confidences *)
(* --------------------------------------------------------------------- *)

Lemma Q_of_nat_succ (n : nat) : (Q_of_nat (S n) == Q_of_nat n + 1)%Q.
Proof.
  unfold Q_of_nat. rewrite Nat2Z.inj_succ. unfold Z.succ.
  now rewrite inject_Z_plus.
Qed.

Lemma sum_in_range (lo hi : Q) (l : list val) :
  Forall (in_range lo hi) l ->
  exists total,
    Py.sum l = Ok total /\
    (lo * Q_of_nat (List.length l) <= total /\
     total <= hi * Q_of_nat (List.length l))%Q.
Proof.
  induction 1 as [|v l (q & Hq & Hlo & Hhi) _ (total & Hsum & Htlo & Hthi)].
  - exists 0%Q. cbn [Py.sum List.length]. split; [reflexivity|].
    change (Q_of_nat 0) with 0%Q. split; lra.
  - exists (q + total)%Q. cbn [Py.sum List.length]. rewrite Hq, Hsum.
    split; [reflexivity|]. rewrite Q_of_nat_succ.
    set (n := Q_of_nat (List.length l)) in *.
    setoid_replace (lo * (n + 1))%Q with (lo * n + lo)%Q by ring.
    setoid_replace (hi * (n + 1))%Q with (hi * n + hi)%Q by ring.
    generalize dependent (lo * n)%Q. generalize dependent (hi * n)%Q.
    intros; split; lra.
Qed.

Lemma mean_in_range (lo hi : Q) (l : list val) :
  Forall (in_range lo hi) l ->
  exists q,
    mean_or_zero l = Ok (VFloat q) /\
    (l = [] -> q == 0)%Q /\
    (l <> [] -> lo <= q /\ q <= hi)%Q.
Proof.
  intros Hall. destruct (sum_in_range lo hi l Hall) as (total & Hsum & Hlo & Hhi).
  destruct l as [|v l].
  - exists 0%Q. cbn. repeat split; try reflexivity; congruence.
  - unfold mean_or_zero. rewrite Hsum. cbn [Py.bind].
    eexists. split; [reflexivity|]. split; [discriminate|]. intros _.
    pose proof (Q_of_nat_pos (List.length (v :: l))) as Hpos.
    assert (Hp : (0 < Q_of_nat (List.length (v :: l)))%Q)
      by (apply Hpos; cbn; lia).
    split.
    + apply Qle_shift_div_l; [exact Hp | exact Hlo].
    + apply Qle_shift_div_r; [exact Hp | exact Hhi].
Qed.

Lemma Qle_bool_true (a b : Q) : Qle_bool a b = true -> (a <= b)%Q.
Proof. apply Qle_bool_iff. Qed.

Lemma confidence_of_in_unit (r : val) :
  confidence_in_unit r = true ->
  tokens_numeric r = true ->
  in_range 0 1 (confidence_of r).
Proof.
  unfold confidence_in_unit, tokens_numeric, confidence_of, in_range.
  destruct r as [| | | | | |d]; try discriminate.
  destruct (lookup "confidence" d) as [c|].
  - destruct (as_number c) as [q|]; [|discriminate].
    intros H _. apply andb_prop in H as [H0 H1].
    apply Qle_bool_true in H0, H1. eauto.
  - intros _. destruct (lookup "tokens_used" d) as [t|].
    + destruct (as_number t) as [q|]; [|discriminate]. intros _.
      destruct (Qle_bool q 0); eexists; (split; [reflexivity|]); split; lra.
    + intros _. eexists. split; [reflexivity|]. split; lra.
Qed.

Lemma Forall_map_filter {A B : Type} (P : B -> Prop) (f : A -> B)
    (keep ok : A -> bool) (l : list A) :
  (forall x, ok x = true -> P (f x)) ->
  forallb ok l = true ->
  Forall P (map f (filter keep l)).
Proof.
  intros H. induction l as [|x l IH]; cbn [forallb filter map]; [constructor|].
  intros Hok. apply andb_prop in Hok as [Hx Hl].
  destruct (keep x); cbn [map]; auto.
Qed.

Lemma map_filter_nil {A B : Type} (f : A -> B) (keep : A -> bool) (l : list A) :
  map f (filter keep l) = [] <-> List.length (filter keep l) = 0%nat.
Proof.
  destruct (filter keep l); cbn; split; intros; congruence.
Qed.

(** X14.  [_calculate_ocr_confidence] stays in the unit interval when
    the confidences the sources report do: it returns a number between 0
    and 1, and 0.0 when no source succeeded. *)
Theorem ocr_confidence_is_in_the_unit_interval :
  forall api_results : dict,
    all_dicts api_results = true ->
    forallb tokens_numeric (values api_results) = true ->
    forallb confidence_in_unit (values api_results) = true ->
    exists q,
      _calculate_ocr_confidence (VDict [("api_results", VDict api_results)])
      = Ok (VFloat q) /\
      (0 <= q /\ q <= 1)%Q /\
      (successes api_results = 0%nat -> q == 0)%Q.
Proof.
  intros d Hd Ht Hc. unfold all_dicts in Hd.
  unfold _calculate_ocr_confidence. simpl.
  rewrite (collect_confidences_typed _ Hd Ht).
  cbn [Py.bind]. unfold successes.
  set (l := map confidence_of (filter status_success (values d))).
  assert (Hunit : Forall (in_range 0 1) l).
  { apply Forall_map_filter
      with (ok := fun r => confidence_in_unit r && tokens_numeric r).
    - intros r H. apply andb_prop in H as [H1 H2].
      now apply confidence_of_in_unit.
    - clear -Ht Hc. induction (values d) as [|r rs IH]; [reflexivity|].
      cbn [forallb] in *. apply andb_prop in Ht as [-> Ht].
      apply andb_prop in Hc as [-> Hc]. now rewrite IH. }
  destruct (mean_in_range 0 1 l Hunit) as (q & Hq & Hzero & Hrange).
  exists q. split; [exact Hq|].
  assert (Hnil : l = [] <-> List.length (filter status_success (values d)) = 0%nat)
    by apply map_filter_nil.
  split.
  - destruct l as [|v l']; [|apply Hrange; discriminate].
    rewrite (Hzero eq_refl). split; lra.
  - intros H0. apply Hzero. now apply Hnil.
Qed.

Lemma ocr_confidence_is_in_the_unit_interval_witness :
  let d := [("gpt4", VDict [("status", VStr "success");
                            ("tokens_used", VInt 1200)]);
            ("tesseract", VDict [("status", VStr "success");
                                 ("confidence", VFloat 0.9)]);
            ("claude", VDict [("status", VStr "error");
                              ("error", VStr "rate limited")])] in
  all_dicts d = true /\
  forallb tokens_numeric (values d) = true /\
  forallb confidence_in_unit (values d) = true /\
  exists q,
    _calculate_ocr_confidence (VDict [("api_results", VDict d)])
    = Ok (VFloat q) /\
    (0 <= q /\ q <= 1)%Q /\
    (successes d = 0%nat -> q == 0)%Q.
Proof.
  intros d. split; [reflexivity|]. split; [reflexivity|]. split; [reflexivity|].
  apply (ocr_confidence_is_in_the_unit_interval d); reflexivity.
Defined.

(* --------------------------------------------------------------------- *)
(** *** semantic_understanding.py: the average confidence *)
(* --------------------------------------------------------------------- *)

Lemma successful_confidences_dicts (results : list val) :
  forallb is_dict results = true ->
  Semantic.successful_confidences results
  = Ok (map (fun r => match r with
                      | VDict d =>
                          match lookup "confidence" d with
                          | Some c => c
                          | None => VInt 0
                          end
                      | _ => VNone
                      end)
          (filter status_success results)).
Proof.
  induction results as [|r rs IH]; [reflexivity|].
  cbn [forallb Semantic.successful_confidences filter].
  intros H. apply andb_prop in H as [Hr Hrs].
  destruct r as [| | | | | |d]; try discriminate.
  rewrite is_success_dict, (IH Hrs). cbn [Py.bind].
  destruct (status_success (VDict d)); [|reflexivity].
  rewrite get_dict. reflexivity.
Qed.

(** X15.  [_calculate_average_confidence] of semantic_understanding.py
    counts a successful analysis without a ['confidence'] as 0: for
    analyses whose reported confidences are between 0 and 1 the average
    is between 0 and 1; it is 0.0 when no analysis succeeded, and also
    when none of the successful ones reports a confidence. *)
Theorem semantic_confidence_is_in_the_unit_interval :
  forall analyses : dict,
    all_dicts analyses = true ->
    forallb confidence_in_unit (values analyses) = true ->
    exists q,
      Semantic._calculate_average_confidence (VDict analyses) = Ok (VFloat q) /\
      (0 <= q /\ q <= 1)%Q /\
      (successes analyses = 0%nat -> q == 0)%Q /\
      (forallb no_confidence (values analyses) = true -> q == 0)%Q.
Proof.
  intros d Hd Hc. unfold all_dicts in Hd.
  unfold Semantic._calculate_average_confidence. cbn [dict_values Py.bind].
  rewrite (successful_confidences_dicts _ Hd). cbn [Py.bind]. unfold successes.
  set (f := fun r => match r with
                     | VDict d => match lookup "confidence" d with
                                  | Some c => c
                                  | None => VInt 0
                                  end
                     | _ => VNone
                     end).
  set (l := map f (filter status_success (values d))).
  assert (Hunit : Forall (in_range 0 1) l).
  { apply Forall_map_filter with (ok := confidence_in_unit); [|exact Hc].
    intros r. unfold confidence_in_unit, f, in_range.
    destruct r as [| | | | | |dr]; try discriminate.
    destruct (lookup "confidence" dr) as [c|].
    - destruct (as_number c) as [q|]; [|discriminate].
      intros H. apply andb_prop in H as [H0 H1].
      apply Qle_bool_true in H0, H1. eauto.
    - intros _. exists 0%Q. split; [reflexivity|]. split; lra. }
  destruct (mean_in_range 0 1 l Hunit) as (q & Hq & Hzero & Hrange).
  exists q. split; [exact Hq|].
  assert (Hnil : l = [] <-> List.length (filter status_success (values d)) = 0%nat)
    by apply map_filter_nil.
  split; [|split].
  - destruct l as [|v l']; [|apply Hrange; discriminate].
    rewrite (Hzero eq_refl). split; lra.
  - intros H0. apply Hzero. now apply Hnil.
  - intros Hno.
    destruct l as [|v l'] eqn:El; [now apply Hzero|].
    assert (Hz : Forall (in_range 0 0) l).
    { apply Forall_map_filter with (ok := no_confidence); [|exact Hno].
      intros r. unfold no_confidence, has_key, f, in_range.
      destruct r as [| | | | | |dr]; try discriminate.
      destruct (lookup "confidence" dr); [discriminate|].
      intros _. exists 0%Q. split; [reflexivity|]. split; lra. }
    destruct (mean_in_range 0 0 l Hz) as (q' & Hq' & _ & Hrange').
    subst l. rewrite El in *. rewrite Hq in Hq'. injection Hq' as <-.
    destruct Hrange' as [H1 H2]; [discriminate|]. lra.
Qed.

Lemma semantic_confidence_is_in_the_unit_interval_witness :
  let d := [("openai", VDict [("status", VStr "success");
                              ("confidence", VFloat 0.9)]);
            ("claude", VDict [("status", VStr "success")]);
            ("local", VDict [("status", VStr "error")])] in
  all_dicts d = true /\
  forallb confidence_in_unit (values d) = true /\
  exists q,
    Semantic._calculate_average_confidence (VDict d) = Ok (VFloat q) /\
    (0 <= q /\ q <= 1)%Q /\
    (successes d = 0%nat -> q == 0)%Q /\
    (forallb no_confidence (values d) = true -> q == 0)%Q.
Proof.
  intros d. split; [reflexivity|]. split; [reflexivity|].
  apply (semantic_confidence_is_in_the_unit_interval d); reflexivity.
Defined.

(* --------------------------------------------------------------------- *)
(** *** The pipeline statistics *)
(* --------------------------------------------------------------------- *)

Lemma Qsum_app (l1 l2 : list Q) :
  (Cadly.Qsum (l1 ++ l2) == Cadly.Qsum l1 + Cadly.Qsum l2)%Q.
Proof.
  induction l1 as [|x l1 IH]; cbn [app Cadly.Qsum]; [ring|]. rewrite IH. ring.
Qed.

Lemma record_endings_snoc (s : stats) (es : list ending) (e : ending) :
  record_endings s (es ++ [e]) = record_ending (record_endings s es) e.
Proof. unfold record_endings. now rewrite fold_left_app. Qed.

Lemma inject_Z_positive (z : Z) : (0 < z)%Z -> Qeq_bool (inject_Z z) 0 = false.
Proof.
  intros Hz. destruct (Qeq_bool (inject_Z z) 0) eqn:E; [|reflexivity].
  apply Qeq_bool_eq in E. unfold Qeq in E. simpl in E. lia.
Qed.

Lemma update_returns (s : stats) (t : Q) :
  (0 <= total_processed s)%Z ->
  _update_average_time
    (mkStats (total_processed s + 1) (successful_completions s + 1)
       (failed_processes s) (average_processing_time s)) t
  = Returns
      (mkStats (total_processed s + 1) (successful_completions s + 1)
         (failed_processes s)
         ((average_processing_time s * inject_Z (total_processed s + 1 - 1) + t)
          / inject_Z (total_processed s + 1))).
Proof.
  intros H. unfold _update_average_time, div.
  cbn [total_processed average_processing_time successful_completions
       failed_processes].
  now rewrite inject_Z_positive by lia.
Qed.

Lemma record_completed (s : stats) (t : Q) :
  (0 <= total_processed s)%Z ->
  record_ending s (Completed t)
  = mkStats (total_processed s + 1) (successful_completions s + 1)
      (failed_processes s)
      ((average_processing_time s * inject_Z (total_processed s + 1 - 1) + t)
       / inject_Z (total_processed s + 1)).
Proof.
  intros H. cbn [record_ending]. now rewrite update_returns.
Qed.

(** X16.  The counters of [process_single_image].  From the initial
    statistics and after any sequence of runs, [total_processed] counts
    the completed runs only (it equals [successful_completions]; a failed
    run adds to [failed_processes] and to nothing else), and the division
    of [_update_average_time] is never by zero: a further completed run
    is not counted as a failure. *)
Theorem statistics_count_completed_runs_only :
  forall es : list ending,
    let s := record_endings initial es in
    total_processed s = Z.of_nat (List.length (completed_times es)) /\
    successful_completions s = total_processed s /\
    failed_processes s = Z.of_nat (failures es) /\
    forall t,
      failed_processes (record_ending s (Completed t)) = failed_processes s.
Proof.
  intros es. induction es as [|e es IH] using rev_ind.
  - cbn zeta. cbn [record_endings fold_left].
    repeat split; try reflexivity.
  - cbn zeta in *. rewrite record_endings_snoc.
    destruct IH as (Htot & Hsucc & Hfail & _).
    set (s := record_endings initial es) in *.
    assert (Hpos : (0 <= total_processed s)%Z) by lia.
    unfold completed_times, failures in *.
    rewrite flat_map_app, filter_app, !length_app.
    destruct e as [t|].
    + rewrite (record_completed s t Hpos).
      cbn [total_processed average_processing_time successful_completions
           failed_processes flat_map filter app List.length].
      split; [lia|]. split; [lia|]. split; [lia|].
      intros t0. rewrite record_completed; [reflexivity|].
      cbn [total_processed]. lia.
    + change (record_ending s Failed)
        with (mkStats (total_processed s) (successful_completions s)
                (failed_processes s + 1) (average_processing_time s)).
      cbn [total_processed average_processing_time
           successful_completions failed_processes flat_map filter app
           List.length].
      split; [lia|]. split; [lia|]. split; [lia|].
      intros t. rewrite record_completed; [reflexivity|].
      cbn [total_processed]. lia.
Qed.

End DataPipelineFacts.

(* ===================================================================== *)
(** ** cadly_ultimate_integration.py: quality, performance, statistics *)
(* ===================================================================== *)

Section CadlyFacts.

Import Spec AiOcr Cadly CadlyMore Terms.

Lemma section_spec (d : dict) (a b : string) (ok : dict -> bool) :
  section_ok d a b ok = true ->
  exists y, section (VDict d) a b = Ok (VDict y) /\ ok y = true.
Proof.
  unfold section_ok, section. rewrite get_dict.
  destruct (lookup a d) as [[| | | | | |x]|]; try discriminate; cbn [Py.bind].
  - rewrite get_dict.
    destruct (lookup b x) as [[| | | | | |y]|]; try discriminate; eauto.
  - intros H. exists []. now split.
Qed.

Lemma Qle_bool_false (a b : Q) : Qle_bool a b = false -> (b < a)%Q.
Proof.
  intros H. apply Qnot_le_lt. intros Hle.
  apply Qle_bool_iff in Hle. congruence.
Qed.

Lemma ratio_bounds (s t : Q) :
  (0 <= s)%Q -> (s <= t)%Q -> (0 < t)%Q ->
  (0 <= s / t * 0.3 /\ s / t * 0.3 <= 0.3)%Q.
Proof.
  intros Hs Hst Ht.
  assert (H0 : (0 <= s / t)%Q)
    by (apply Qle_shift_div_l; [exact Ht | now rewrite Qmult_0_l]).
  assert (H1 : (s / t <= 1)%Q)
    by (apply Qle_shift_div_r; [exact Ht | now rewrite Qmult_1_l]).
  split; lra.
Qed.

Lemma Qmin_unit (a : Q) : (0 <= a)%Q -> (0 <= Qmin a 1 /\ Qmin a 1 <= 1)%Q.
Proof.
  intros Ha. unfold Qmin. destruct (Qle_bool a 1) eqn:E.
  - apply Qle_bool_true in E. split; lra.
  - split; lra.
Qed.

Lemma ocr_score_bounded (d : dict) :
  section_ok d "ocr_analysis" "api_results_summary" ratio_ok = true ->
  exists l, ocr_score (VDict d) = Ok l /\ at_most 0.3 l.
Proof.
  intros H. destruct (section_spec _ _ _ _ H) as (y & Hy & Hok).
  unfold ocr_score. rewrite Hy. cbn [Py.bind]. rewrite !get_dict.
  cbn [Py.bind]. unfold ratio_ok in Hok. unfold gt0.
  destruct (lookup "total_apis_used" y) as [t|].
  - destruct (as_number t) as [tq|] eqn:Et; [|discriminate]. cbn [Py.bind].
    destruct (Qle_bool tq 0) eqn:Ez; cbn [negb].
    + exists []. split; [reflexivity | now left].
    + apply Qle_bool_false in Ez.
      destruct (lookup "successful_apis" y) as [s|].
      * destruct (as_number s) as [sq|] eqn:Es; [|discriminate].
        apply andb_prop in Hok as [H0 H1]. apply Qle_bool_true in H0, H1.
        cbn [Py.bind]. eexists. split; [reflexivity|]. right.
        eexists. split; [reflexivity|]. now apply ratio_bounds.
      * cbn [as_number Py.bind]. eexists. split; [reflexivity|]. right.
        eexists. split; [reflexivity|].
        apply ratio_bounds; [discriminate | | exact Ez].
        change (inject_Z 0) with 0%Q. lra.
  - cbn. exists []. split; [reflexivity | now left].
Qed.

Lemma normalised_score_bounded (d : dict) (a b key : string) (n w : Q)
    (f : val -> res (list Q)) :
  (0 < n)%Q -> (0 <= w)%Q ->
  (forall structured_data,
      f structured_data
      = (sec <- section structured_data a b ;;
         v <- get sec key (VInt 0) ;;
         positive <- gt0 v ;;
         if (positive : bool) then
           v' <- get sec key (VInt 0) ;;
           q <- as_number v' ;;
           Ok [(Qmin (q / n) 1 * w)%Q]
         else Ok [])) ->
  section_ok d a b (fun s => number_or_absent s key (fun _ => true)) = true ->
  exists l, f (VDict d) = Ok l /\ at_most w l.
Proof.
  intros Hn Hw Hf H. destruct (section_spec _ _ _ _ H) as (y & Hy & Hok).
  rewrite Hf, Hy. cbn [Py.bind]. rewrite !get_dict. cbn [Py.bind].
  unfold number_or_absent in Hok. unfold gt0.
  destruct (lookup key y) as [v|].
  - destruct (as_number v) as [q|] eqn:Ev; [|discriminate]. cbn [Py.bind].
    destruct (Qle_bool q 0) eqn:Ez; cbn [negb].
    + exists []. split; [reflexivity | now left].
    + apply Qle_bool_false in Ez. cbn [Py.bind].
      eexists. split; [reflexivity|]. right. eexists. split; [reflexivity|].
      assert (H0 : (0 <= q / n)%Q)
        by (apply Qle_shift_div_l; [exact Hn | rewrite Qmult_0_l; lra]).
      destruct (Qmin_unit _ H0) as [Hm0 Hm1].
      split; [apply Qmult_le_0_compat; assumption|].
      setoid_replace w with (1 * w)%Q at 2 by ring.
      now apply Qmult_le_compat_r.
  - cbn. exists []. split; [reflexivity | now left].
Qed.

Lemma symbol_score_bounded (d : dict) :
  section_ok d "symbol_analysis" "performance"
    (fun s => number_or_absent s "total_elements_detected" (fun _ => true)) = true ->
  exists l, symbol_score (VDict d) = Ok l /\ at_most 0.25 l.
Proof.
  apply (normalised_score_bounded d _ _ _ 20 0.25 symbol_score);
    [reflexivity | discriminate | reflexivity].
Qed.

Lemma richness_score_bounded (d : dict) :
  section_ok d "technical_data" "quality_metrics"
    (fun s => number_or_absent s "technical_content_richness" (fun _ => true)) = true ->
  exists l, richness_score (VDict d) = Ok l /\ at_most 0.1 l.
Proof.
  intros H.
  destruct (section_spec _ _ _ _ H) as (y & Hy & Hok).
  unfold richness_score. rewrite Hy. cbn [Py.bind]. rewrite !get_dict.
  cbn [Py.bind]. unfold number_or_absent in Hok. unfold gt0.
  destruct (lookup "technical_content_richness" y) as [v|].
  - destruct (as_number v) as [q|] eqn:Ev; [|discriminate]. cbn [Py.bind].
    destruct (Qle_bool q 0) eqn:Ez; cbn [negb].
    + exists []. split; [reflexivity | now left].
    + apply Qle_bool_false in Ez. cbn [Py.bind].
      eexists. split; [reflexivity|]. right. eexists. split; [reflexivity|].
      assert (H0 : (0 <= q / 15)%Q)
        by (apply Qle_shift_div_l; [reflexivity | rewrite Qmult_0_l; lra]).
      destruct (Qmin_unit _ H0) as [Hm0 Hm1]. split; lra.
  - cbn. exists []. split; [reflexivity | now left].
Qed.

Lemma semantic_score_bounded (d : dict) :
  section_ok d "semantic_analysis" "performance"
    (fun s => number_or_absent s "average_confidence" (fun q => Qle_bool q 1)) = true ->
  exists l, semantic_score (VDict d) = Ok l /\ at_most 0.35 l.
Proof.
  intros H.
  destruct (section_spec _ _ _ _ H) as (y & Hy & Hok).
  unfold semantic_score. rewrite Hy. cbn [Py.bind]. rewrite !get_dict.
  cbn [Py.bind]. unfold number_or_absent in Hok. unfold gt0.
  destruct (lookup "average_confidence" y) as [v|].
  - destruct (as_number v) as [q|] eqn:Ev; [|discriminate]. cbn [Py.bind].
    apply Qle_bool_true in Hok.
    destruct (Qle_bool q 0) eqn:Ez; cbn [negb].
    + exists []. split; [reflexivity | now left].
    + apply Qle_bool_false in Ez. cbn [Py.bind].
      eexists. split; [reflexivity|]. right. eexists. split; [reflexivity|].
      split; lra.
  - cbn. exists []. split; [reflexivity | now left].
Qed.

Lemma at_most_sum (w : Q) (l : list Q) :
  at_most w l -> (0 <= w)%Q -> (0 <= Qsum l /\ Qsum l <= w)%Q.
Proof.
  intros [->|(x & -> & H0 & H1)] Hw; cbn [Qsum]; split; lra.
Qed.

Lemma score_parts (d : dict) :
  quality_inputs_ok (VDict d) = true ->
  exists l1 l2 l3 l4 q,
    ocr_score (VDict d) = Ok l1 /\ at_most 0.3 l1 /\
    symbol_score (VDict d) = Ok l2 /\ at_most 0.25 l2 /\
    semantic_score (VDict d) = Ok l3 /\ at_most 0.35 l3 /\
    richness_score (VDict d) = Ok l4 /\ at_most 0.1 l4 /\
    _calculate_comprehensive_quality_score (VDict d) = Ok (VFloat q) /\
    ((l1 ++ l2 ++ l3 ++ l4 = [] /\ q == 0.5)%Q \/
     (q == Qsum l1 + Qsum l2 + Qsum l3 + Qsum l4)%Q).
Proof.
  unfold quality_inputs_ok. intros H.
  apply andb_prop in H as [H H4]. apply andb_prop in H as [H H3].
  apply andb_prop in H as [H1 H2].
  destruct (ocr_score_bounded d H1) as (l1 & E1 & B1).
  destruct (symbol_score_bounded d H2) as (l2 & E2 & B2).
  destruct (semantic_score_bounded d H3) as (l3 & E3 & B3).
  destruct (richness_score_bounded d H4) as (l4 & E4 & B4).
  exists l1, l2, l3, l4.
  unfold _calculate_comprehensive_quality_score.
  rewrite E1, E2, E3, E4. cbn [Py.bind].
  assert (Hsum : (Qsum (l1 ++ l2 ++ l3 ++ l4)
                  == Qsum l1 + Qsum l2 + Qsum l3 + Qsum l4)%Q).
  { rewrite !Qsum_app. ring. }
  destruct (l1 ++ l2 ++ l3 ++ l4) as [|x l] eqn:El.
  - exists 0.5%Q. repeat split; auto. left. split; reflexivity.
  - eexists. repeat split; auto.
Qed.



(* --------------------------------------------------------------------- *)
(** *** The confidence level and the manual review *)
(* --------------------------------------------------------------------- *)

Lemma level_cases (q : Q) :
  (_determine_confidence_level q = "High" /\ 0.8 <= q)%Q \/
  (_determine_confidence_level q = "Medium" /\ 0.6 <= q /\ q < 0.8)%Q \/
  (_determine_confidence_level q = "Low" /\ 0.4 <= q /\ q < 0.6)%Q \/
  (_determine_confidence_level q = "Very Low" /\ q < 0.4)%Q.
Proof.
  unfold _determine_confidence_level.
  destruct (Qle_bool 0.8 q) eqn:E1;
    [apply Qle_bool_true in E1; now left | apply Qle_bool_false in E1].
  destruct (Qle_bool 0.6 q) eqn:E2;
    [apply Qle_bool_true in E2; right; now left | apply Qle_bool_false in E2].
  destruct (Qle_bool 0.4 q) eqn:E3;
    [apply Qle_bool_true in E3; right; right; now left
    | apply Qle_bool_false in E3].
  right; right; now right.
Qed.

Lemma review_cases (threshold q : Q) :
  negb (Qle_bool threshold q) = true <-> (q < threshold)%Q.
Proof.
  destruct (Qle_bool threshold q) eqn:E; cbn [negb].
  - apply Qle_bool_true in E. split; [discriminate | lra].
  - apply Qle_bool_false in E. now split.
Qed.

(** X18.  What [_enhance_analysis_result] stores as the quality
    assessment, with the configured threshold 0.7: the manual review is
    asked for exactly below 0.7, the four levels are cut at 0.8, 0.6 and
    0.4.  So a ['High'] score never asks for a review, a ['Low'] or
    ['Very Low'] one always does, and ['Medium'] goes both ways. *)
Theorem confidence_level_and_manual_review :
  forall (q : Q) (timestamp : val),
    exists review level,
      quality_assessment q 0.7 timestamp
      = VDict [("overall_quality_score", VFloat q);
               ("needs_manual_review", VBool review);
               ("confidence_level", VStr level);
               ("assessment_timestamp", timestamp)] /\
      (review = true <-> q < 0.7)%Q /\
      (level = "High" <-> 0.8 <= q)%Q /\
      (level = "Medium" <-> 0.6 <= q /\ q < 0.8)%Q /\
      (level = "Low" <-> 0.4 <= q /\ q < 0.6)%Q /\
      (level = "Very Low" <-> q < 0.4)%Q /\
      (level = "High" -> review = false) /\
      (level = "Low" \/ level = "Very Low" -> review = true).
Proof.
  intros q timestamp.
  exists (negb (Qle_bool 0.7 q)), (_determine_confidence_level q).
  split; [reflexivity|].
  pose proof (review_cases 0.7 q) as Hrev.
  destruct (negb (Qle_bool 0.7 q)) eqn:Er.
  - assert (Hq : (q < 0.7)%Q) by now apply Hrev.
    destruct (level_cases q) as [[-> H]|[[-> H]|[[-> H]|[-> H]]]];
      repeat split; try discriminate; try lra; auto; intros; lra.
  - assert (Hq : ~ (q < 0.7)%Q) by (intros H; apply Hrev in H; discriminate).
    destruct (level_cases q) as [[-> H]|[[-> H]|[[-> H]|[-> H]]]];
      repeat split; try discriminate; try lra; auto;
      try (intros; lra); try (intros [|]; discriminate);
      try (intros; exfalso; apply Hq; lra).
Qed.

(* --------------------------------------------------------------------- *)
(** *** The performance summary *)
(* --------------------------------------------------------------------- *)

Lemma sum_tokens_numeric (results : list val) :
  forall acc : val,
    is_number acc = true ->
    forallb tokens_numeric results = true ->
    exists v, sum_tokens results acc = Ok v /\ is_number v = true.
Proof.
  induction results as [|r rs IH]; intros acc Hacc Hall; [cbn; eauto|].
  cbn [forallb] in Hall. apply andb_prop in Hall as [Hr Hrs].
  destruct r as [| | | | | |d]; try discriminate.
  cbn [sum_tokens]. rewrite get_dict. cbn [Py.bind].
  assert (Ht : is_number (match lookup "tokens_used" d with
                          | Some x => x | None => VInt 0 end) = true).
  { unfold tokens_numeric in Hr. unfold is_number.
    destruct (lookup "tokens_used" d); [exact Hr | reflexivity]. }
  destruct (add_numbers _ _ Hacc Ht) as (acc' & -> & Hacc').
  cbn [Py.bind]. now apply IH.
Qed.

Lemma ocr_systems_counts (v : option val) :
  ocr_results_ok v = true ->
  exists out n s,
    ocr_systems (match v with Some x => x | None => VDict [] end)
    = Ok (VDict out) /\
    get (VDict out) "total_systems" (VInt 0) = Ok (VInt (Z.of_nat n)) /\
    get (VDict out) "successful_systems" (VInt 0) = Ok (VInt (Z.of_nat s)) /\
    (s <= n)%nat /\
    (v = None -> n = 0%nat).
Proof.
  unfold ocr_results_ok, ocr_systems.
  destruct v as [[| | | | | |o]|]; try discriminate.
  - cbn [contains]. unfold has_key.
    destruct (lookup "api_results" o) as [a|] eqn:Ea; cbn [Py.bind].
    + unfold results_ok. destruct a as [| | | | | |d]; try discriminate.
      intros H. apply andb_prop in H as [Hd Ht].
      cbn [getitem]. rewrite Ea. cbn [Py.bind dict_values].
      rewrite (count_success_dicts _ Hd). cbn [Py.bind len].
      destruct (sum_tokens_numeric (values d) (VInt 0) eq_refl Ht) as (tk & -> & _).
      cbn [Py.bind].
      eexists. exists (List.length d), (List.length (filter status_success (values d))).
      split; [reflexivity|]. split; [reflexivity|]. split; [reflexivity|].
      split; [|discriminate].
      pose proof (filter_length_le status_success (values d)) as Hle.
      unfold values in Hle at 2. now rewrite length_map in Hle.
    + intros _. exists [], 0%nat, 0%nat. repeat split; auto; discriminate.
  - intros _. exists [], 0%nat, 0%nat. repeat split; auto.
Qed.

Lemma semantic_ai_counts (v : option val) :
  semantic_results_ok v = true ->
  exists out n s,
    semantic_ai (match v with Some x => x | None => VDict [] end)
    = Ok (VDict out) /\
    get (VDict out) "total_ai_models" (VInt 0) = Ok (VInt (Z.of_nat n)) /\
    get (VDict out) "successful_analyses" (VInt 0) = Ok (VInt (Z.of_nat s)) /\
    (s <= n)%nat /\
    (v = None -> n = 0%nat).
Proof.
  unfold semantic_results_ok, semantic_ai.
  destruct v as [[| | | | | |o]|]; try discriminate.
  - cbn [contains]. unfold has_key.
    destruct (lookup "ai_analyses" o) as [a|] eqn:Ea; cbn [Py.bind].
    + destruct a as [| | | | | |d]; try discriminate.
      intros H. apply andb_prop in H as [Hd Hm].
      cbn [getitem]. rewrite Ea. cbn [Py.bind dict_values].
      rewrite (count_success_dicts _ Hd). cbn [Py.bind len].
      rewrite get_dict. unfold dict_or_absent in Hm.
      destruct (lookup "performance_metrics" o) as [[| | | | | |m]|];
        try discriminate; cbn [Py.bind]; rewrite get_dict; cbn [Py.bind];
        (eexists; exists (List.length d),
                    (List.length (filter status_success (values d)));
         split; [reflexivity|]; split; [reflexivity|]; split; [reflexivity|];
         split; [|discriminate];
         pose proof (filter_length_le status_success (values d)) as Hle;
         unfold values in Hle at 2; now rewrite length_map in Hle).
    + intros _. exists [], 0%nat, 0%nat. repeat split; auto; discriminate.
  - intros _. exists [], 0%nat, 0%nat. repeat split; auto.
Qed.

Lemma symbol_detection_returns (v : option val) :
  symbol_results_ok v = true ->
  exists out d,
    match v with Some x => x | None => VDict [] end = VDict d /\
    symbol_detection (VDict d) = Ok out.
Proof.
  unfold symbol_results_ok, symbol_detection.
  destruct v as [[| | | | | |d]|]; try discriminate; intros _.
  - destruct (lookup "performance" d) eqn:E; eexists; exists d;
      (split; [reflexivity|]); cbn [contains]; unfold has_key; cbn [getitem];
      rewrite E; reflexivity.
  - exists (VDict []), []. split; reflexivity.
Qed.

Lemma fraction_of_counts (s t : Z) :
  (0 <= s <= t)%Z -> (0 < t)%Z ->
  (0 <= inject_Z s / inject_Z t /\ inject_Z s / inject_Z t <= 1)%Q.
Proof.
  intros Hs Ht.
  assert (Hp : (0 < inject_Z t)%Q)
    by (change 0%Q with (inject_Z 0); rewrite <- Zlt_Qlt; lia).
  split.
  - apply Qle_shift_div_l; [exact Hp|]. rewrite Qmult_0_l.
    change 0%Q with (inject_Z 0). rewrite <- Zle_Qle. lia.
  - apply Qle_shift_div_r; [exact Hp|]. rewrite Qmult_1_l.
    rewrite <- Zle_Qle. lia.
Qed.

(** X19.  [_extract_ai_performance_summary] always divides: symbol
    detection counts as one operation whether it ran or not, so the total
    is at least 1 and the guard's [else 0] is never taken.  The overall
    rate is a fraction between 0 and 1; for pipeline data without any of
    the three result sections it is 1. *)
Theorem overall_ai_success_rate_is_a_fraction :
  forall pipeline_data : dict,
    performance_inputs_ok (VDict pipeline_data) = true ->
    exists ocr semantic symbol q,
      _extract_ai_performance_summary (VDict pipeline_data)
      = Ok (VDict [("ocr_systems", ocr);
                   ("semantic_ai", semantic);
                   ("symbol_detection", symbol);
                   ("overall_ai_success_rate", VFloat q)]) /\
      (0 <= q /\ q <= 1)%Q /\
      (lookup "ocr_results" pipeline_data = None ->
       lookup "semantic_results" pipeline_data = None ->
       lookup "symbol_results" pipeline_data = None ->
       q == 1)%Q.
Proof.
  intros p H. unfold performance_inputs_ok in H.
  apply andb_prop in H as [H H3]. apply andb_prop in H as [H1 H2].
  destruct (ocr_systems_counts _ H1) as (ocr & n1 & s1 & E1 & Gn1 & Gs1 & L1 & Z1).
  destruct (semantic_ai_counts _ H2) as (sem & n2 & s2 & E2 & Gn2 & Gs2 & L2 & Z2).
  destruct (symbol_detection_returns _ H3) as (sym & sd & Esd & E3).
  unfold _extract_ai_performance_summary.
  rewrite !get_dict. cbn [Py.bind]. rewrite E1. cbn [Py.bind].
  rewrite E2. cbn [Py.bind]. rewrite Esd, E3. cbn [Py.bind].
  rewrite Gn1. cbn [Py.bind]. rewrite Gn2. cbn [Py.bind add as_int].
  rewrite Gs1. cbn [Py.bind]. rewrite Gs2. cbn [Py.bind add as_int].
  rewrite get_dict. cbn [Py.bind add as_int].
  set (one := if eq_str _ "failed" then 0%Z else 1%Z).
  assert (Hone : (0 <= one <= 1)%Z) by (unfold one; destruct (eq_str _ _); lia).
  unfold overall_rate, gt0. cbn [as_number Py.bind].
  assert (Hpos : Qle_bool (inject_Z (Z.of_nat n1 + Z.of_nat n2 + 1)) 0 = false).
  { destruct (Qle_bool _ 0) eqn:E; [|reflexivity].
    apply Qle_bool_true in E. change 0%Q with (inject_Z 0) in E.
    rewrite <- Zle_Qle in E. lia. }
  rewrite Hpos. cbn [negb Py.bind].
  exists (VDict ocr), (VDict sem), sym. eexists. split; [reflexivity|].
  split; [apply fraction_of_counts; lia|].
  intros Ho Hs Hy. rewrite Ho in Z1. rewrite Hs in Z2.
  rewrite (Z1 eq_refl), (Z2 eq_refl) in *.
  assert (s1 = 0%nat) by lia. assert (s2 = 0%nat) by lia. subst s1 s2.
  unfold one. rewrite Hy in Esd. injection Esd as <-. reflexivity.
Qed.

Lemma overall_ai_success_rate_is_a_fraction_witness :
  let pipeline_data :=
    [("ocr_results",
      VDict [("api_results",
              VDict [("gpt4", VDict [("status", VStr "success");
                                     ("tokens_used", VInt 1200)]);
                     ("tesseract", VDict [("status", VStr "error")])])]);
     ("symbol_results", VDict [("status", VStr "failed")])] in
  performance_inputs_ok (VDict pipeline_data) = true /\
  exists ocr semantic symbol q,
    _extract_ai_performance_summary (VDict pipeline_data)
    = Ok (VDict [("ocr_systems", ocr);
                 ("semantic_ai", semantic);
                 ("symbol_detection", symbol);
                 ("overall_ai_success_rate", VFloat q)]) /\
    (0 <= q /\ q <= 1)%Q /\
    (lookup "ocr_results" pipeline_data = None ->
     lookup "semantic_results" pipeline_data = None ->
     lookup "symbol_results" pipeline_data = None ->
     q == 1)%Q.
Proof.
  intros pipeline_data. split; [reflexivity|].
  apply (overall_ai_success_rate_is_a_fraction pipeline_data). reflexivity.
Defined.

(* --------------------------------------------------------------------- *)
(** *** The system statistics *)
(* --------------------------------------------------------------------- *)

Lemma updates_counts (objects : list ProcessingResult.object) :
  forall s : system_stats,
    total_analyses (updates s objects)
    = (total_analyses s + Z.of_nat (List.length objects))%Z /\
    successful_analyses (updates s objects)
    = (successful_analyses s
       + Z.of_nat (List.length (filter completed objects)))%Z /\
    system_uptime (updates s objects) = system_uptime s.
Proof.
  unfold updates.
  induction objects as [|o os IH]; intros s.
  - cbn. repeat split; lia.
  - cbn [fold_left]. destruct (IH (fst (_update_system_stats s o))) as (H1 & H2 & H3).
    rewrite H1, H2, H3. unfold _update_system_stats, completed.
    cbn [filter].
    destruct (as_number (ProcessingResult.getattr_processing_time o (VInt 0)));
      cbn [fst total_analyses successful_analyses system_uptime];
      destruct (eq_str (ProcessingResult.getattr_status o (VStr "")) "completed");
      cbn [List.length]; repeat split; lia.
Qed.

(** X20.  [_update_system_stats] writes its two counters before it adds
    the processing time, so they count every call, also one that raises
    on a processing time that is not a number.  From the initial
    statistics, [total_analyses] is the number of calls and
    [successful_analyses] the number of objects whose status is
    ['completed'] (a dictionary returned for a failed image has no such
    attribute).  The success rate that [_get_current_performance_metrics]
    reports is 0 before the first call and the quotient of the two
    counters afterwards, between 0 and 1. *)
Theorem system_statistics_count_every_call :
  forall (start now : Q) (objects : list ProcessingResult.object),
    let s := updates (mkSystemStats 0 0 0 start) objects in
    let m := _get_current_performance_metrics s now in
    total_analyses s = Z.of_nat (List.length objects) /\
    successful_analyses s = Z.of_nat (List.length (filter completed objects)) /\
    total_analyses_completed m = Z.of_nat (List.length objects) /\
    (0 <= CadlyMore.success_rate m /\ CadlyMore.success_rate m <= 1)%Q /\
    (objects = [] -> CadlyMore.success_rate m = 0%Q) /\
    (objects <> [] ->
     CadlyMore.success_rate m
     = (inject_Z (Z.of_nat (List.length (filter completed objects)))
        / inject_Z (Z.of_nat (List.length objects)))%Q).
Proof.
  intros start now objects s m.
  destruct (updates_counts objects (mkSystemStats 0 0 0 start)) as (H1 & H2 & _).
  cbn [total_analyses successful_analyses] in H1, H2.
  fold s in H1, H2. rewrite Z.add_0_l in H1, H2.
  pose proof (filter_length_le completed objects) as Hle.
  split; [exact H1|]. split; [exact H2|].
  unfold m, _get_current_performance_metrics.
  cbn [total_analyses_completed CadlyMore.success_rate].
  split; [exact H1|]. rewrite H1, H2.
  destruct objects as [|o os].
  - cbn. repeat split; try discriminate; congruence.
  - assert (E : (0 <? Z.of_nat (List.length (o :: os)))%Z = true)
      by (apply Z.ltb_lt; cbn [List.length]; lia).
    rewrite E. split; [|split; [discriminate | reflexivity]].
    apply fraction_of_counts; [lia|]. cbn [List.length]. lia.
Qed.

(* --------------------------------------------------------------------- *)
(** *** The recommendations that follow the assessment *)
(* --------------------------------------------------------------------- *)

Lemma score_is_float (structured v : val) :
  _calculate_comprehensive_quality_score structured = Ok v ->
  exists q, v = VFloat q.
Proof.
  unfold _calculate_comprehensive_quality_score. intros H.
  destruct (ocr_score structured); [|discriminate].
  destruct (symbol_score structured); [|discriminate].
  destruct (semantic_score structured); [|discriminate].
  destruct (richness_score structured); [|discriminate].
  cbn [Py.bind] in H.
  destruct (_ ++ _ ++ _ ++ _); injection H as <-; eauto.
Qed.

Lemma performance_summary_shape (pipeline_data performance : val) :
  _extract_ai_performance_summary pipeline_data = Ok performance ->
  exists ocr semantic symbol overall,
    performance = VDict [("ocr_systems", ocr);
                         ("semantic_ai", semantic);
                         ("symbol_detection", symbol);
                         ("overall_ai_success_rate", overall)] /\
    is_number overall = true.
Proof.
  unfold _extract_ai_performance_summary. intros H.
  repeat match type of H with
    | Py.bind ?m _ = Ok _ =>
        let E := fresh "E" in
        destruct m eqn:E; cbn [Py.bind] in H; [|discriminate H]
    end.
  injection H as <-. do 4 eexists. split; [reflexivity|].
  match goal with E : overall_rate _ _ = Ok _ |- _ =>
    unfold overall_rate in E;
    repeat match type of E with
      | Py.bind ?m _ = Ok _ =>
          let E' := fresh "E" in
          destruct m eqn:E'; cbn [Py.bind] in E; [|discriminate E]
      | (if ?b then _ else _) = Ok _ => destruct b
      end;
    injection E as <-; reflexivity
  end.
Qed.

Lemma lt_number (v : val) (b : Q) :
  is_number v = true -> exists low, lt v b = Ok low.
Proof.
  unfold is_number, lt. destruct (as_number v); [eauto | discriminate].
Qed.

Lemma when_none_found_sized (recommendations : list string)
    (technical_data : dict) (key message : string) :
  sized_or_absent technical_data key = true ->
  exists none : bool,
    when_none_found recommendations (VDict technical_data) key message
    = Ok (if none then recommendations ++ [message] else recommendations).
Proof.
  unfold sized_or_absent, when_none_found. rewrite get_dict. cbn [Py.bind].
  destruct (lookup key technical_data) as [[| | | |s|l|d]|]; try discriminate;
    intros _; cbn [len Py.bind]; eauto.
Qed.

Lemma assessment_review (q threshold : Q) (timestamp default : val) :
  get (quality_assessment q threshold timestamp) "needs_manual_review" default
  = Ok (VBool (negb (Qle_bool threshold q))).
Proof. reflexivity. Qed.

Lemma assessment_level (q threshold : Q) (timestamp default : val) :
  get (quality_assessment q threshold timestamp) "confidence_level" default
  = Ok (VStr (_determine_confidence_level q)).
Proof. reflexivity. Qed.

Lemma enhanced_metadata (threshold : Q) (timestamp : val)
    (r r' : ProcessingResult.t) (data : dict) (structured : val) :
  ProcessingResult.data r = VDict data ->
  lookup "structured_output" data = Some structured ->
  _enhance_analysis_result threshold timestamp (ProcessingResult.Result r)
  = Ok (ProcessingResult.Result r') ->
  exists q performance metadata,
    _calculate_comprehensive_quality_score structured = Ok (VFloat q) /\
    _extract_ai_performance_summary (VDict data) = Ok performance /\
    ProcessingResult.data r' = VDict data /\
    ProcessingResult.metadata r'
    = VDict (Py.set "ai_system_performance" performance
               (Py.set "quality_assessment"
                  (quality_assessment q threshold timestamp) metadata)).
Proof.
  intros Ed El H. unfold _enhance_analysis_result in H. rewrite Ed in H.
  cbn [contains getitem] in H. unfold has_key in H. rewrite El in H.
  cbn [Py.bind] in H.
  destruct (_calculate_comprehensive_quality_score structured) as [score|] eqn:Es;
    [|discriminate H].
  destruct (score_is_float _ _ Es) as [q ->]. cbn [Py.bind as_number] in H.
  exists q.
  destruct (ProcessingResult.metadata r) as [| | | |s|l|md];
    cbn [contains Py.bind] in H; try discriminate H.
  - destruct (is_substring "metadata" s); cbn [Py.bind setitem] in H;
      discriminate H.
  - destruct (existsb _ l); cbn [Py.bind setitem] in H; discriminate H.
  - destruct (has_key "metadata" md); cbn [Py.bind setitem] in H;
      (destruct (_extract_ai_performance_summary (VDict data)) as [p|];
       cbn [Py.bind] in H; [|discriminate H]);
      injection H as <-; cbn [ProcessingResult.data ProcessingResult.metadata];
      exists p; eexists; repeat split; auto.
Qed.

Ltac strings :=
  unfold manual_review, preprocess_image, insufficient_quality, ai_issues,
    no_dimensions, no_materials, all_good in *.

(** X21.  [_generate_analysis_recommendations] on a result that
    [_enhance_analysis_result] has assessed (threshold 0.7).  The list is
    never empty.  It asks for a manual review exactly when the quality
    score is below 0.7, suggests preprocessing exactly for scores from 0.4
    up to 0.6 and calls the image quality insufficient exactly below 0.4,
    so both come with the manual review; the message that all went well
    is only given alone, and then the score is at least 0.7. *)
Theorem recommendations_follow_the_assessment :
  forall (timestamp : val) (r r' : ProcessingResult.t) (structured : val),
    getitem (ProcessingResult.data r) "structured_output" = Ok structured ->
    findings_sized structured = true ->
    _enhance_analysis_result 0.7 timestamp (ProcessingResult.Result r)
    = Ok (ProcessingResult.Result r') ->
    exists q l,
      _calculate_comprehensive_quality_score structured = Ok (VFloat q) /\
      _generate_analysis_recommendations (ProcessingResult.Result r') = Ok l /\
      l <> [] /\
      (In manual_review l <-> q < 0.7)%Q /\
      (In preprocess_image l <-> 0.4 <= q /\ q < 0.6)%Q /\
      (In insufficient_quality l <-> q < 0.4)%Q /\
      (In all_good l -> l = [all_good] /\ 0.7 <= q)%Q.
Proof.
  intros ts r r' st Hget Hsized Henh.
  destruct (ProcessingResult.data r) as [| | | | | |data] eqn:Ed;
    try discriminate Hget.
  cbn [getitem] in Hget.
  destruct (lookup "structured_output" data) as [x|] eqn:El; [|discriminate Hget].
  injection Hget as ->.
  destruct (enhanced_metadata _ _ _ _ _ _ Ed El Henh)
    as (q & perf & md & Hq & Hperf & Hdata & Hmeta).
  destruct (performance_summary_shape _ _ Hperf)
    as (a & b & c & overall & -> & Hoverall).
  destruct (lt_number overall 0.7 Hoverall) as [low Hlow].
  exists q. unfold _generate_analysis_recommendations.
  rewrite Hmeta, Hdata. rewrite !get_dict.
  rewrite (lookup_set_other "quality_assessment" "ai_system_performance")
    by discriminate.
  rewrite !lookup_set_same. cbn [Py.bind].
  rewrite assessment_review, assessment_level. cbn [Py.bind truthy].
  rewrite get_dict. cbn [lookup String.eqb Ascii.eqb Bool.eqb Py.bind].
  rewrite Hlow. cbn [Py.bind contains getitem]. unfold has_key. rewrite El.
  cbn [Py.bind].
  destruct st as [| | | | | |sd]; try discriminate Hsized.
  rewrite get_dict. cbn [Py.bind]. unfold findings_sized in Hsized.
  pose proof (review_cases 0.7 q) as Hrev.
  assert (Htd : exists td,
             match lookup "technical_data" sd with
             | Some x => x
             | None => VDict []
             end = VDict td /\
             sized_or_absent td "dimensions_found" = true /\
             sized_or_absent td "materials_identified" = true).
  { destruct (lookup "technical_data" sd) as [[| | | | | |td]|];
      try discriminate Hsized.
    - apply andb_prop in Hsized as [H1 H2]. eauto.
    - exists []. repeat split. }
  destruct Htd as (td & -> & Hs1 & Hs2).
  match goal with |- context [when_none_found ?r3 _ "dimensions_found" _] =>
    destruct (when_none_found_sized r3 td "dimensions_found" no_dimensions Hs1)
      as [none1 ->]
  end.
  cbn [Py.bind].
  match goal with |- context [when_none_found ?r4 _ "materials_identified" _] =>
    destruct (when_none_found_sized r4 td "materials_identified" no_materials Hs2)
      as [none2 ->]
  end.
  cbn [Py.bind].
  eexists. split; [exact Hq|]. split; [reflexivity|].
  destruct (negb (Qle_bool 0.7 q)) eqn:Er.
  - assert (Hlt : (q < 0.7)%Q) by now apply Hrev.
    destruct (level_cases q) as [[-> H]|[[-> H]|[[-> H]|[-> H]]]];
      destruct low, none1, none2; cbn [eq_str String.eqb Ascii.eqb Bool.eqb app];
      strings; cbn [In];
      (split; [discriminate|]);
      repeat split; intros; try lra; auto;
      repeat match goal with
        | H : _ \/ _ |- _ => destruct H
        | H : False |- _ => destruct H
        | H : _ = _ |- _ => discriminate H
        end.
  - assert (Hge : (0.7 <= q)%Q).
    { apply Qnot_lt_le. intros Hlt. apply Hrev in Hlt. discriminate. }
    destruct (level_cases q) as [[-> H]|[[-> H]|[[-> H]|[-> H]]]];
      try lra;
      destruct low, none1, none2; cbn [eq_str String.eqb Ascii.eqb Bool.eqb app];
      strings; cbn [In];
      (split; [discriminate|]);
      repeat split; intros; try lra; auto;
      repeat match goal with
        | H : _ \/ _ |- _ => destruct H
        | H : False |- _ => destruct H
        | H : _ = _ |- _ => discriminate H
        end.
Qed.

Lemma recommendations_follow_the_assessment_witness :
  let structured :=
    VDict [("ocr_analysis",
            VDict [("api_results_summary",
                    VDict [("total_apis_used", VInt 4);
                           ("successful_apis", VInt 2)])]);
           ("technical_data",
            VDict [("dimensions_found", VList [VStr "25 mm"])])] in
  let r :=
    ProcessingResult.make (VStr "p1") (VStr "plate.png") (VStr "completed")
      (VStr "completed") (VFloat 2.5)
      (VDict [("structured_output", structured)])
      (VList []) (VDict [("start_time", VStr "then")]) (VStr "then") in
  let r' :=
    ProcessingResult.make (VStr "p1") (VStr "plate.png") (VStr "completed")
      (VStr "completed") (VFloat 2.5)
      (VDict [("structured_output", structured)])
      (VList [])
      (VDict [("start_time", VStr "then");
              ("quality_assessment",
               VDict [("overall_quality_score", VFloat (6 # 40));
                      ("needs_manual_review", VBool true);
                      ("confidence_level", VStr "Very Low");
                      ("assessment_timestamp", VStr "now")]);
              ("ai_system_performance",
               VDict [("ocr_systems", VDict []);
                      ("semantic_ai", VDict []);
                      ("symbol_detection", VDict []);
                      ("overall_ai_success_rate", VFloat 1)])])
      (VStr "then") in
  getitem (ProcessingResult.data r) "structured_output" = Ok structured /\
  findings_sized structured = true /\
  _enhance_analysis_result 0.7 (VStr "now") (ProcessingResult.Result r)
  = Ok (ProcessingResult.Result r') /\
  exists q l,
    _calculate_comprehensive_quality_score structured = Ok (VFloat q) /\
    _generate_analysis_recommendations (ProcessingResult.Result r') = Ok l /\
    l <> [] /\
    (In manual_review l <-> q < 0.7)%Q /\
    (In preprocess_image l <-> 0.4 <= q /\ q < 0.6)%Q /\
    (In insufficient_quality l <-> q < 0.4)%Q /\
    (In all_good l -> l = [all_good] /\ 0.7 <= q)%Q.
Proof.
  intros structured r r'.
  split; [reflexivity|]. split; [reflexivity|]. split; [reflexivity|].
  apply (recommendations_follow_the_assessment (VStr "now") r r' structured);
    reflexivity.
Defined.

(** X22.  The semantic confidence carries the largest weight, 0.35.
    When it contributes nothing (no semantic section, or a confidence
    that is not positive), the quality score cannot exceed 0.65, whatever
    the other three parts are: the assessment then always asks for a
    manual review and never reaches the level ['High']. *)
Theorem without_semantic_confidence_a_review_is_needed :
  forall (structured timestamp : val),
    quality_inputs_ok structured = true ->
    semantic_score structured = Ok [] ->
    exists q level,
      _calculate_comprehensive_quality_score structured = Ok (VFloat q) /\
      (q <= 0.65)%Q /\
      quality_assessment q 0.7 timestamp
      = VDict [("overall_quality_score", VFloat q);
               ("needs_manual_review", VBool true);
               ("confidence_level", VStr level);
               ("assessment_timestamp", timestamp)] /\
      level <> "High".
Proof.
  intros [| | | | | |d] ts; try discriminate. intros H Hsem.
  destruct (score_parts d H)
    as (l1 & l2 & l3 & l4 & q & _ & B1 & _ & B2 & E3 & _ & _ & B4 & Hq & Hsum).
  rewrite Hsem in E3. injection E3 as <-.
  exists q, (_determine_confidence_level q). split; [exact Hq|].
  apply at_most_sum in B1, B2, B4; try discriminate.
  assert (Hle : (q <= 0.65)%Q).
  { destruct Hsum as [[_ ->]| ->]; cbn [Qsum]; lra. }
  split; [exact Hle|].
  assert (Hrev : negb (Qle_bool 0.7 q) = true) by (apply review_cases; lra).
  unfold quality_assessment. rewrite Hrev. split; [reflexivity|].
  destruct (level_cases q) as [[_ Hh]|[[-> _]|[[-> _]|[-> _]]]];
    [lra | discriminate..].
Qed.

Lemma without_semantic_confidence_a_review_is_needed_witness :
  let structured :=
    VDict [("ocr_analysis",
            VDict [("api_results_summary",
                    VDict [("total_apis_used", VInt 4);
                           ("successful_apis", VInt 4)])]);
           ("symbol_analysis",
            VDict [("performance", VDict [("total_elements_detected", VInt 45)])]);
           ("technical_data",
            VDict [("quality_metrics",
                    VDict [("technical_content_richness", VInt 30)])])] in
  quality_inputs_ok structured = true /\
  semantic_score structured = Ok [] /\
  exists q level,
    _calculate_comprehensive_quality_score structured = Ok (VFloat q) /\
    (q <= 0.65)%Q /\
    quality_assessment q 0.7 (VStr "now")
    = VDict [("overall_quality_score", VFloat q);
             ("needs_manual_review", VBool true);
             ("confidence_level", VStr level);
             ("assessment_timestamp", VStr "now")] /\
    level <> "High".
Proof.
  intros structured. split; [reflexivity|]. split; [reflexivity|].
  apply (without_semantic_confidence_a_review_is_needed structured (VStr "now"));
    reflexivity.
Defined.

End CadlyFacts.

(* ===================================================================== *)
(** ** enhanced_symbol_detection.py: shapes and lines *)
(* ===================================================================== *)

Section ShapeFacts.

Import SymbolDetection Shapes Terms.

Lemma classification_bucket (vertices : nat) (aspect_ratio circularity : Q) :
  In (fst (classification vertices aspect_ratio circularity))
     ["circles"; "rectangles"; "triangles"; "polygons"].
Proof.
  unfold classification.
  destruct (vertices =? 3)%nat; [cbn; tauto|].
  destruct (vertices =? 4)%nat; [cbn; tauto|].
  destruct (4 <? vertices)%nat; [cbn; tauto|].
  destruct (Qlt_bool 0.7 circularity); cbn; tauto.
Qed.

Lemma classify_shape_type (pi : Q) (c : contour) (shape_info : val) :
  _classify_shape pi c = Some shape_info ->
  exists key,
    getitem shape_info "type" = Ok (VStr key) /\
    In key ["circles"; "rectangles"; "triangles"; "polygons"].
Proof.
  unfold _classify_shape.
  destruct (div (inject_Z (w c)) (inject_Z (h c))) as [aspect_ratio|];
    [|discriminate].
  destruct (div (area c) (inject_Z (w c * h c))) as [extent|]; [|discriminate].
  intros H. injection H as <-. eexists. split; [reflexivity|].
  apply classification_bucket.
Qed.

Lemma add_to_bucket (key : string) (x : val)
    (cs rs ts ps ls : list val) (n : Z) :
  In key ["circles"; "rectangles"; "triangles"; "polygons"] ->
  exists cs' rs' ts' ps',
    (s1 <- extend (shapes_dict cs rs ts ps ls n) key [x] ;; count_more s1 1)
    = Ok (shapes_dict (cs ++ cs') (rs ++ rs') (ts ++ ts') (ps ++ ps') ls (n + 1))
    /\ (List.length cs' + List.length rs' + List.length ts' + List.length ps'
        = 1)%nat.
Proof.
  intros [<-|[<-|[<-|[<-|[]]]]].
  - exists [x], [], [], []. rewrite !app_nil_r. split; reflexivity.
  - exists [], [x], [], []. rewrite !app_nil_r. split; reflexivity.
  - exists [], [], [x], []. rewrite !app_nil_r. split; reflexivity.
  - exists [], [], [], [x]. rewrite !app_nil_r. split; reflexivity.
Qed.

Lemma classify_contours_fills (pi : Q) (contours : list contour) :
  forall (cs rs ts ps ls : list val) (n : Z),
  exists cs' rs' ts' ps',
    classify_contours pi contours (shapes_dict cs rs ts ps ls n)
    = Ok (shapes_dict (cs ++ cs') (rs ++ rs') (ts ++ ts') (ps ++ ps') ls
            (n + Z.of_nat (List.length cs' + List.length rs'
                           + List.length ts' + List.length ps')))
    /\ (List.length cs' + List.length rs' + List.length ts' + List.length ps'
        <= List.length (filter large_enough contours))%nat.
Proof.
  induction contours as [|c rest IH]; intros cs rs ts ps ls n.
  - exists [], [], [], []. rewrite !app_nil_r. cbn. rewrite Z.add_0_r.
    split; [reflexivity | lia].
  - cbn [classify_contours filter]. unfold large_enough at 1.
    destruct (Qlt_bool (area c) 50); cbn [negb].
    + apply IH.
    + destruct (_classify_shape pi c) as [shape_info|] eqn:Es.
      * destruct (classify_shape_type pi c shape_info Es) as (key & -> & Hkey).
        cbn [Py.bind].
        destruct (add_to_bucket key shape_info cs rs ts ps ls n Hkey)
          as (c1 & r1 & t1 & p1 & Hadd & Hone).
        destruct (extend (shapes_dict cs rs ts ps ls n) key [shape_info])
          as [s1|]; [|discriminate Hadd].
        cbn [Py.bind] in Hadd |- *. rewrite Hadd. cbn [Py.bind].
        destruct (IH (cs ++ c1) (rs ++ r1) (ts ++ t1) (ps ++ p1) ls (n + 1)%Z)
          as (c2 & r2 & t2 & p2 & Hloop & Hle).
        exists (c1 ++ c2), (r1 ++ r2), (t1 ++ t2), (p1 ++ p2).
        split; [|rewrite !length_app; cbn [List.length]; lia].
        rewrite Hloop, !app_assoc. do 2 f_equal. rewrite !length_app. lia.
      * destruct (IH cs rs ts ps ls n) as (c2 & r2 & t2 & p2 & Hloop & Hle).
        exists c2, r2, t2, p2. split; [exact Hloop|]. cbn [List.length]. lia.
Qed.

(** X23.  [detect_geometric_shapes] keeps its count in step with its
    lists.  Once OpenCV has returned the contours, the segments and the
    circles, the function returns without error (every classified contour
    goes to one of the four buckets that exist, a contour with an empty
    bounding box is skipped), [total_shapes] is the sum of the sizes of
    the five lists, the Hough circles come last in [circles], and the
    contours contribute at most one shape per contour of area 50 or
    more. *)
Theorem total_shapes_is_the_sum_of_the_lists :
  forall (pi : Q) (contours : list contour) (lines : option (list segment))
         (circles : list val),
    exists cs rs ts ps,
      detect_geometric_shapes pi contours lines circles
      = Ok [("circles", VList (cs ++ circles));
            ("rectangles", VList rs);
            ("triangles", VList ts);
            ("polygons", VList ps);
            ("lines", VList (_detect_lines lines));
            ("total_shapes",
             VInt (Z.of_nat (List.length (cs ++ circles) + List.length rs
                             + List.length ts + List.length ps
                             + List.length (_detect_lines lines))))]
      /\ (List.length cs + List.length rs + List.length ts + List.length ps
          <= List.length (filter large_enough contours))%nat
      /\ List.length (_detect_lines lines)
         = match lines with
           | Some segments => List.length segments
           | None => 0%nat
           end.
Proof.
  intros pi contours lines circles.
  destruct (classify_contours_fills pi contours [] [] [] [] [] 0)
    as (cs & rs & ts & ps & Hloop & Hle).
  exists cs, rs, ts, ps. unfold detect_geometric_shapes.
  change initial_shapes with (shapes_dict [] [] [] [] [] 0).
  rewrite Hloop. cbn [Py.bind app Z.add].
  split; [|split; [exact Hle|]].
  - unfold shapes_dict. cbn.
    match goal with
    | |- Ok [_; _; _; _; _; (_, VInt ?X)] = Ok [_; _; _; _; _; (_, VInt ?Y)] =>
        replace X with Y by (rewrite !length_app; lia)
    end.
    reflexivity.
  - destruct lines; cbn [_detect_lines]; [apply length_map | reflexivity].
Qed.

End ShapeFacts.
